(** * ProntoPDF: the generation pipeline and the PDF helpers of [src/index.tsx]

[src/index.tsx] holds two revisions of the application.  The first
(lines 1-861) generates chapters one at a time, wraps every request in
[callWithRetry] and asks for an illustration per chapter; the second
(from line 861 on) issues the chapter requests in batches of three and
awaits them with [Promise.all].  Both share [hexToRgb] and the file name
computed at the end of [createPDF].

The embedding is shallow.  Asynchronous code becomes a state-and-error
monad over a [World] that counts the requests sent so far and records
the observable effects (progress messages, timers, console output).
The generative backend is an oracle: the outcome of the [n]-th request
of the run.  Strings are sequences of code units below 256; literals
with accents stand for their UTF-8 bytes.

Around the pipeline, the handlers of the component [App] of both
revisions act on a record of its state, of the browser's storage and of
the effects performed; the questionnaire [StepWizard] is a transition
system over the clicks and the timers they set; and [createPDF] is the
list of the calls it makes on the document, over numbers of which no
arithmetic is assumed. *)

From Stdlib Require Import ZArith Lia Ascii String.
From stdpp Require Import list strings pretty.

Local Open Scope string_scope.
Local Open Scope list_scope.
Local Open Scope Z_scope.

(** ** Strings as the JavaScript runtime sees them *)

Module Js.

Definition between (lo hi : nat) (c : ascii) : bool :=
  (lo <=? nat_of_ascii c)%nat && (nat_of_ascii c <=? hi)%nat.

Definition is_digit (c : ascii) : bool := between 48 57 c.
Definition is_upper (c : ascii) : bool := between 65 90 c.
Definition is_lower (c : ascii) : bool := between 97 122 c.

(** Lower case for one code unit, A-Z only.  This is all that
    [toLowerCase] does to the file name, whose other characters have been
    replaced before, and all that the [i] flag of a regular expression
    (without the [u] flag) does to a pattern of ASCII letters: no other
    code unit is folded onto an ASCII letter. *)
Definition lower (c : ascii) : ascii :=
  if is_upper c then ascii_of_nat (nat_of_ascii c + 32) else c.

Fixpoint map (f : ascii -> ascii) (s : string) : string :=
  match s with
  | EmptyString => EmptyString
  | String c s' => String (f c) (map f s')
  end.

Definition toLowerCase (s : string) : string := map lower s.

(** [s.startsWith(p)] *)
Definition startsWith (p s : string) : bool := String.prefix p s.

(** [s.slice(a, b)] for [0 <= a <= b]; like JavaScript it is cut short at
    the end of the string. *)
Definition slice (a b : nat) (s : string) : string :=
  String.substring a (b - a) s.

(** Does [p] occur somewhere in [s]? *)
Fixpoint includes (p s : string) : bool :=
  String.prefix p s ||
  match s with
  | EmptyString => false
  | String _ s' => includes p s'
  end.

(** The one-character string holding a double quote. *)
Definition quote : string := String (ascii_of_nat 34) EmptyString.

(** A string in a boolean position: only the empty string is falsy. *)
Definition truthy (s : string) : bool :=
  match s with EmptyString => false | _ => true end.

(** A possibly [undefined] string in a boolean position. *)
Definition truthy_opt (o : option string) : bool :=
  match o with Some s => truthy s | None => false end.

(** *** Numbers

    A JavaScript number that is either [NaN] or an integer.  The two
    zeros are not told apart. *)
Inductive Number := NaN | Int (z : Z).

(** The value of a code unit as a digit in base 16. *)
Definition hex_digit (c : ascii) : option Z :=
  let n := nat_of_ascii c in
  if is_digit c then Some (Z.of_nat (n - 48))
  else if between 97 102 c then Some (Z.of_nat (n - 87))
  else if between 65 70 c then Some (Z.of_nat (n - 55))
  else None.

(** The white space that [parseInt] skips, among code units below 256:
    TAB, LF, VT, FF, CR, SP and NBSP. *)
Definition is_space (c : ascii) : bool :=
  let n := nat_of_ascii c in
  between 9 13 c || (n =? 32)%nat || (n =? 160)%nat.

Fixpoint trimStart (s : string) : string :=
  match s with
  | String c s' => if is_space c then trimStart s' else s
  | EmptyString => EmptyString
  end.

(** The longest prefix of base-16 digits, read left to right; [None] when
    it is empty. *)
Fixpoint hex_prefix (acc : option Z) (s : string) : option Z :=
  match s with
  | EmptyString => acc
  | String c s' =>
      match hex_digit c with
      | Some d => hex_prefix (Some (16 * default 0 acc + d)) s'
      | None => acc
      end
  end.

(** [parseInt(s, 16)]: skip white space, read a sign, drop one [0x] or
    [0X], read the digits. *)
Definition parseInt16 (s : string) : Number :=
  let s1 := trimStart s in
  let '(sign, s2) :=
    match s1 with
    | String "-" r => (-1, r)
    | String "+" r => (1, r)
    | _ => (1, s1)
    end in
  let s3 :=
    match s2 with
    | String "0" (String "x" r) => r
    | String "0" (String "X" r) => r
    | _ => s2
    end in
  match hex_prefix None s3 with
  | Some v => Int (sign * v)
  | None => NaN
  end.

(** The text of [w / 1000] in a template literal, for an integer [w]:
    the integer part, then the thousandths without trailing zeros.
    (Exact while [w] is small enough for the quotient to print in
    positional notation, which holds far beyond any delay used here.) *)
Definition thousandths (w : Z) : string :=
  let a := Z.abs w in
  let q := a / 1000 in
  let r := a mod 1000 in
  let frac :=
    if r =? 0 then EmptyString
    else if r mod 100 =? 0 then "." +:+ pretty (r / 100)
    else if r mod 10 =? 0 then
      "." +:+ pretty (r / 100) +:+ pretty (r / 10 mod 10)
    else "." +:+ pretty (r / 100) +:+ pretty (r / 10 mod 10)
             +:+ pretty (r mod 10) in
  (if w <? 0 then "-" else EmptyString) +:+ pretty q +:+ frac.

End Js.

(** ** Errors, effects and the monad of asynchronous code *)

(** A thrown value, as far as the source looks into it: [error?.status],
    [error?.code] and [error?.message].  [status] and [code] are only
    compared with the number 429, so a field that is absent or is not a
    number is [None]; [message] is a string when it is there, as it is for
    every [Error]. *)
Record JsError := mkError {
  status : option Z;
  code : option Z;
  message : option string
}.

(** [new Error(msg)] *)
Definition newError (msg : string) : JsError :=
  {| status := None; code := None; message := Some msg |}.

(** A promise that has settled. *)
Inductive Settled (A : Type) :=
| Resolved (a : A)
| Rejected (e : JsError).
Arguments Resolved {A} a.
Arguments Rejected {A} e.

(** What running a piece of asynchronous code comes to: a value, an
    exception, or a promise that never settles. *)
Inductive Outcome (A : Type) :=
| Ok (a : A)
| Throw (e : JsError)
| Pending.
Arguments Ok {A} a.
Arguments Throw {A} e.
Arguments Pending {A}.

(** The effects a run leaves behind, in order. *)
Inductive Event :=
| Progress (msg : string)
| Sleep (ms : Z)
| ConsoleWarn (msg : string) (payload : option JsError)
| ConsoleError (msg : string) (payload : option JsError).

(** [calls] is the number of external operations started so far. *)
Record World := mkWorld {
  calls : nat;
  trace : list Event
}.

Definition M (A : Type) : Type := World -> Outcome A * World.

Definition ret {A} (a : A) : M A := fun w => (Ok a, w).

Definition throw {A} (e : JsError) : M A := fun w => (Throw e, w).

Definition pending {A} : M A := fun w => (Pending, w).

Definition bind {A B} (m : M A) (k : A -> M B) : M B :=
  fun w =>
    match m w with
    | (Ok a, w') => k a w'
    | (Throw e, w') => (Throw e, w')
    | (Pending, w') => (Pending, w')
    end.

Notation "x <- c1 ;; c2" := (bind c1 (fun x => c2))
  (at level 100, c1 at next level, right associativity).
Notation "c1 ;; c2" := (bind c1 (fun _ => c2))
  (at level 100, right associativity).

(** [try { body } catch (e) { handler(e) }] *)
Definition tryCatch {A} (body : M A) (handler : JsError -> M A) : M A :=
  fun w =>
    match body w with
    | (Throw e, w') => handler e w'
    | r => r
    end.

Definition emit (ev : Event) : M unit :=
  fun w => (Ok tt, {| calls := calls w; trace := trace w ++ [ev] |}).

(** The callback [onProgress]; it records the message and returns. *)
Definition onProgress (msg : string) : M unit := emit (Progress msg).

(** [await new Promise(r => setTimeout(r, ms))] *)
Definition sleep (ms : Z) : M unit := emit (Sleep ms).

(** An external asynchronous operation [() => Promise<T>]: what its
    invocation settles to when it is the [n]-th operation of the run.
    The promise is taken at the time it settles; an operation that stays
    pending for ever has no inhabitant here, so that what is proved with
    this type is proved of the runs whose operations settle.  (The
    second revision, which awaits several requests at once, keeps apart
    those that have not settled: see [settleOrder].) *)
Definition Thunk (A : Type) : Type := nat -> Settled A.

Definition settle {A} (s : Settled A) : Outcome A :=
  match s with
  | Resolved a => Ok a
  | Rejected e => Throw e
  end.

(** A synchronous call that returns or throws, such as [JSON.parse]. *)
Definition attempt {A} (s : Settled A) : M A := fun w => (settle s, w).

(** [await fn()] *)
Definition await {A} (fn : Thunk A) : M A :=
  fun w => (settle (fn (calls w)),
            {| calls := S (calls w); trace := trace w |}).

(** The timers of a trace. *)
Definition sleeps (t : list Event) : list Z :=
  omap (fun ev => match ev with Sleep ms => Some ms | _ => None end) t.

(** The progress messages of a trace. *)
Definition progressMessages (t : list Event) : list string :=
  omap (fun ev => match ev with Progress m => Some m | _ => None end) t.

Definition sumZ (l : list Z) : Z := foldr Z.add 0 l.

(** ** [callWithRetry] (first revision, lines 67-91) *)

(** [/quota|limit|429/i.test(s)] *)
Definition rateLimitPattern (s : string) : bool :=
  let l := Js.toLowerCase s in
  Js.includes "quota" l || Js.includes "limit" l || Js.includes "429" l.

Definition is429 (v : option Z) : bool :=
  match v with Some n => n =? 429 | None => false end.

(** [const isRateLimit = error?.status === 429 || error?.code === 429 ||
    (error?.message && /quota|limit|429/i.test(error.message))] *)
Definition isRateLimit (error : JsError) : bool :=
  is429 (status error) || is429 (code error) ||
  match message error with
  | Some m => Js.truthy m && rateLimitPattern m
  | None => false
  end.

Section CallWithRetry.
Context {T : Type}.
Variable operationName : string.
Variable fn : Thunk T.
Variables retries baseDelay : Z.

(** The error thrown after the loop (line 90). *)
Definition exhausted : JsError :=
  newError ("Falha na operação " +:+ operationName +:+ " após tentativas.").

Definition backoffMessage (waitTime : Z) : string :=
  "Alta demanda (" +:+ operationName +:+ "). Aguardando "
    +:+ Js.thousandths waitTime +:+ "s...".

Definition backoffWarning (waitTime : Z) : string :=
  "[" +:+ operationName +:+ "] Rate limit hit. Waiting "
    +:+ pretty waitTime +:+ "ms".

(** [for (let i = 0; i < retries; i++) { try ... catch ... }] started at
    [i].  The fuel bounds the number of loop tests; [callWithRetry] gives
    one more than the loop can use. *)
Fixpoint retryLoop (fuel : nat) (i : Z) : M T :=
  match fuel with
  | O => pending
  | S fuel' =>
      if i <? retries then
        tryCatch (await fn) (fun error =>
          if isRateLimit error && (i <? retries - 1) then
            let waitTime := baseDelay * 2 ^ i in
            onProgress (backoffMessage waitTime) ;;
            emit (ConsoleWarn (backoffWarning waitTime) None) ;;
            sleep waitTime ;;
            retryLoop fuel' (i + 1)
          else
            emit (ConsoleError ("Error in " +:+ operationName +:+ ":")
                               (Some error)) ;;
            throw error)
      else throw exhausted
  end.

Definition callWithRetry : M T :=
  retryLoop (S (Z.to_nat retries)) 0.

End CallWithRetry.


(** ** The data of a run (lines 24-52) *)

Module Answers.
Record t := mk {
  what : string;
  who : string;
  where_ : string;
  objective : string;
  level : string
}.
End Answers.

(** [colorTheme] is optional here because [hexToRgb] provides for a missing
    one; the other fields are as the interface declares them. *)
Module OutlineData.
Record t := mk {
  title : string;
  subtitle : string;
  author : string;
  summary : string;
  colorTheme : option string;
  chapterTitles : list string
}.
End OutlineData.

(** What [JSON.parse(text) as OutlineData] holds (lines 141 and 964).  The
    cast checks nothing, and the schema sent with the request types the
    fields without requiring any: the reply is an outline, or it is a
    value of which [chapterTitles.length] cannot be read, [e] being the
    [TypeError] the engine throws there. *)
Inductive Reply :=
| Outline (outline : OutlineData.t)
| Unreadable (e : JsError).


Module ContentData.
Record t (Chapter : Type) := mk {
  title : string;
  subtitle : string;
  author : string;
  summary : string;
  colorTheme : option string;
  chapters : list Chapter
}.
Arguments mk {Chapter}.
Arguments title {Chapter}.
Arguments subtitle {Chapter}.
Arguments author {Chapter}.
Arguments summary {Chapter}.
Arguments colorTheme {Chapter}.
Arguments chapters {Chapter}.
End ContentData.

(** *** The backend ([ai.models.generateContent])

    A request is a model name and a prompt; of the prompt, the parts that
    vary are kept.  Both revisions build their prompts from the same
    parts. *)
Inductive Prompt :=
| OutlinePrompt (answers : Answers.t)
| ChapterPrompt (chapterTitle bookTitle who level : string)
| ImagePrompt (chapterTitle what : string).

Record Request := mkRequest {
  model : string;
  contents : Prompt
}.

(** [GenerateContentResponse], as far as the source reads it: [text] and
    [candidates?.[0]?.content?.parts], whose elements may carry
    [inlineData]. *)
Module Response.
Record InlineData := mkInline {
  mimeType : option string;
  data : option string
}.
Record Part := mkPart { inlineData : option InlineData }.
Record Content := mkContent { parts : option (list Part) }.
Record Candidate := mkCandidate { content : option Content }.
Record t := mk {
  text : option string;
  candidates : option (list Candidate)
}.
End Response.

(** The backend as an oracle: what request [r] settles to when it is the
    [n]-th external operation of the run. *)
Definition Api : Type := nat -> Request -> Settled Response.t.

(** A template literal prints a missing value as [undefined]. *)
Definition interpolate (o : option string) : string :=
  default "undefined" o.

Definition outlineRequest (answers : Answers.t) : Request :=
  {| model := "gemini-3-flash-preview"; contents := OutlinePrompt answers |}.

Definition chapterRequest (chapterTitle : string) (outline : OutlineData.t)
    (answers : Answers.t) : Request :=
  {| model := "gemini-3-flash-preview";
     contents := ChapterPrompt chapterTitle (OutlineData.title outline)
                   (Answers.who answers) (Answers.level answers) |}.

Definition imageRequest (chapterTitle : string) (answers : Answers.t) : Request :=
  {| model := "gemini-2.5-flash-image";
     contents := ImagePrompt chapterTitle (Answers.what answers) |}.

(** ** First revision: one chapter at a time, throttled (lines 62-219) *)

Module Throttled.

(** [content] is what line 205 assigns: a string, or [undefined] when the
    parsed reply has no [content] ([None]). *)
Record Chapter := mkChapter {
  title : string;
  content : option string;
  image : option string
}.

Definition unavailable : string := "Conteúdo indisponível.".
Definition chapterError : string :=
  "Erro na geração deste capítulo. O conteúdo foi omitido.".

(** [imageResult.candidates?.[0]?.content?.parts] *)
Definition firstParts (r : Response.t) : option (list Response.Part) :=
  match Response.candidates r with
  | Some (c :: _) =>
      match Response.content c with
      | Some ct => Response.parts ct
      | None => None
      end
  | _ => None
  end.

(** [for (const part of parts) if (part.inlineData) { ...; break; }] *)
Fixpoint firstInline (parts : list Response.Part) : option string :=
  match parts with
  | [] => None
  | part :: rest =>
      match Response.inlineData part with
      | Some d =>
          Some ("data:" +:+ interpolate (Response.mimeType d)
                  +:+ ";base64," +:+ interpolate (Response.data d))
      | None => firstInline rest
      end
  end.

Section Run.
Variable api : Api.
(** [JSON.parse(text) as OutlineData] and [JSON.parse(text).content];
    [Rejected] is the exception the parser (or the field access)
    throws.  The declared response schema makes [content] a string when
    it is there, and does not require it: [None] is [undefined]. *)
Variable parseOutline : string -> Settled Reply.
Variable parseContent : string -> Settled (option string).
Variable answers : Answers.t.

(** Step 1 (lines 117-145). *)
Definition generateOutline : M Reply :=
  tryCatch
    (outlineResponse <-
       callWithRetry "Gerar Estrutura"
         (fun n => api n (outlineRequest answers)) 3 4000 ;;
     match Response.text outlineResponse with
     | Some t =>
         if Js.truthy t then attempt (parseOutline t)
         else throw (newError "Resposta vazia da IA.")
     | None => throw (newError "Resposta vazia da IA.")
     end)
    (fun e =>
       emit (ConsoleError "Falha na estrutura:" (Some e)) ;;
       throw (newError "Não foi possível conectar à IA. Verifique sua chave de API ou tente novamente.")).

Section Chapters.
Variable outline : OutlineData.t.
Variable totalChapters : nat.

(** The inner [try] (lines 183-203): its value is [imageBase64]. *)
Definition generateImage (i : nat) (chapterTitle : string)
    : M (option string) :=
  tryCatch
    (sleep 1000 ;;
     imageResult <-
       callWithRetry ("Imagem Cap " +:+ pretty (i + 1)%nat)
         (fun n => api n (imageRequest chapterTitle answers)) 1 4000 ;;
     ret (match firstParts imageResult with
          | Some parts => firstInline parts
          | None => None
          end))
    (fun imgErr =>
       emit (ConsoleWarn ("Imagem pulada para " +:+ chapterTitle)
                         (Some imgErr)) ;;
       ret None).

(** Line 205. *)
Definition chapterText (textResult : Response.t) : M (option string) :=
  match Response.text textResult with
  | Some t =>
      if Js.truthy t then attempt (parseContent t)
      else ret (Some unavailable)
  | None => ret (Some unavailable)
  end.

Definition textThunk (chapterTitle : string) : Thunk Response.t :=
  fun n => api n (chapterRequest chapterTitle outline answers).

Definition generateText (i : nat) (chapterTitle : string)
    : M Response.t :=
  callWithRetry ("Texto Cap " +:+ pretty (i + 1)%nat)
    (textThunk chapterTitle) 3 4000.

Definition chapterProgress (i : nat) (chapterTitle : string) : string :=
  "Escrevendo capítulo " +:+ pretty (i + 1)%nat +:+ "/"
    +:+ pretty totalChapters +:+ ": " +:+ Js.quote +:+ chapterTitle
    +:+ Js.quote +:+ "...".

(** The body of the loop (lines 152-214) at index [i]; its value is
    the array [chapters] after the iteration.  Nothing that follows
    the [push] of the [try] block can throw, so the handler pushes on
    the array as it was when the iteration began. *)
Definition chapterStep (i : nat) (chapterTitle : string)
    (chapters : list Chapter) : M (list Chapter) :=
  onProgress (chapterProgress i chapterTitle) ;;
  tryCatch
    (textResult <- generateText i chapterTitle ;;
     imageBase64 <- generateImage i chapterTitle ;;
     text <- chapterText textResult ;;
     let chapters' :=
       (chapters ++ [{| title := chapterTitle; content := text;
                        image := imageBase64 |}])%list in
     (if Z.of_nat i <? Z.of_nat totalChapters - 1
      then sleep 2000 else ret tt) ;;
     ret chapters')
    (fun e =>
       emit (ConsoleError ("Erro no capítulo " +:+ chapterTitle)
                          (Some e)) ;;
       ret (chapters ++ [{| title := chapterTitle;
                            content := Some chapterError;
                            image := None |}])%list).

(** [for (let i = 0; i < totalChapters; i++)] from index [i] on,
    [titles] being what is left of [outline.chapterTitles]. *)
Fixpoint chapterLoop (i : nat) (titles : list string)
    (chapters : list Chapter) : M (list Chapter) :=
  match titles with
  | [] => ret chapters
  | chapterTitle :: rest =>
      chapters' <- chapterStep i chapterTitle chapters ;;
      chapterLoop (S i) rest chapters'
  end.
End Chapters.

(** Step 2 and the result (lines 148-218). *)
Definition generateChapters (outline : OutlineData.t) : M (list Chapter) :=
  chapterLoop outline (length (OutlineData.chapterTitles outline))
    0 (OutlineData.chapterTitles outline) [].

(** The value returned: the outline's metadata and the chapters. *)
Definition assemble (outline : OutlineData.t) (chapters : list Chapter)
    : ContentData.t Chapter :=
  {| ContentData.title := OutlineData.title outline;
     ContentData.subtitle := OutlineData.subtitle outline;
     ContentData.author := OutlineData.author outline;
     ContentData.summary := OutlineData.summary outline;
     ContentData.colorTheme := OutlineData.colorTheme outline;
     ContentData.chapters := chapters |}.

(** [outline.chapterTitles.length] (line 149), read outside the [try]
    of step 1. *)
Definition chapterTitlesOf (reply : Reply) : M OutlineData.t :=
  match reply with
  | Outline outline => ret outline
  | Unreadable e => throw e
  end.

Definition generateMaterial : M (ContentData.t Chapter) :=
  onProgress "Analisando nicho e criando estrutura..." ;;
  reply <- generateOutline ;;
  outline <- chapterTitlesOf reply ;;
  chapters <- generateChapters outline ;;
  onProgress "Finalizando diagramação..." ;;
  ret (assemble outline chapters).
End Run.

End Throttled.

(** ** Second revision: batches of three awaited together (lines 915-1029) *)

Module Batched.

(** [content] is what line 1007 assigns: a string, or [undefined] when
    the parsed reply has no [content] ([None]). *)
Record Chapter := mkChapter {
  title : string;
  content : option string
}.

Definition notGenerated : string := "Conteúdo não gerado.".
Definition chapterError : string :=
  "Ocorreu um erro ao gerar este capítulo. Tente regenerar o material.".

Definition batchSize : nat := 3.

(** A request in flight: the chapter it is for and what it will settle
    to. *)
Definition InFlight : Type := string * Settled Response.t.

Section Run.
Variable api : Api.
Variable parseOutline : string -> Settled Reply.
Variable parseContent : string -> Settled (option string).
Variable answers : Answers.t.
(** For the batch that starts at index [i]: the positions of its
    members in the order in which their requests settle. *)
Variable settleOrder : nat -> list nat.

(** Step 1 (lines 939-964): one request, no retry, no handler. *)
Definition generateOutline : M Reply :=
  outlineResponse <- await (fun n => api n (outlineRequest answers)) ;;
  match Response.text outlineResponse with
  | Some t =>
      if Js.truthy t then attempt (parseOutline t)
      else throw (newError "Falha ao gerar estrutura.")
  | None => throw (newError "Falha ao gerar estrutura.")
  end.

Section Chapters.
Variable outline : OutlineData.t.

(** An arrow of [batch.map(async ...)] runs up to its [await]: the
    request is sent. *)
Definition startChapter (chapterTitle : string) : M InFlight :=
  fun w =>
    (Ok (chapterTitle,
         api (calls w) (chapterRequest chapterTitle outline answers)),
     {| calls := S (calls w); trace := trace w |}).

Fixpoint startBatch (batch : list string) : M (list InFlight) :=
  match batch with
  | [] => ret []
  | chapterTitle :: rest =>
      p <- startChapter chapterTitle ;;
      ps <- startBatch rest ;;
      ret (p :: ps)
  end.

(** Line 1007. *)
Definition chapterText (result : Response.t) : M (option string) :=
  match Response.text result with
  | Some t =>
      if Js.truthy t then attempt (parseContent t)
      else ret (Some notGenerated)
  | None => ret (Some notGenerated)
  end.

(** The rest of the arrow, run when its request has settled
    (lines 993-1012). *)
Definition finishChapter (p : InFlight) : M Chapter :=
  let '(chapterTitle, settled) := p in
  tryCatch
    (result <- attempt settled ;;
     text <- chapterText result ;;
     ret {| title := chapterTitle; content := text |})
    (fun e =>
       emit (ConsoleError ("Erro no capítulo " +:+ chapterTitle)
                          (Some e)) ;;
       ret {| title := chapterTitle; content := Some chapterError |}).

(** [Promise.all]: as each member settles, its value is stored at the
    member's own position. *)
Fixpoint settleAll (members : list InFlight) (order : list nat)
    (values : list (option Chapter)) : M (list (option Chapter)) :=
  match order with
  | [] => ret values
  | j :: order' =>
      match members !! j with
      | Some p =>
          c <- finishChapter p ;;
          settleAll members order' (<[j := Some c]> values)
      | None => settleAll members order' values
      end
  end.

(** [await Promise.all(batchPromises)]; it stays pending while a
    member has not settled. *)
Definition promiseAll (members : list InFlight) (order : list nat)
    : M (list Chapter) :=
  values <- settleAll members order (replicate (length members) None) ;;
  match mapM id values with
  | Some batchResults => ret batchResults
  | None => pending
  end.

Definition batchProgress (i totalChapters : nat) : string :=
  "Escrevendo capítulos " +:+ pretty (i + 1)%nat +:+ " a "
    +:+ pretty (Nat.min (i + batchSize) totalChapters) +:+ " de "
    +:+ pretty totalChapters +:+ "...".

(** [for (let i = 0; i < totalChapters; i += batchSize)] from [i]
    on.  The fuel bounds the number of loop tests. *)
Fixpoint batchLoop (fuel : nat) (i : nat) (chapters : list Chapter)
    : M (list Chapter) :=
  let titles := OutlineData.chapterTitles outline in
  let totalChapters := length titles in
  match fuel with
  | O => pending
  | S fuel' =>
      if (i <? totalChapters)%nat then
        let batch := take batchSize (drop i titles) in
        onProgress (batchProgress i totalChapters) ;;
        batchPromises <- startBatch batch ;;
        batchResults <- promiseAll batchPromises (settleOrder i) ;;
        batchLoop fuel' (i + batchSize)%nat
                  (chapters ++ batchResults)%list
      else ret chapters
  end.
End Chapters.

Definition generateChapters (outline : OutlineData.t) : M (list Chapter) :=
  batchLoop outline (S (length (OutlineData.chapterTitles outline))) 0 [].

(** The value returned: the outline's metadata and the chapters. *)
Definition assemble (outline : OutlineData.t) (chapters : list Chapter)
    : ContentData.t Chapter :=
  {| ContentData.title := OutlineData.title outline;
     ContentData.subtitle := OutlineData.subtitle outline;
     ContentData.author := OutlineData.author outline;
     ContentData.summary := OutlineData.summary outline;
     ContentData.colorTheme := OutlineData.colorTheme outline;
     ContentData.chapters := chapters |}.

(** [outline.chapterTitles.length] (line 969). *)
Definition chapterTitlesOf (reply : Reply) : M OutlineData.t :=
  match reply with
  | Outline outline => ret outline
  | Unreadable e => throw e
  end.

Definition generateMaterial : M (ContentData.t Chapter) :=
  onProgress "Criando estrutura, capa e sumário..." ;;
  reply <- generateOutline ;;
  outline <- chapterTitlesOf reply ;;
  chapters <- generateChapters outline ;;
  onProgress "Finalizando formatação..." ;;
  ret (assemble outline chapters).
End Run.

End Batched.

(** ** The PDF helpers (lines 229-236 and 313; again at 1046-1053 and 1246) *)

Module Pdf.

Record Rgb := mkRgb { r : Js.Number; g : Js.Number; b : Js.Number }.

(** The dark slate of the fallback. *)
Definition fallback : Rgb :=
  {| r := Js.Int 30; g := Js.Int 41; b := Js.Int 59 |}.

(** [hexToRgb]; [None] is a missing [colorTheme]. *)
Definition hexToRgb (hex : option string) : Rgb :=
  match hex with
  | None => fallback
  | Some h =>
      if negb (Js.truthy h) || negb (Js.startsWith "#" h) then fallback
      else {| r := Js.parseInt16 (Js.slice 1 3 h);
              g := Js.parseInt16 (Js.slice 3 5 h);
              b := Js.parseInt16 (Js.slice 5 7 h) |}
  end.

(** [/[^a-z0-9]/i] on one code unit. *)
Definition notAlphanumeric (c : ascii) : bool :=
  negb (Js.is_lower c || Js.is_upper c || Js.is_digit c).

(** [title.replace(/[^a-z0-9]/gi, '_')] *)
Definition replaceNonAlphanumeric (s : string) : string :=
  Js.map (fun c => if notAlphanumeric c then "_"%char else c) s.

(** [`${title.replace(/[^a-z0-9]/gi, '_').toLowerCase()}.pdf`] *)
Definition fileName (title : string) : string :=
  Js.toLowerCase (replaceNonAlphanumeric title) +:+ ".pdf".

(** Of [createPDF], the two values that do not depend on the rendering
    library: the accent colour and the name under which the document is
    saved. *)
Definition primaryColor {Chapter} (data : ContentData.t Chapter) : Rgb :=
  hexToRgb (ContentData.colorTheme data).

Definition savedAs {Chapter} (data : ContentData.t Chapter) : string :=
  fileName (ContentData.title data).

End Pdf.

(** * The application around the pipeline *)

(** ** The simulated payment (lines 316-327) *)

(** An address: what precedes the query, and the query parameters in
    order. *)
Record Url := mkUrl {
  location : string;
  search : list (string * string)
}.

(** [URLSearchParams.prototype.get]: the value of the first parameter of
    that name. *)
Fixpoint paramsGet (name : string) (ps : list (string * string))
    : option string :=
  match ps with
  | [] => None
  | (n, v) :: rest => if String.eqb n name then Some v else paramsGet name rest
  end.

Definition paramsRemove (name : string) (ps : list (string * string))
    : list (string * string) :=
  filter (fun p => negb (String.eqb p.1 name)) ps.

(** [URLSearchParams.prototype.set]: the first parameter of that name
    takes the value and the others of that name are removed; without one
    the parameter is added at the end. *)
Fixpoint paramsSet (name value : string) (ps : list (string * string))
    : list (string * string) :=
  match ps with
  | [] => [(name, value)]
  | (n, v) :: rest =>
      if String.eqb n name then (name, value) :: paramsRemove name rest
      else (n, v) :: paramsSet name value rest
  end.

(** [createSimulatedSession]; [current] is [window.location.href] and
    [randomSuffix] what [Math.random().toString(36).substring(7)] comes
    to. *)
Definition createSimulatedSession (current : Url) (randomSuffix : string)
    : M Url :=
  sleep 1500 ;;
  ret {| location := location current;
         search := paramsSet "session_id" ("demo_session_" +:+ randomSuffix)
                     (search current) |}.

(** [verifySimulatedPayment] *)
Definition verifySimulatedPayment (sessionId : string) : M bool :=
  sleep 1000 ;;
  ret (Js.startsWith "demo_session_" sessionId).

(** ** The application of the first revision (lines 609-694)

    The state of the component [App], the one record it keeps in
    [localStorage], and what its handlers do to the browser.  A handler
    runs to its end before another event is handled, but for
    [handleWizardComplete], which waits for [generateMaterial]: what it
    does before the wait and what it does after it are two steps, and
    other events may be handled between them. *)

Module ThrottledApp.

Inductive View := Landing | Wizard | Generating | Result.

Record State := mkState {
  view : View;
  answers : option Answers.t;
  content : option (ContentData.t Throttled.Chapter);
  loadingMessage : string;
  showPayment : bool;
  isPaid : bool;
  verifyingPayment : bool
}.

(** The value under the key [prontopdf_backup]: what
    [JSON.stringify({ answers, content })] writes and [JSON.parse] reads
    back. *)
Record Backup := mkBackup {
  savedAnswers : Answers.t;
  savedContent : ContentData.t Throttled.Chapter
}.

Inductive Effect :=
| LogError (e : JsError)
| Alert (msg : string)
| Confirm (msg : string) (answer : bool)
| CreatePDF (data : ContentData.t Throttled.Chapter)
| Navigate (url : Url)
| CleanAddress.

(** [running] holds the calls of [generateMaterial] that
    [handleWizardComplete] is waiting for, each with what it comes to. *)
Record Page := mkPage {
  state : State;
  storage : option Backup;
  effects : list Effect;
  world : World;
  running : list (Outcome (ContentData.t Throttled.Chapter))
}.

Definition setView (v : View) (s : State) : State :=
  mkState v (answers s) (content s) (loadingMessage s) (showPayment s)
    (isPaid s) (verifyingPayment s).

Definition setAnswers (a : option Answers.t) (s : State) : State :=
  mkState (view s) a (content s) (loadingMessage s) (showPayment s)
    (isPaid s) (verifyingPayment s).

Definition setContent (c : option (ContentData.t Throttled.Chapter))
    (s : State) : State :=
  mkState (view s) (answers s) c (loadingMessage s) (showPayment s)
    (isPaid s) (verifyingPayment s).

Definition setLoadingMessage (m : string) (s : State) : State :=
  mkState (view s) (answers s) (content s) m (showPayment s)
    (isPaid s) (verifyingPayment s).

Definition setShowPayment (b : bool) (s : State) : State :=
  mkState (view s) (answers s) (content s) (loadingMessage s) b
    (isPaid s) (verifyingPayment s).

Definition setIsPaid (b : bool) (s : State) : State :=
  mkState (view s) (answers s) (content s) (loadingMessage s) (showPayment s)
    b (verifyingPayment s).

Definition setVerifyingPayment (b : bool) (s : State) : State :=
  mkState (view s) (answers s) (content s) (loadingMessage s) (showPayment s)
    (isPaid s) b.

(** The state of [App] when the page has just been loaded. *)
Definition initial : State :=
  mkState Landing None None "Iniciando..." false false false.

(** The effect of lines 651-655, run after a render in which [content] or
    [answers] has changed. *)
Definition saveEffect (p : Page) : Page :=
  match content (state p), answers (state p) with
  | Some c, Some a =>
      mkPage (state p) (Some (mkBackup a c)) (effects p) (world p)
        (running p)
  | _, _ => p
  end.

Definition update (f : State -> State) (p : Page) : Page :=
  mkPage (f (state p)) (storage p) (effects p) (world p) (running p).

Definition perform (l : list Effect) (p : Page) : Page :=
  mkPage (state p) (storage p) (effects p ++ l) (world p) (running p).

(** [`Erro: ${e.message || "..."}`] *)
Definition failureAlert (e : JsError) : string :=
  "Erro: " +:+
  match message e with
  | Some m =>
      if Js.truthy m then m
      else "Não foi possível gerar o conteúdo. Verifique sua conexão."
  | None => "Não foi possível gerar o conteúdo. Verifique sua conexão."
  end.

Section Handlers.
Variable api : Api.
Variable parseOutline : string -> Settled Reply.
Variable parseContent : string -> Settled (option string).

Definition startWizard (p : Page) : Page := update (setView Wizard) p.

(** [handleWizardComplete] (lines 660-676) up to its [await]: the state
    is set and [generateMaterial] is called.  The call is recorded with
    what it comes to, and the requests it sends are counted when it is
    made; the page learns of its end in [resume]. *)
Definition handleWizardComplete (finalAnswers : Answers.t) (p : Page) : Page :=
  let p1 :=
    saveEffect
      (update (fun s =>
                 setLoadingMessage "Iniciando a inteligência artificial..."
                   (setView Generating (setAnswers (Some finalAnswers) s))) p) in
  let '(outcome, w') :=
    Throttled.generateMaterial api parseOutline parseContent finalAnswers
      (world p1) in
  mkPage (state p1) (storage p1) (effects p1) w' (running p1 ++ [outcome]).

(** The callback given to [generateMaterial] (line 667). *)
Definition showProgress (msg : string) (p : Page) : Page :=
  update (setLoadingMessage msg) p.

(** The rest of [handleWizardComplete] (lines 669-675), run when the
    [k]-th of the calls it waits for has returned or thrown; one that
    never does is waited for without end. *)
Definition resume (k : nat) (p : Page) : Page :=
  let p1 := mkPage (state p) (storage p) (effects p) (world p)
              (delete k (running p)) in
  match running p !! k with
  | Some (Ok data) =>
      saveEffect (update (fun s => setView Result (setContent (Some data) s)) p1)
  | Some (Throw e) =>
      update (setView Landing) (perform [LogError e; Alert (failureAlert e)] p1)
  | Some Pending | None => p
  end.

(** [handleDownload] (lines 678-684). *)
Definition handleDownload (p : Page) : Page :=
  if negb (isPaid (state p)) then update (setShowPayment true) p
  else
    match content (state p) with
    | Some data => perform [CreatePDF data] p
    | None => p
    end.

(** [reset] (lines 686-694); [confirmed] is what the user answers. *)
Definition reset (confirmed : bool) (p : Page) : Page :=
  let p1 := perform [Confirm "Tem certeza? Você perderá o livro atual."
                       confirmed] p in
  if confirmed then
    mkPage
      (setView Landing
         (setIsPaid false (setContent None (setAnswers None (state p1)))))
      None (effects p1) (world p1) (running p1)
  else p1.

(** [handleCheckout] of the payment window (lines 375-387). *)
Definition handleCheckout (current : Url) (randomSuffix : string) (p : Page)
    : Page :=
  match createSimulatedSession current randomSuffix (world p) with
  | (Ok url, w') =>
      mkPage (state p) (storage p) (effects p ++ [Navigate url]) w'
        (running p)
  | (Throw e, w') =>
      mkPage (state p) (storage p)
        (effects p ++ [LogError e; Alert "Erro na simulação."]) w'
        (running p)
  | (Pending, w') => mkPage (state p) (storage p) (effects p) w' (running p)
  end.

(** Loading the page at [address]: the component starts from [initial]
    and its first effect (lines 618-648) looks for a session to verify;
    the page is taken when the verification, if there is one, has been
    answered. *)
Definition load (saved : option Backup) (address : Url) (w : World) : Page :=
  let p0 := mkPage initial saved [] w [] in
  match paramsGet "session_id" (search address) with
  | None => p0
  | Some sessionId =>
      if negb (Js.truthy sessionId) then p0
      else
        let p1 :=
          update (fun s =>
                    setLoadingMessage "Confirmando licença..."
                      (setView Generating (setVerifyingPayment true s))) p0 in
        match verifySimulatedPayment sessionId (world p1) with
        | (Ok success, w') =>
            let p2 := mkPage (state p1) (storage p1) (effects p1) w' [] in
            let p3 :=
              if success then
                let p' := update (fun s => setShowPayment false
                                             (setIsPaid true s)) p2 in
                match storage p' with
                | Some backup =>
                    update (fun s =>
                              setView Result
                                (setContent (Some (savedContent backup))
                                   (setAnswers (Some (savedAnswers backup)) s)))
                           p'
                | None => update (setView Landing) p'
                end
              else p2 in
            saveEffect
              (update (setVerifyingPayment false) (perform [CleanAddress] p3))
        | (_, w') => mkPage (state p1) (storage p1) (effects p1) w' []
        end
  end.

End Handlers.

End ThrottledApp.

(** ** The application of the second revision (lines 1437-1471)

    No payment and nothing kept in [localStorage]. *)

Module BatchedApp.

Inductive View := Landing | Wizard | Generating | Result.

Record State := mkState {
  view : View;
  answers : option Answers.t;
  content : option (ContentData.t Batched.Chapter);
  loadingMessage : string
}.

Inductive Effect :=
| LogError (e : JsError)
| Alert (msg : string)
| CreatePDF (data : ContentData.t Batched.Chapter).

Record Page := mkPage {
  state : State;
  effects : list Effect;
  world : World
}.

Definition initial : State := mkState Landing None None "Iniciando...".

Section Handlers.
Variable api : Api.
Variable parseOutline : string -> Settled Reply.
Variable parseContent : string -> Settled (option string).
Variable settleOrder : nat -> list nat.

Definition startWizard (p : Page) : Page :=
  mkPage (mkState Wizard (answers (state p)) (content (state p))
            (loadingMessage (state p)))
    (effects p) (world p).

(** [handleWizardComplete] (lines 1445-1461). *)
Definition handleWizardComplete (finalAnswers : Answers.t) (p : Page) : Page :=
  let '(outcome, w') :=
    Batched.generateMaterial api parseOutline parseContent finalAnswers
      settleOrder (world p) in
  let shown :=
    default "Iniciando a inteligência artificial..."
      (last (progressMessages (drop (length (trace (world p))) (trace w')))) in
  match outcome with
  | Ok data =>
      mkPage (mkState Result (Some finalAnswers) (Some data) shown)
        (effects p) w'
  | Throw e =>
      mkPage (mkState Landing (Some finalAnswers) (content (state p)) shown)
        (effects p ++
         [LogError e;
          Alert "Houve um erro de conexão. O processo demorou muito. Tente novamente."])
        w'
  | Pending =>
      mkPage (mkState Generating (Some finalAnswers) (content (state p)) shown)
        (effects p) w'
  end.

(** [handleDownload] (lines 1463-1465). *)
Definition handleDownload (p : Page) : Page :=
  match content (state p) with
  | Some data => mkPage (state p) (effects p ++ [CreatePDF data]) (world p)
  | None => p
  end.

(** [reset] (lines 1467-1471). *)
Definition reset (p : Page) : Page :=
  mkPage (mkState Landing None None (loadingMessage (state p)))
    (effects p) (world p).

End Handlers.

End BatchedApp.

(** ** The questionnaire (lines 452-606; again at 1280-1434)

    [StepWizard] keeps a step number and the answers.  A click on an
    option calls [updateAnswer], which sets a timer of 400 ms; the
    callback of the timer has closed over the [step] and the [answers] of
    the render that handled the click, and reads those when it runs.
    Timers run in the order in which they were set, since the delay is the
    same for all; a handler sees the state after all earlier events. *)

Module StepWizard.

Inductive Key := What | Who | Where | Objective | Level.

(** [{ ...prev, [key]: value }] *)
Definition withAnswer (key : Key) (value : string) (a : Answers.t)
    : Answers.t :=
  match key with
  | What =>
      Answers.mk value (Answers.who a) (Answers.where_ a)
        (Answers.objective a) (Answers.level a)
  | Who =>
      Answers.mk (Answers.what a) value (Answers.where_ a)
        (Answers.objective a) (Answers.level a)
  | Where =>
      Answers.mk (Answers.what a) (Answers.who a) value
        (Answers.objective a) (Answers.level a)
  | Objective =>
      Answers.mk (Answers.what a) (Answers.who a) (Answers.where_ a)
        value (Answers.level a)
  | Level =>
      Answers.mk (Answers.what a) (Answers.who a) (Answers.where_ a)
        (Answers.objective a) value
  end.

Record State := mkState {
  step : Z;
  answers : Answers.t
}.

Record Timer := mkTimer {
  seen : State;
  key : Key;
  value : string
}.

(** [completed] lists the arguments [onComplete] has been called with. *)
Record Wizard := mkWizard {
  state : State;
  timers : list Timer;
  completed : list Answers.t
}.

Definition initial : Wizard :=
  mkWizard
    (mkState 1
       (Answers.mk EmptyString EmptyString EmptyString EmptyString EmptyString))
    [] [].

(** [nextStep] (lines 462-465). *)
Definition nextStep (wz : Wizard) : Wizard :=
  if step (state wz) <? 5 then
    mkWizard (mkState (step (state wz) + 1) (answers (state wz)))
      (timers wz) (completed wz)
  else
    mkWizard (state wz) (timers wz) (completed wz ++ [answers (state wz)]).

(** [updateAnswer] (lines 467-475), up to the setting of the timer. *)
Definition updateAnswer (k : Key) (v : string) (wz : Wizard) : Wizard :=
  mkWizard
    (mkState (step (state wz)) (withAnswer k v (answers (state wz))))
    (match k with
     | What => timers wz
     | _ => timers wz ++ [mkTimer (state wz) k v]
     end)
    (completed wz).

(** The callback of a timer (lines 471-472). *)
Definition fire (t : Timer) (wz : Wizard) : Wizard :=
  if step (seen t) <? 5 then
    mkWizard (mkState (step (state wz) + 1) (answers (state wz)))
      (timers wz) (completed wz)
  else
    mkWizard (state wz) (timers wz)
      (completed wz ++ [withAnswer (key t) (value t) (answers (seen t))]).

(** The question a step shows, and the options it offers (lines 513-602). *)
Definition asked (s : Z) : option Key :=
  if s =? 2 then Some Who
  else if s =? 3 then Some Where
  else if s =? 4 then Some Objective
  else if s =? 5 then Some Level
  else None.

Definition options (k : Key) : list string :=
  match k with
  | What => []
  | Who => ["Clientes"; "Alunos"; "Seguidores"; "Equipe"]
  | Where => ["WhatsApp"; "E-book (PDF)"; "Instagram"; "Aula / Apostila"]
  | Objective => ["Vender"; "Ensinar"; "Apresentar"; "Engajar"]
  | Level => ["Iniciante"; "Intermediário"; "Avançado"]
  end.

(** What can happen to the component: text typed into the field of step 1,
    the Enter key there, a click on the button of step 1, a click on the
    [i]-th option of the step shown, and the oldest timer running. *)
Inductive Action :=
| Typed (text : string)
| PressEnter
| ClickContinue
| Choose (i : nat)
| Elapse.

Definition handle (a : Action) (wz : Wizard) : Wizard :=
  match a with
  | Typed text =>
      if step (state wz) =? 1 then
        mkWizard
          (mkState (step (state wz)) (withAnswer What text (answers (state wz))))
          (timers wz) (completed wz)
      else wz
  | PressEnter | ClickContinue =>
      if (step (state wz) =? 1) && Js.truthy (Answers.what (answers (state wz)))
      then nextStep wz
      else wz
  | Choose i =>
      match asked (step (state wz)) with
      | Some k =>
          match options k !! i with
          | Some v => updateAnswer k v wz
          | None => wz
          end
      | None => wz
      end
  | Elapse =>
      match timers wz with
      | t :: rest => fire t (mkWizard (state wz) rest (completed wz))
      | [] => wz
      end
  end.

Definition run (l : list Action) (wz : Wizard) : Wizard :=
  fold_left (fun w a => handle a w) l wz.

End StepWizard.

(** * [createPDF] as the calls it makes on the document

    The document of the rendering library is known through the calls
    made on it, in order; [script] is the list of the calls that
    [createPDF] makes when none of them throws.  The
    numbers are those of the runtime: their arithmetic is a parameter of
    which nothing is assumed, so that what is proved of the layout holds
    of floating point as it does of exact arithmetic.  [splitTextToSize]
    is the library's; what it returns depends on the text, on the width
    and on the font and size in force, which are given to it here.
    [addImage] is the one call that [createPDF] expects to fail, and
    the only one it guards.  The library also throws on a colour with a
    channel that is not a number, which it formats before anything
    else; [createPDF] does not guard against that, so the calls it makes
    end there. *)

Module Layout.

Record Runtime := mkRuntime {
  num : Type;
  int : Z -> num;
  dec : Z -> nat -> num;
  add : num -> num -> num;
  sub : num -> num -> num;
  mul : num -> num -> num;
  div : num -> num -> num;
  gt : num -> num -> bool;
  pageWidth : num;
  pageHeight : num;
  splitTextToSize : string * string -> Z -> string -> num -> list string;
  toUpperCase : string -> string;
  addImageFails : string -> bool
}.

(** [int z] is the integer literal [z], or the length [z] of an array;
    [dec m d] is the decimal literal with the digits of [m], [d] of them
    after the point: [dec 25 1] is [2.5]. *)

Inductive Call (n : Type) :=
| SetFillColor (r g b : Js.Number)
| SetTextColor (r g b : Js.Number)
| SetDrawColor (r g b : Js.Number)
| SetLineWidth (w : n)
| SetOpacity (o : n)
| SetFont (name style : string)
| SetFontSize (size : Z)
| Rect (x y w h : n) (style : string)
| RoundedRect (x y w h rx ry : n) (style : string)
| Circle (x y r : n) (style : string)
| Line (x1 y1 x2 y2 : n)
| TextLines (lines : list string) (x y : n)
| Text (s : string) (x y : n)
| TextCentered (s : string) (x y : n)
| AddPage
| AddImage (data format : string) (x y w h : n)
| LogError (msg : string)
| Save (name : string).
Arguments SetFillColor {n}.
Arguments SetTextColor {n}.
Arguments SetDrawColor {n}.
Arguments SetLineWidth {n}.
Arguments SetOpacity {n}.
Arguments SetFont {n}.
Arguments SetFontSize {n}.
Arguments Rect {n}.
Arguments RoundedRect {n}.
Arguments Circle {n}.
Arguments Line {n}.
Arguments TextLines {n}.
Arguments Text {n}.
Arguments TextCentered {n}.
Arguments AddPage {n}.
Arguments AddImage {n}.
Arguments LogError {n}.
Arguments Save {n}.

(** [String(n).padStart(targetLength, c)] for a pad of one character. *)
Definition padStart (targetLength : nat) (c : ascii) (s : string) : string :=
  string_of_list_ascii (replicate (targetLength - String.length s) c) +:+ s.

Section Doc.
Variable L : Runtime.

Definition margin : num L := int L 20.

(** [(fontSize / 2.5) * 1.8] with [fontSize = 12] *)
Definition lineStep : num L := mul L (div L (int L 12) (dec L 25 1)) (dec L 18 1).

Definition setFill (c : Pdf.Rgb) : Call (num L) :=
  SetFillColor (Pdf.r c) (Pdf.g c) (Pdf.b c).

Definition setText (c : Pdf.Rgb) : Call (num L) :=
  SetTextColor (Pdf.r c) (Pdf.g c) (Pdf.b c).

Definition setDraw (c : Pdf.Rgb) : Call (num L) :=
  SetDrawColor (Pdf.r c) (Pdf.g c) (Pdf.b c).

Definition grey (v : Z) : Pdf.Rgb := Pdf.mkRgb (Js.Int v) (Js.Int v) (Js.Int v).

(** [`${data.title}  |  Capítulo ${index + 1}`] *)
Definition header (title : string) (index : nat) : string :=
  title +:+ "  |  Capítulo " +:+ pretty (index + 1)%nat.

(** [chapter.content || ""] *)
Definition safeContent (content : option string) : string :=
  match content with
  | Some text => if Js.truthy text then text else EmptyString
  | None => EmptyString
  end.

End Doc.

Definition isNaN (v : Js.Number) : bool :=
  match v with Js.NaN => true | Js.Int _ => false end.

(** The calls on which the library throws. *)
Definition refuses {n} (c : Call n) : bool :=
  match c with
  | SetFillColor r g b | SetTextColor r g b | SetDrawColor r g b =>
      isNaN r || isNaN g || isNaN b
  | _ => false
  end.

(** What has become of the document: the calls made on it, and whether
    the last one attempted threw. *)
Record Rendering (n : Type) := mkRendering {
  made : list (Call n);
  threw : bool
}.
Arguments mkRendering {n}.
Arguments made {n}.
Arguments threw {n}.

(** The calls of [script] are made in order, up to the first one the
    library throws on: no handler is around it. *)
Fixpoint perform {n} (script : list (Call n)) : Rendering n :=
  match script with
  | [] => mkRendering [] false
  | c :: rest =>
      if refuses c then mkRendering [] true
      else mkRendering (c :: made (perform rest)) (threw (perform rest))
  end.

End Layout.

(** ** First revision (lines 222-314) *)

Module ThrottledPdf.
Import Layout.

Section Doc.
Variable L : Runtime.
Variable data : ContentData.t Throttled.Chapter.

Local Abbreviation primaryColor := (Pdf.primaryColor data).
Local Abbreviation margin := (Layout.margin L).

(** The cover (lines 240-258). *)
Definition cover : list (Call (num L)) :=
  let titleLines :=
    splitTextToSize L ("helvetica", "bold") 42
      (toUpperCase L (ContentData.title data))
      (sub L (pageWidth L) (mul L margin (dec L 25 1))) in
  let subY :=
    add L (int L 80)
      (mul L (int L (Z.of_nat (length titleLines))) (int L 16)) in
  let subtitleLines :=
    splitTextToSize L ("helvetica", "normal") 16 (ContentData.subtitle data)
      (sub L (pageWidth L) (mul L margin (dec L 25 1))) in
  [setFill L primaryColor;
   Rect (int L 0) (int L 0) (pageWidth L) (pageHeight L) "F";
   setText L (grey 255);
   SetFont "helvetica" "bold";
   SetFontSize 42;
   TextLines titleLines (add L margin (int L 10)) (int L 80);
   SetFont "helvetica" "normal";
   SetFontSize 16;
   setText L (grey 220);
   TextLines subtitleLines (add L margin (int L 10)) subY;
   SetFontSize 12;
   Text (toUpperCase L (ContentData.author data)) (add L margin (int L 10))
     (sub L (pageHeight L) (int L 30))].

(** The illustration (lines 283-294): the calls, and [currentY] after
    them.  When [addImage] fails the page that may have been added stays,
    and [currentY] is not moved past the image. *)
Definition drawImage (image : option string) (currentY : num L)
    : list (Call (num L)) * num L :=
  match image with
  | None => ([], currentY)
  | Some img =>
      if negb (Js.truthy img) then ([], currentY)
      else
        let imgWidth := sub L (pageWidth L) (mul L margin (int L 2)) in
        let imgHeight := mul L imgWidth (div L (int L 9) (int L 16)) in
        let '(break, y) :=
          if gt L (add L currentY imgHeight) (sub L (pageHeight L) margin)
          then ([AddPage], int L 35)
          else ([], currentY) in
        if addImageFails L img then
          (break ++ [LogError "PDF Image Error"], y)
        else
          (break ++ [AddImage img "PNG" margin y imgWidth imgHeight],
           add L y (add L imgHeight (int L 10)))
  end.

(** [textLines.forEach] (lines 303-310) from [currentY] on. *)
Fixpoint drawLines (textLines : list string) (currentY : num L)
    : list (Call (num L)) :=
  match textLines with
  | [] => []
  | line :: rest =>
      let '(break, y) :=
        if gt L currentY (sub L (pageHeight L) margin)
        then ([AddPage], int L 35)
        else ([], currentY) in
      break ++ [Text line margin y] ++ drawLines rest (add L y (lineStep L))
  end.

(** The callback of [data.chapters.forEach] (lines 263-311). *)
Definition chapterPages (index : nat) (chapter : Throttled.Chapter)
    : list (Call (num L)) :=
  let titleCapLines :=
    splitTextToSize L ("times", "bold") 26 (Throttled.title chapter)
      (sub L (pageWidth L) (mul L margin (int L 2))) in
  let currentY :=
    add L
      (add L (int L 40)
         (mul L (int L (Z.of_nat (length titleCapLines))) (int L 12)))
      (int L 10) in
  let '(imageCalls, currentY) :=
    drawImage (Throttled.image chapter) currentY in
  let textLines :=
    splitTextToSize L ("times", "roman") 12
      (safeContent (Throttled.content chapter))
      (sub L (pageWidth L) (mul L margin (int L 2))) in
  [AddPage;
   SetFont "helvetica" "normal";
   SetFontSize 9;
   setText L (grey 150);
   Text (header (ContentData.title data) index) margin (int L 15);
   Line margin (int L 18) (sub L (pageWidth L) margin) (int L 18);
   SetFont "times" "bold";
   SetFontSize 26;
   setText L primaryColor;
   TextLines titleCapLines margin (int L 40)] ++
  imageCalls ++
  [SetFont "times" "roman"; SetFontSize 12; setText L (grey 40)] ++
  drawLines textLines currentY.

(** The calls of [createPDF] in the order of the program. *)
Definition script : list (Call (num L)) :=
  cover ++
  concat (imap chapterPages (ContentData.chapters data)) ++
  [Save (Pdf.savedAs data)].

Definition createPDF : Rendering (num L) := perform script.

End Doc.

End ThrottledPdf.

(** ** Second revision (lines 1032-1247) *)

Module BatchedPdf.
Import Layout.

(** A line feed. *)
Definition lf : string := String (ascii_of_nat 10) EmptyString.

Definition ackText : string :=
  "Obrigado por dedicar seu tempo à leitura deste material." +:+ lf +:+ lf
  +:+ "Esperamos que o conteúdo compartilhado aqui tenha sido útil e inspirador para sua jornada. O conhecimento é uma ferramenta poderosa de transformação, e ficamos felizes em fazer parte do seu aprendizado."
  +:+ lf +:+ lf
  +:+ "Este material foi criado com o objetivo de simplificar processos e entregar valor real, permitindo que você foque no que realmente importa: aplicar e evoluir.".

Definition toolDesc : string :=
  "Este documento foi estruturado, redigido e diagramado automaticamente utilizando a inteligência artificial do ProntoPDF.".

Section Doc.
Variable L : Runtime.
Variable data : ContentData.t Batched.Chapter.

Local Abbreviation primaryColor := (Pdf.primaryColor data).
Local Abbreviation margin := (Layout.margin L).

(** The cover (lines 1057-1093). *)
Definition cover : list (Call (num L)) :=
  let titleLines :=
    splitTextToSize L ("helvetica", "bold") 42
      (toUpperCase L (ContentData.title data))
      (sub L (pageWidth L) (mul L margin (dec L 25 1))) in
  let subY :=
    add L (int L 80)
      (mul L (int L (Z.of_nat (length titleLines))) (int L 16)) in
  let subtitleLines :=
    splitTextToSize L ("helvetica", "normal") 16 (ContentData.subtitle data)
      (sub L (pageWidth L) (mul L margin (dec L 25 1))) in
  [setFill L primaryColor;
   Rect (int L 0) (int L 0) (pageWidth L) (pageHeight L) "F";
   SetOpacity (dec L 1 1);
   setFill L (grey 255);
   Circle (pageWidth L) (int L 0) (int L 140) "F";
   Circle (int L 0) (pageHeight L) (int L 100) "F";
   Rect margin (div L (pageHeight L) (int L 2)) (int L 5) (int L 40) "F";
   SetOpacity (dec L 10 1);
   setText L (grey 255);
   SetFont "helvetica" "bold";
   SetFontSize 42;
   TextLines titleLines (add L margin (int L 10)) (int L 80);
   SetFont "helvetica" "normal";
   SetFontSize 16;
   setText L (grey 220);
   TextLines subtitleLines (add L margin (int L 10)) subY;
   setDraw L (grey 255);
   SetLineWidth (dec L 5 1);
   Line (add L margin (int L 10)) (add L subY (int L 20))
     (add L margin (int L 40)) (add L subY (int L 20));
   SetFontSize 12;
   setText L (grey 200);
   Text (toUpperCase L (ContentData.author data)) (add L margin (int L 10))
     (sub L (pageHeight L) (int L 30))].

(** The entries of the table of contents (lines 1116-1124) from the
    index [index] and the height [tocY] on. *)
Fixpoint tocEntries (index : nat) (chapters : list Batched.Chapter)
    (tocY : num L) : list (Call (num L)) :=
  match chapters with
  | [] => []
  | chapter :: rest =>
      let '(break, y) :=
        if gt L tocY (sub L (pageHeight L) (int L 30))
        then ([AddPage], int L 40)
        else ([], tocY) in
      break ++
      [Text (padStart 2 "0" (pretty (index + 1)%nat) +:+ ". "
               +:+ Batched.title chapter) margin y] ++
      tocEntries (S index) rest (add L y (int L 10))
  end.

(** The table of contents (lines 1095-1124). *)
Definition contents : list (Call (num L)) :=
  [AddPage;
   setFill L (grey 255);
   SetFont "times" "bold";
   SetFontSize 24;
   setText L primaryColor;
   Text "Sumário" margin (int L 40);
   setDraw L primaryColor;
   SetLineWidth (int L 1);
   Line margin (int L 45) (sub L (pageWidth L) margin) (int L 45);
   SetFont "helvetica" "normal";
   SetFontSize 12;
   setText L (grey 60)] ++
  tocEntries 0 (ContentData.chapters data) (int L 60).

(** [textLines.forEach] (lines 1160-1178) from [cursorY] on. *)
Fixpoint drawLines (index : nat) (textLines : list string) (cursorY : num L)
    : list (Call (num L)) :=
  match textLines with
  | [] => []
  | line :: rest =>
      let '(break, y) :=
        if gt L cursorY (sub L (pageHeight L) margin)
        then
          ([AddPage;
            SetFont "helvetica" "normal";
            SetFontSize 9;
            setText L (grey 150);
            Text (header (ContentData.title data) index +:+ " (cont.)")
              margin (int L 15);
            Line margin (int L 18) (sub L (pageWidth L) margin) (int L 18);
            SetFont "times" "roman";
            SetFontSize 12;
            setText L (grey 40)],
           int L 35)
        else ([], cursorY) in
      break ++ [Text line margin y] ++
      drawLines index rest (add L y (lineStep L))
  end.

(** The callback of the second [data.chapters.forEach] (lines
    1129-1179). *)
Definition chapterPages (index : nat) (chapter : Batched.Chapter)
    : list (Call (num L)) :=
  let titleCapLines :=
    splitTextToSize L ("times", "bold") 26 (Batched.title chapter)
      (sub L (pageWidth L) (mul L margin (int L 2))) in
  let startY :=
    add L
      (add L (int L 40)
         (mul L (int L (Z.of_nat (length titleCapLines))) (int L 12)))
      (int L 10) in
  let textLines :=
    splitTextToSize L ("times", "roman") 12
      (safeContent (Batched.content chapter))
      (sub L (pageWidth L) (mul L margin (int L 2))) in
  [AddPage;
   SetFont "helvetica" "normal";
   SetFontSize 9;
   setText L (grey 150);
   Text (header (ContentData.title data) index) margin (int L 15);
   Line margin (int L 18) (sub L (pageWidth L) margin) (int L 18);
   SetFont "times" "bold";
   SetFontSize 26;
   setText L primaryColor;
   TextLines titleCapLines margin (int L 40);
   SetFont "times" "roman";
   SetFontSize 12;
   setText L (grey 40)] ++
  drawLines index textLines startY.

(** The back cover (lines 1181-1200). *)
Definition backCover : list (Call (num L)) :=
  let summaryLines :=
    splitTextToSize L ("helvetica", "normal") 14 (ContentData.summary data)
      (sub L (pageWidth L) (mul L margin (int L 2))) in
  [AddPage;
   setFill L primaryColor;
   Rect (int L 0) (int L 0) (pageWidth L) (pageHeight L) "F";
   setText L (grey 255);
   SetFont "helvetica" "bold";
   SetFontSize 22;
   Text "Resumo do Material" margin (int L 60);
   SetFont "helvetica" "normal";
   SetFontSize 14;
   TextLines summaryLines margin (int L 80);
   SetFontSize 10;
   setText L (grey 200);
   TextCentered "Gerado com ProntoPDF" (div L (pageWidth L) (int L 2))
     (sub L (pageHeight L) (int L 20))].

(** The acknowledgements (lines 1202-1244). *)
Definition acknowledgements : list (Call (num L)) :=
  let ackLines :=
    splitTextToSize L ("times", "roman") 12 ackText
      (sub L (pageWidth L) (mul L margin (int L 2))) in
  let boxY :=
    add L
      (add L (int L 60)
         (mul L (int L (Z.of_nat (length ackLines))) (int L 6)))
      (int L 30) in
  let toolLines :=
    splitTextToSize L ("helvetica", "normal") 10 toolDesc
      (sub L (sub L (pageWidth L) (mul L margin (int L 2))) (int L 10)) in
  [AddPage;
   setFill L (grey 255);
   Rect (int L 0) (int L 0) (pageWidth L) (pageHeight L) "F";
   SetFont "times" "bold";
   SetFontSize 24;
   setText L primaryColor;
   Text "Agradecimentos" margin (int L 40);
   setDraw L primaryColor;
   SetLineWidth (dec L 5 1);
   Line margin (int L 45) (div L (pageWidth L) (int L 2)) (int L 45);
   SetFont "times" "roman";
   SetFontSize 12;
   setText L (grey 60);
   TextLines ackLines margin (int L 60);
   setDraw L (grey 200);
   SetLineWidth (dec L 5 1);
   RoundedRect margin boxY (sub L (pageWidth L) (mul L margin (int L 2)))
     (int L 40) (int L 3) (int L 3) "S";
   SetFont "helvetica" "bold";
   SetFontSize 10;
   setText L primaryColor;
   Text "Tecnologia ProntoPDF" (add L margin (int L 5)) (add L boxY (int L 10));
   SetFont "helvetica" "normal";
   setText L (grey 100);
   TextLines toolLines (add L margin (int L 5)) (add L boxY (int L 20))].

(** The calls of [createPDF] in the order of the program. *)
Definition script : list (Call (num L)) :=
  cover ++ contents ++
  concat (imap chapterPages (ContentData.chapters data)) ++
  backCover ++ acknowledgements ++
  [Save (Pdf.savedAs data)].

Definition createPDF : Rendering (num L) := perform script.

End Doc.

End BatchedPdf.

(** * The vocabulary of the properties *)

(** What a computation added to the trace. *)
Definition emitted (w w' : World) : list Event :=
  drop (length (trace w)) (trace w').

Definition tick (w : World) : World :=
  {| calls := S (calls w); trace := trace w |}.

Definition logged (l : list Event) (w : World) : World :=
  {| calls := calls w; trace := (trace w ++ l)%list |}.

(** What one backoff leaves in the trace. *)
Definition backoffEvents (operationName : string) (waitTime : Z)
    : list Event :=
  [Progress (backoffMessage operationName waitTime);
   ConsoleWarn (backoffWarning operationName waitTime) None;
   Sleep waitTime].

(** An error's message names the operation when the name occurs in it. *)
Definition names (operationName : string) (e : JsError) : bool :=
  match message e with
  | Some m => Js.includes operationName m
  | None => false
  end.

(** A thunk that is rate-limited on its first two invocations. *)
Definition twiceLimited : Thunk Z :=
  fun n =>
    if (n <? 2)%nat
    then Rejected {| status := Some 429; code := None; message := None |}
    else Resolved 7.

Definition unauthorized : JsError :=
  {| status := Some 401; code := None; message := Some "API key not valid" |}.

(** A backend that answers every request with a quota error. *)
Definition quotaError : JsError :=
  {| status := Some 429; code := None;
     message := Some "Resource has been exhausted (e.g. check quota)." |}.

Definition alwaysLimited : Thunk Z := fun _ => Rejected quotaError.

(** ** The PDF helpers *)

Module PdfSpec.
Import Pdf.

(** The documented form of a colour: [#] and six base-16 digits. *)
Fixpoint allHex (s : string) : bool :=
  match s with
  | EmptyString => true
  | String c s' => bool_decide (is_Some (Js.hex_digit c)) && allHex s'
  end.

Definition validHex (h : string) : bool :=
  match h with
  | String "#" digits => (String.length digits =? 6)%nat && allHex digits
  | _ => false
  end.

(** The title with its non-alphanumeric characters removed. *)
Fixpoint strip (s : string) : string :=
  match s with
  | EmptyString => EmptyString
  | String c s' =>
      if notAlphanumeric c then strip s' else String c (strip s')
  end.

(** What becomes of one character of the title. *)
Definition sanitize (c : ascii) : ascii :=
  if notAlphanumeric c then "_"%char else Js.lower c.

(** A lower-case letter, a digit or an underscore. *)
Definition plain (c : ascii) : bool :=
  Js.is_lower c || Js.is_digit c || (nat_of_ascii c =? 95)%nat.

Fixpoint every (p : ascii -> bool) (s : string) : bool :=
  match s with
  | EmptyString => true
  | String c s' => p c && every p s'
  end.

End PdfSpec.

(** ** The first revision *)

Module ThrottledSpec.
Import Throttled.

Section Spec.
Variable api : Api.
Variable parseContent : string -> Settled (option string).
Variable answers : Answers.t.
Variable outline : OutlineData.t.
Variable totalChapters : nat.

Definition placeholder (chapterTitle : string) : Chapter :=
  {| title := chapterTitle; content := Some chapterError; image := None |}.

(** The illustration a response carries, if any. *)
Definition inlineOf (r : Response.t) : option string :=
  match firstParts r with
  | Some parts => firstInline parts
  | None => None
  end.

(** What line 205 makes of a text response. *)
Definition bodyOf (textResult : Response.t) : Settled (option string) :=
  match Response.text textResult with
  | Some t =>
      if Js.truthy t then parseContent t else Resolved (Some unavailable)
  | None => Resolved (Some unavailable)
  end.

(** The world in which a chapter's requests start: its progress
    message has been shown. *)
Definition announced (i : nat) (chapterTitle : string) (w : World) : World :=
  logged [Progress (chapterProgress totalChapters i chapterTitle)] w.

(** The state of the run when the iteration for index [i] begins: the
    chapters written so far and the world. *)
Definition upTo (titles : list string) (i : nat) (w : World)
    : Outcome (list Chapter) * World :=
  chapterLoop api parseContent answers outline totalChapters
    0 (take i titles) [] w.

Definition reached (titles : list string) (i : nat) (w : World) : World :=
  (upTo titles i w).2.

(** What the iteration for [chapterTitle], begun in the world [w], makes
    of the replies to its own requests.  The text is requested, with its
    retries, once the progress message is shown, and the illustration
    after it; the body is what line 205 makes of the text reply.  When
    the text request, or the reading of its reply, throws, the chapter
    is the placeholder. *)
Definition own (i : nat) (chapterTitle : string) (w : World) : Chapter :=
  match generateText api answers outline i chapterTitle
          (announced i chapterTitle w) with
  | (Ok textResult, w2) =>
      match bodyOf textResult,
            generateImage api answers i chapterTitle w2 with
      | Resolved body, (Ok img, _) =>
          {| title := chapterTitle; content := body; image := img |}
      | _, _ => placeholder chapterTitle
      end
  | _ => placeholder chapterTitle
  end.

End Spec.

(** The world once the first progress message has been shown. *)
Definition started (w : World) : World :=
  logged [Progress "Analisando nicho e criando estrutura..."] w.

End ThrottledSpec.

(** ** The second revision *)

Module BatchedSpec.
Import Batched.

Section Spec.
Variable api : Api.
Variable parseContent : string -> Settled (option string).
Variable answers : Answers.t.
Variable settleOrder : nat -> list nat.
Variable outline : OutlineData.t.

Local Abbreviation titles := (OutlineData.chapterTitles outline).

(** What line 1007 makes of a response. *)
Definition bodyOf (result : Response.t) : Settled (option string) :=
  match Response.text result with
  | Some t =>
      if Js.truthy t then parseContent t else Resolved (Some notGenerated)
  | None => Resolved (Some notGenerated)
  end.

(** The chapter a request leads to, whenever it settles. *)
Definition chapterOf (p : InFlight) : Chapter :=
  {| title := p.1;
     content :=
       match p.2 with
       | Resolved result =>
           match bodyOf result with
           | Resolved body => body
           | Rejected _ => Some chapterError
           end
       | Rejected _ => Some chapterError
       end |}.

(** The requests of a batch, sent in the order of the batch when [c]
    operations have been started before. *)
Definition inFlight (c : nat) (batch : list string) : list InFlight :=
  imap (fun j t => (t, api (c + j)%nat (chapterRequest t outline answers)))
       batch.

(** The array of [Promise.all] once the members listed in [order] have
    settled. *)
Definition stored (members : list InFlight) (order : list nat)
    (values : list (option Chapter)) : list (option Chapter) :=
  foldl (fun vs j =>
           match members !! j with
           | Some p => <[j := Some (chapterOf p)]> vs
           | None => vs
           end) values order.

(** The chapters for the titles [l], the first of which is requested
    when [c] operations have been started before. *)
Definition written (c : nat) (l : list string) : list Chapter :=
  chapterOf <$> inFlight c l.

(** Every request of every batch settles: the order given for the
    batch at [k * batchSize] lists each of its positions once. *)
Definition everySettles : Prop :=
  forall k, (k * batchSize < length titles)%nat ->
    settleOrder (k * batchSize)%nat
    ≡ₚ seq 0 (length (take batchSize (drop (k * batchSize) titles))).

End Spec.

(** The world once the first progress message has been shown. *)
Definition started (w : World) : World :=
  logged [Progress "Criando estrutura, capa e sumário..."] w.

End BatchedSpec.

(** The image request fails, or its response carries no inline image. *)
Definition noIllustration (s : Settled Response.t) : Prop :=
  match s with
  | Rejected _ => True
  | Resolved r => ThrottledSpec.inlineOf r = None
  end.

(** A small run used to exercise the theorems: four chapters; the request
    for "B" is refused, the one for "C" comes back without text, no
    illustration is ever delivered. *)
Module Demo.

Definition answers : Answers.t :=
  Answers.mk "investimentos" "iniciantes" "e-book" "ensinar" "básico".

Definition outline : OutlineData.t :=
  {| OutlineData.title := "Guia";
     OutlineData.subtitle := "Primeiros passos";
     OutlineData.author := "Ana Lima";
     OutlineData.summary := "Um guia curto.";
     OutlineData.colorTheme := Some "#1e293b";
     OutlineData.chapterTitles := ["A"; "B"; "C"; "D"] |}.

(** The text [outline] is that of the outline above, the text [{}] that
    of an object without fields; any other text of an outline reply
    cannot be parsed, and any other text of a chapter reply is taken for
    its own [content]. *)
Definition parseOutline (s : string) : Settled Reply :=
  if String.eqb s "outline" then Resolved (Outline outline)
  else Rejected (newError "Unexpected token").

Definition parseContent (s : string) : Settled (option string) :=
  if String.eqb s "{}" then Resolved None else Resolved (Some s).

Definition refused : JsError :=
  {| status := Some 500; code := None; message := Some "Internal error" |}.

Definition api : Api :=
  fun _ request =>
    match contents request with
    | OutlinePrompt _ => Resolved (Response.mk (Some "outline") None)
    | ChapterPrompt t _ _ _ =>
        if String.eqb t "B" then Rejected refused
        else if String.eqb t "C" then Resolved (Response.mk None None)
        else Resolved (Response.mk (Some ("Texto de " +:+ t)) None)
    | ImagePrompt _ _ => Rejected refused
    end.

Definition start : World := mkWorld 0 [].

(** In the first batch "C" settles before "A". *)
Definition cFirst (i : nat) : list nat :=
  if (i =? 0)%nat then [2; 0; 1]%nat else [0]%nat.

Definition inOrder (i : nat) : list nat :=
  if (i =? 0)%nat then [0; 1; 2]%nat else [0]%nat.

End Demo.


(** ** Further vocabulary *)

(** The message holds [word], in whatever letter case. *)
Definition mentions (word s : string) : Prop :=
  exists a b, Js.toLowerCase s = a +:+ word +:+ b.

(** A thunk that is rate-limited once and then refused for good. *)
Definition limitedThenRefused : Thunk Z :=
  fun n => if (n <? 1)%nat then Rejected quotaError else Rejected unauthorized.

(** The error that replaces every failure of the outline step of the
    first revision (line 144). *)
Definition connectionError : JsError :=
  newError "Não foi possível conectar à IA. Verifique sua chave de API ou tente novamente.".

(** The [data:] URL made of an inline image (line 196). *)
Definition dataUrl (d : Response.InlineData) : string :=
  "data:" +:+ interpolate (Response.mimeType d) +:+ ";base64,"
    +:+ interpolate (Response.data d).

(** No text request fails and every text that comes back can be parsed. *)
Definition textAlwaysThere (api : Api) (parseContent : string -> Settled (option string))
    (answers : Answers.t) (outline : OutlineData.t) : Prop :=
  forall n t, exists textResult body,
    api n (chapterRequest t outline answers) = Resolved textResult /\
    ThrottledSpec.bodyOf parseContent textResult = Resolved body.

(** The pauses of a run of [total] chapters in which nothing is retried:
    one second before each image request, two seconds after each chapter
    but the last. *)
Definition pauses (total : nat) : list Z :=
  flat_map (fun i => if Z.of_nat i <? Z.of_nat total - 1
                     then [1000; 2000] else [1000]) (seq 0 total).

(** A second small run: every text request is answered, and every image
    request with three parts of which the second and third carry an
    image. *)
Module Demo2.

Definition picture : Response.InlineData :=
  Response.mkInline (Some "image/png") (Some "iVBORw0KGgo=").

Definition otherPicture : Response.InlineData :=
  Response.mkInline (Some "image/jpeg") (Some "AAAA").

Definition imageResponse : Response.t :=
  Response.mk None
    (Some [Response.mkCandidate
             (Some (Response.mkContent
                      (Some [Response.mkPart None;
                             Response.mkPart (Some picture);
                             Response.mkPart (Some otherPicture)])))]).

Definition api : Api :=
  fun _ request =>
    match contents request with
    | OutlinePrompt _ => Resolved (Response.mk (Some "outline") None)
    | ChapterPrompt t _ _ _ =>
        Resolved (Response.mk (Some ("Texto de " +:+ t)) None)
    | ImagePrompt _ _ => Resolved imageResponse
    end.

(** A parser that cannot read the text of the last chapter. *)
Definition parseStrict (s : string) : Settled (option string) :=
  if String.eqb s "Texto de D"
  then Rejected (newError "Unexpected end of JSON input")
  else Resolved (Some s).

End Demo2.

(** A third small run: the reply for "D" is the text [{}], an object
    without [content]; the other texts are answered as in the second run,
    and no illustration is delivered. *)
Module DemoBare.

Definition api : Api :=
  fun _ request =>
    match contents request with
    | OutlinePrompt _ => Resolved (Response.mk (Some "outline") None)
    | ChapterPrompt t _ _ _ =>
        if String.eqb t "D" then Resolved (Response.mk (Some "{}") None)
        else Resolved (Response.mk (Some ("Texto de " +:+ t)) None)
    | ImagePrompt _ _ => Rejected Demo.refused
    end.

(** The outline comes back as the text [{}]: an object without
    [chapterTitles], whose [length] cannot be read. *)
Definition noTitles : JsError :=
  newError "Cannot read properties of undefined (reading 'length')".

Definition parseOutline (s : string) : Settled Reply :=
  if String.eqb s "{}" then Resolved (Unreadable noTitles)
  else Demo.parseOutline s.

Definition bareOutline : Api :=
  fun _ _ => Resolved (Response.mk (Some "{}") None).

End DemoBare.

(** The number of batches that [total] chapters make. *)
Definition batchCount (total : nat) : nat :=
  (total + (Batched.batchSize - 1)) / Batched.batchSize.

(** The progress messages of the chapter loop of the second revision: one
    for each batch. *)
Definition batchMessages (first total : nat) : list string :=
  map (fun k => Batched.batchProgress (k * Batched.batchSize) total)
      (seq first (batchCount (total - first * Batched.batchSize))).

(** A trace without timers and without progress messages. *)
Definition quiet (l : list Event) : Prop :=
  sleeps l = [] /\ progressMessages l = [].

(** The value of a base-16 digit (0 for another character) and of a pair
    of digits. *)
Definition hexValue (c : ascii) : Z := default 0 (Js.hex_digit c).

Definition byteOf (hi lo : ascii) : Z := 16 * hexValue hi + hexValue lo.

Definition isHex (c : ascii) : bool := bool_decide (is_Some (Js.hex_digit c)).

Definition pair (c1 c2 : ascii) : string := String c1 (String c2 EmptyString).

(** [parseInt] reads the pair of digits [c1 c2] as the byte they write. *)
Definition readsByte (c1 c2 : ascii) : bool :=
  implb (isHex c1 && isHex c2)
        (match Js.parseInt16 (pair c1 c2) with
         | Js.Int v => (v =? byteOf c1 c2) && (0 <=? v) && (v <=? 255)
         | Js.NaN => false
         end).

(** ** The application and the questionnaire *)

Module AppSpec.
Import ThrottledApp.

(** What can happen to the page of the first revision.  The user starts
    the questionnaire, completes it, asks for the download, answers the
    question of [reset], closes the payment window, or pays; a generation
    under way reports its progress; and the [k]-th generation under way
    comes to its end. *)
Inductive Action :=
| Start
| Complete (finalAnswers : Answers.t)
| Download
| Reset (confirmed : bool)
| ClosePayment
| Checkout (current : Url) (randomSuffix : string)
| Shown (msg : string)
| Resume (k : nat).

Section Spec.
Variable api : Api.
Variable parseOutline : string -> Settled Reply.
Variable parseContent : string -> Settled (option string).

Definition handle (a : Action) (p : Page) : Page :=
  match a with
  | Start => startWizard p
  | Complete finalAnswers =>
      handleWizardComplete api parseOutline parseContent finalAnswers p
  | Download => handleDownload p
  | Reset confirmed => reset confirmed p
  | ClosePayment => update (setShowPayment false) p
  | Checkout current randomSuffix => handleCheckout current randomSuffix p
  | Shown msg => showProgress msg p
  | Resume k => resume k p
  end.

Definition run (l : list Action) (p : Page) : Page :=
  fold_left (fun q a => handle a q) l p.

End Spec.

(** The address carries a session id that [verifySimulatedPayment]
    accepts. *)
Definition verified (address : Url) : bool :=
  match paramsGet "session_id" (search address) with
  | Some sessionId => Js.startsWith "demo_session_" sessionId
  | None => false
  end.


(** While the page lives, a paid flag and a PDF both go back to a session
    id that was accepted when the page was loaded. *)
Definition entitled (address : Url) (p : Page) : Prop :=
  (isPaid (state p) = true -> verified address = true) /\
  (forall data, CreatePDF data ∈ effects p -> verified address = true).


End AppSpec.

Module WizardSpec.
Import StepWizard.

(** The answers are complete: a subject, and one of the options offered
    for each of the four questions. *)
Definition complete (a : Answers.t) : Prop :=
  Js.truthy (Answers.what a) = true /\
  Answers.who a ∈ options Who /\
  Answers.where_ a ∈ options Where /\
  Answers.objective a ∈ options Objective /\
  Answers.level a ∈ options Level.

(** Filling in the questionnaire at leisure: the subject, the button, and
    for each question one click and the wait for its timer. *)
Definition orderly (text : string) (i j k l : nat) : list Action :=
  [Typed text; ClickContinue; Choose i; Elapse; Choose j; Elapse;
   Choose k; Elapse; Choose l; Elapse].

(** What holds of a timer that is set, of the answers handed over, and
    of the component, whatever is done to it. *)
Definition timerSet (t : Timer) : Prop :=
  asked (step (seen t)) = Some (key t) /\
  value t ∈ options (key t) /\
  Js.truthy (Answers.what (answers (seen t))) = true.

Definition handedOver (a : Answers.t) : Prop :=
  Js.truthy (Answers.what a) = true /\ Answers.level a ∈ options Level.

Definition sound (wz : Wizard) : Prop :=
  1 <= step (state wz) /\
  (step (state wz) = 1 -> timers wz = []) /\
  (step (state wz) <> 1 ->
   Js.truthy (Answers.what (answers (state wz))) = true) /\
  Forall timerSet (timers wz) /\
  Forall handedOver (completed wz).

End WizardSpec.

(** A book, the address of the page, and the address of a return from
    the payment. *)
Module DemoApp.

Definition book : ContentData.t Throttled.Chapter :=
  ContentData.mk "Guia" "Primeiros passos" "Ana Lima" "Um guia curto."
    (Some "#1e293b")
    [Throttled.mkChapter "A" (Some "Texto de A") None;
     Throttled.mkChapter "B" (Some Throttled.chapterError) None;
     Throttled.mkChapter "C" (Some Throttled.unavailable) None;
     Throttled.mkChapter "D" (Some "Texto de D") None].

Definition home : Url := mkUrl "https://prontopdf.example/" [].

Definition paid : Url :=
  mkUrl "https://prontopdf.example/" [("session_id", "demo_session_k3x9")].

End DemoApp.

(** ** The document *)

Module LayoutSpec.
Import Layout.

(** The settings of the document that bear on text: the font, its size
    and the colour of the text. *)
Record Style := mkStyle {
  font : string * string;
  size : Z;
  colour : Pdf.Rgb
}.




Section Spec.
Context {n : Type}.

(** What a call does to the settings. *)
Definition restyle (c : Call n) (s : Style) : Style :=
  match c with
  | SetFont name style => mkStyle (name, style) (size s) (colour s)
  | SetFontSize z => mkStyle (font s) z (colour s)
  | SetTextColor r g b => mkStyle (font s) (size s) (Pdf.mkRgb r g b)
  | _ => s
  end.

Definition styleAfter (s : Style) (l : list (Call n)) : Style :=
  fold_left (fun s c => restyle c s) l s.











End Spec.

Section Runtime.
Variable L : Runtime.


(** The acknowledgements of the second revision as the library breaks
    them. *)
Definition ackLines : list string :=
  splitTextToSize L ("times", "roman") 12 BatchedPdf.ackText
    (sub L (pageWidth L) (mul L (margin L) (int L 2))).



(** The illustration of a chapter that [addImage] fails on. *)
Definition refused (chapter : Throttled.Chapter) : option string :=
  match Throttled.image chapter with
  | Some img =>
      if Js.truthy img && addImageFails L img then Some img else None
  | None => None
  end.


End Runtime.

(** Every channel of the colour is a number. *)
Definition numeric (c : Pdf.Rgb) : bool :=
  negb (isNaN (Pdf.r c) || isNaN (Pdf.g c) || isNaN (Pdf.b c)).

End LayoutSpec.

(** A runtime whose numbers are hundredths of a unit, on a sheet of 210
    by 297, with a library that never breaks a line and takes an image
    when it is a [data:] URL. *)
Module DemoDoc.


Definition style : LayoutSpec.Style :=
  LayoutSpec.mkStyle ("helvetica", "normal") 16 (Layout.grey 0).


Definition plain : ContentData.t Batched.Chapter :=
  ContentData.mk "Guia" "Primeiros passos" "Ana Lima" "Um guia curto."
    (Some "#1e293b")
    [Batched.mkChapter "A" (Some "Texto de A");
     Batched.mkChapter "B" None].


End DemoDoc.

(** * Properties *)

Lemma emitted_app w w' l : trace w' = (trace w ++ l)%list -> emitted w w' = l.
Proof. intros E. unfold emitted. rewrite E. apply drop_app_length. Qed.

Lemma emitted_logged w c l :
  emitted w {| calls := c; trace := (trace w ++ l)%list |} = l.
Proof. apply emitted_app. reflexivity. Qed.

(** ** The retry wrapper *)

Section RetryFacts.
Context {T : Type}.
Variable operationName : string.
Variable fn : Thunk T.
Variables retries baseDelay : Z.

Local Abbreviation loop := (retryLoop operationName fn retries baseDelay).

Lemma loop_success fuel i w r :
  i < retries -> fn (calls w) = Resolved r ->
  loop (S fuel) i w = (Ok r, tick w).
Proof.
  intros Hi Hr. cbn [retryLoop].
  destruct (Z.ltb_spec i retries); [|lia].
  unfold tryCatch, await. rewrite Hr. reflexivity.
Qed.

Lemma loop_backoff fuel i w e :
  i < retries - 1 -> fn (calls w) = Rejected e -> isRateLimit e = true ->
  loop (S fuel) i w
  = loop fuel (i + 1) (logged (backoffEvents operationName (baseDelay * 2 ^ i)) (tick w)).
Proof.
  intros Hi He Hrl. cbn [retryLoop].
  destruct (Z.ltb_spec i retries); [|lia].
  unfold tryCatch at 1. unfold await at 1. rewrite He. cbn [settle].
  rewrite Hrl. destruct (Z.ltb_spec i (retries - 1)); [|lia].
  cbn [andb]. unfold bind, onProgress, sleep, emit, logged, tick.
  cbn [calls trace]. rewrite <- !app_assoc. reflexivity.
Qed.

Lemma loop_rethrow fuel i w e :
  i < retries -> fn (calls w) = Rejected e ->
  isRateLimit e = false \/ retries - 1 <= i ->
  loop (S fuel) i w
  = (Throw e,
     logged [ConsoleError ("Error in " +:+ operationName +:+ ":") (Some e)]
            (tick w)).
Proof.
  intros Hi He Hno. cbn [retryLoop].
  destruct (Z.ltb_spec i retries); [|lia].
  unfold tryCatch at 1. unfold await at 1. rewrite He. cbn [settle].
  assert (isRateLimit e && (i <? retries - 1) = false) as ->.
  { destruct Hno as [-> | Hge]; [reflexivity|].
    destruct (Z.ltb_spec i (retries - 1)); [lia|]. apply andb_false_r. }
  reflexivity.
Qed.

Lemma loop_exit fuel i w :
  retries <= i -> loop (S fuel) i w = (Throw (exhausted operationName), w).
Proof.
  intros Hi. cbn [retryLoop]. destruct (Z.ltb_spec i retries); [lia|].
  reflexivity.
Qed.

(** The loop never runs out of fuel. *)
Lemma loop_settles fuel : forall i w,
  (Z.to_nat (retries - i) < fuel)%nat ->
  (loop fuel i w).1 <> Pending.
Proof.
  induction fuel as [|fuel IH]; intros i w Hfuel; [lia|].
  destruct (Z.lt_ge_cases i retries) as [Hi|Hi].
  2:{ rewrite loop_exit by lia. discriminate. }
  destruct (fn (calls w)) as [r|e] eqn:E.
  { rewrite (loop_success _ _ _ r) by assumption. discriminate. }
  destruct (isRateLimit e) eqn:Hrl, (Z.lt_ge_cases i (retries - 1)) as [Hl|Hl].
  - rewrite (loop_backoff _ _ _ e) by assumption. apply IH. lia.
  - rewrite (loop_rethrow _ _ _ e) by auto with zarith. discriminate.
  - rewrite (loop_rethrow _ _ _ e) by auto. discriminate.
  - rewrite (loop_rethrow _ _ _ e) by auto. discriminate.
Qed.

(** A value the loop returns is the value its last attempt resolved
    to. *)
Lemma loop_ok_inv fuel : forall i w r w',
  loop fuel i w = (Ok r, w') ->
  exists n, fn n = Resolved r /\ calls w' = S n.
Proof.
  induction fuel as [|fuel IH]; intros i w r w' H; [discriminate|].
  destruct (Z.lt_ge_cases i retries) as [Hi|Hi].
  2:{ rewrite loop_exit in H by lia. discriminate. }
  destruct (fn (calls w)) as [r0|e] eqn:E.
  { rewrite (loop_success _ _ _ r0) in H by assumption.
    injection H as -> <-. eauto. }
  destruct (isRateLimit e) eqn:Hrl, (Z.lt_ge_cases i (retries - 1)) as [Hl|Hl].
  - rewrite (loop_backoff _ _ _ e) in H by assumption. eauto.
  - rewrite (loop_rethrow _ _ _ e) in H by auto with zarith. discriminate.
  - rewrite (loop_rethrow _ _ _ e) in H by auto. discriminate.
  - rewrite (loop_rethrow _ _ _ e) in H by auto. discriminate.
Qed.

(** [k] rate-limited failures, then a success: [k] backoffs, with the
    delay doubling from [baseDelay * 2 ^ i]. *)
Lemma loop_backoffs k : forall fuel (i : nat) w r,
  (k < fuel)%nat -> Z.of_nat (i + k) < retries ->
  (forall j, (j < k)%nat ->
     exists e, fn (calls w + j)%nat = Rejected e /\ isRateLimit e = true) ->
  fn (calls w + k)%nat = Resolved r ->
  loop fuel (Z.of_nat i) w
  = (Ok r,
     {| calls := calls w + k + 1;
        trace := (trace w ++
          flat_map (fun j => backoffEvents operationName (baseDelay * 2 ^ Z.of_nat j))
                   (seq i k))%list |}).
Proof.
  induction k as [|k IH]; intros fuel i w r Hfuel Hk Hfail Hok.
  - destruct fuel as [|fuel]; [lia|].
    rewrite Nat.add_0_r in Hok.
    rewrite (loop_success _ _ _ r) by (assumption || lia).
    unfold tick. cbn [seq flat_map]. rewrite app_nil_r.
    do 2 f_equal. lia.
  - destruct fuel as [|fuel]; [lia|].
    destruct (Hfail 0%nat) as (e & He & Hrl); [lia|].
    rewrite Nat.add_0_r in He.
    rewrite (loop_backoff _ _ _ e) by (assumption || lia).
    replace (Z.of_nat i + 1) with (Z.of_nat (S i)) by lia.
    rewrite (IH fuel (S i) _ r).
    + unfold logged, tick. cbn [calls trace seq flat_map].
      rewrite <- app_assoc. do 2 f_equal. lia.
    + lia.
    + lia.
    + intros j Hj. destruct (Hfail (S j)) as (e' & He' & Hrl'); [lia|].
      exists e'. split; [|assumption].
      cbn [logged tick calls]. rewrite <- He'. f_equal. lia.
    + cbn [logged tick calls]. rewrite <- Hok. f_equal. lia.
Qed.

Local Ltac last_attempt e :=
  exists e; eexists; exists 0%nat;
  split; [reflexivity|]; cbn [logged tick calls]; rewrite Nat.add_0_r;
  split; [lia|]; split; [lia|assumption].

(** When every attempt fails, the loop throws the error of the last
    attempt it made. *)
Lemma loop_all_fail fuel : forall (i : Z) w,
  i < retries -> (Z.to_nat (retries - i) < fuel)%nat ->
  (forall j, Z.of_nat j < retries - i ->
     exists e, fn (calls w + j)%nat = Rejected e) ->
  exists e w' j,
    loop fuel i w = (Throw e, w') /\ Z.of_nat j < retries - i /\
    calls w' = (calls w + j + 1)%nat /\ fn (calls w + j)%nat = Rejected e.
Proof.
  induction fuel as [|fuel IH]; intros i w Hi Hfuel Hfail; [lia|].
  destruct (Hfail 0%nat) as (e & He); [lia|].
  rewrite Nat.add_0_r in He.
  destruct (isRateLimit e) eqn:Hrl, (Z.lt_ge_cases i (retries - 1)) as [Hl|Hl].
  - rewrite (loop_backoff _ _ _ e) by assumption.
    destruct (IH (i + 1) (logged (backoffEvents operationName (baseDelay * 2 ^ i)) (tick w)))
      as (e' & w' & j & Hrun & Hj & Hcalls & Hfn); [lia|lia| |].
    { intros j Hj. destruct (Hfail (S j)) as (e' & He'); [lia|].
      exists e'. cbn [logged tick calls]. rewrite <- He'. f_equal. lia. }
    exists e', w', (S j). cbn [logged tick calls] in Hcalls, Hfn.
    split; [assumption|]. split; [lia|]. split; [lia|].
    rewrite <- Hfn. f_equal. lia.
  - rewrite (loop_rethrow _ _ _ e) by auto with zarith. last_attempt e.
  - rewrite (loop_rethrow _ _ _ e) by auto. last_attempt e.
  - rewrite (loop_rethrow _ _ _ e) by auto. last_attempt e.
Qed.

End RetryFacts.

(** *** Facts about traces and about [includes] *)

Lemma sleeps_flat_map {A} (f : A -> list Event) (g : A -> Z) (l : list A) :
  (forall a, sleeps (f a) = [g a]) -> sleeps (flat_map f l) = map g l.
Proof.
  intros Hf. induction l as [|a l IH]; [reflexivity|].
  cbn [flat_map map]. unfold sleeps in *. rewrite omap_app, IH, Hf.
  reflexivity.
Qed.

Lemma sumZ_app (l1 l2 : list Z) : sumZ (l1 ++ l2) = sumZ l1 + sumZ l2.
Proof.
  unfold sumZ. induction l1 as [|x l1 IH]; cbn [foldr app]; [lia|].
  rewrite IH. lia.
Qed.

(** The delays of [k] backoffs add up to [baseDelay * (2 ^ k - 1)]. *)
Lemma sumZ_doubling (baseDelay : Z) (k : nat) :
  sumZ (map (fun j => baseDelay * 2 ^ Z.of_nat j) (seq 0 k))
  = baseDelay * (2 ^ Z.of_nat k - 1).
Proof.
  induction k as [|k IH]; [cbn; lia|].
  rewrite seq_S, map_app, sumZ_app, IH. cbn [map sumZ foldr Nat.add].
  rewrite Nat2Z.inj_succ, Z.pow_succ_r by lia. lia.
Qed.

Lemma prefix_append (p s : string) : String.prefix p (p +:+ s) = true.
Proof.
  induction p as [|a p IH]; [destruct s; reflexivity|].
  change (String a p +:+ s) with (String a (p +:+ s)).
  cbn [String.prefix]. destruct (ascii_dec a a); [exact IH|congruence].
Qed.

Lemma includes_prefix (p s : string) :
  String.prefix p s = true -> Js.includes p s = true.
Proof. intros H. destruct s; cbn [Js.includes]; rewrite H; reflexivity. Qed.

Lemma includes_append (p a s : string) : Js.includes p (a +:+ p +:+ s) = true.
Proof.
  induction a as [|c a IH].
  { change (EmptyString +:+ p +:+ s) with (p +:+ s).
    apply includes_prefix, prefix_append. }
  change (String c a +:+ p +:+ s) with (String c (a +:+ p +:+ s)).
  cbn [Js.includes]. rewrite IH. apply orb_true_r.
Qed.

Lemma exhausted_names (operationName : string) :
  names operationName (exhausted operationName) = true.
Proof. apply includes_append. Qed.

Lemma is429_false (v : option Z) : v <> Some 429 -> is429 v = false.
Proof.
  destruct v as [n|]; [|reflexivity]. intros H. cbn.
  destruct (Z.eqb_spec n 429); congruence.
Qed.

(** In the words of the classification: neither marker is 429 and the
    message does not match the pattern. *)
Lemma isRateLimit_false (e : JsError) :
  status e <> Some 429 -> code e <> Some 429 ->
  (forall m, message e = Some m -> rateLimitPattern m = false) ->
  isRateLimit e = false.
Proof.
  intros Hs Hc Hm. unfold isRateLimit.
  rewrite (is429_false _ Hs), (is429_false _ Hc). cbn [orb].
  destruct (message e) as [m|]; [|reflexivity].
  rewrite (Hm m eq_refl). apply andb_false_r.
Qed.

(** *** The claims about [callWithRetry] *)

(** C2.  If the operation fails with a rate-limit error on each of its
    first [k] attempts, [k < retries], and then succeeds, [callWithRetry]
    returns the success value after [k + 1] attempts.  What it adds to the
    trace is, for [j = 0 .. k-1] in order, a progress message, a console
    warning and a timer of [baseDelay * 2 ^ j]: [k] timers in all, which
    add up to [baseDelay * (2 ^ k - 1)]. *)
Theorem callWithRetry_backoff {T} (operationName : string) (fn : Thunk T)
    (retries baseDelay : Z) (k : nat) (r : T) (w : World) :
  Z.of_nat k < retries ->
  (forall j, (j < k)%nat ->
     exists e, fn (calls w + j)%nat = Rejected e /\ isRateLimit e = true) ->
  fn (calls w + k)%nat = Resolved r ->
  exists w',
    callWithRetry operationName fn retries baseDelay w = (Ok r, w') /\
    calls w' = (calls w + k + 1)%nat /\
    emitted w w'
    = flat_map (fun j => [Progress (backoffMessage operationName
                                      (baseDelay * 2 ^ Z.of_nat j));
                          ConsoleWarn (backoffWarning operationName
                                         (baseDelay * 2 ^ Z.of_nat j)) None;
                          Sleep (baseDelay * 2 ^ Z.of_nat j)])
               (seq 0 k) /\
    sleeps (emitted w w')
    = map (fun j => baseDelay * 2 ^ Z.of_nat j) (seq 0 k) /\
    sumZ (sleeps (emitted w w')) = baseDelay * (2 ^ Z.of_nat k - 1).
Proof.
  intros Hk Hfail Hok. eexists. split.
  { unfold callWithRetry.
    apply (loop_backoffs operationName fn retries baseDelay k _ 0%nat w r);
      [lia|lia|assumption|assumption]. }
  cbn [calls]. split; [reflexivity|].
  rewrite emitted_logged. split; [reflexivity|].
  assert (sleeps (flat_map (fun j => backoffEvents operationName
                                        (baseDelay * 2 ^ Z.of_nat j)) (seq 0 k))
          = map (fun j => baseDelay * 2 ^ Z.of_nat j) (seq 0 k)) as ->.
  { apply sleeps_flat_map. reflexivity. }
  split; [reflexivity|]. apply sumZ_doubling.
Qed.

Lemma callWithRetry_backoff_witness :
  exists w',
    callWithRetry "Texto Cap 1" twiceLimited 3 4000 (mkWorld 0 []) = (Ok 7, w') /\
    calls w' = 3%nat /\
    emitted (mkWorld 0 []) w'
    = flat_map (fun j => [Progress (backoffMessage "Texto Cap 1"
                                      (4000 * 2 ^ Z.of_nat j));
                          ConsoleWarn (backoffWarning "Texto Cap 1"
                                         (4000 * 2 ^ Z.of_nat j)) None;
                          Sleep (4000 * 2 ^ Z.of_nat j)])
               (seq 0 2) /\
    sleeps (emitted (mkWorld 0 []) w') = [4000; 8000] /\
    sumZ (sleeps (emitted (mkWorld 0 []) w')) = 12000.
Proof.
  apply (callWithRetry_backoff "Texto Cap 1" twiceLimited 3 4000 2 7
           (mkWorld 0 [])).
  - lia.
  - intros [|[|j]] Hj; [eexists; split; reflexivity ..|lia].
  - reflexivity.
Defined.

(** C4.  An error that is not classified as a rate limit (neither [status]
    nor [code] is 429 and the message does not match the pattern) is
    propagated from the first attempt: one attempt, no timer, no progress
    message, only the console report. *)
Theorem callWithRetry_propagates {T} (operationName : string) (fn : Thunk T)
    (retries baseDelay : Z) (e : JsError) (w : World) :
  0 < retries ->
  fn (calls w) = Rejected e ->
  status e <> Some 429 -> code e <> Some 429 ->
  (forall m, message e = Some m -> rateLimitPattern m = false) ->
  exists w',
    callWithRetry operationName fn retries baseDelay w = (Throw e, w') /\
    calls w' = S (calls w) /\
    emitted w w'
    = [ConsoleError ("Error in " +:+ operationName +:+ ":") (Some e)] /\
    sleeps (emitted w w') = [] /\
    progressMessages (emitted w w') = [].
Proof.
  intros Hr He Hs Hc Hm. eexists. split.
  { unfold callWithRetry.
    apply (loop_rethrow operationName fn retries baseDelay _ 0 w e);
      [lia|assumption|left; apply isRateLimit_false; assumption]. }
  cbn [logged tick calls]. split; [reflexivity|].
  unfold logged, tick. cbn [calls trace]. rewrite emitted_logged.
  split; [reflexivity|]. split; reflexivity.
Qed.

Lemma callWithRetry_propagates_witness :
  exists w',
    callWithRetry "Gerar Estrutura" (fun _ => @Rejected Z unauthorized) 3 4000
      (mkWorld 0 []) = (Throw unauthorized, w') /\
    calls w' = 1%nat /\
    emitted (mkWorld 0 []) w'
    = [ConsoleError "Error in Gerar Estrutura:" (Some unauthorized)] /\
    sleeps (emitted (mkWorld 0 []) w') = [] /\
    progressMessages (emitted (mkWorld 0 []) w') = [].
Proof.
  apply (callWithRetry_propagates "Gerar Estrutura"
           (fun _ => @Rejected Z unauthorized) 3 4000 unauthorized
           (mkWorld 0 [])).
  - lia.
  - reflexivity.
  - discriminate.
  - discriminate.
  - intros m [= <-]. reflexivity.
Defined.

(** C3, as the specification words it, fails: with three attempts that all
    hit the quota, the wrapper makes its three attempts and then rethrows
    the backend's own error, whose message does not name the operation. *)
Lemma callWithRetry_exhausted_counterexample :
  (forall n, alwaysLimited n = Rejected quotaError) /\
  exists w',
    callWithRetry "Gerar Estrutura" alwaysLimited 3 4000 (mkWorld 0 [])
    = (Throw quotaError, w') /\
    calls w' = 3%nat /\
    names "Gerar Estrutura" quotaError = false.
Proof.
  split; [reflexivity|].
  exists (callWithRetry "Gerar Estrutura" alwaysLimited 3 4000 (mkWorld 0 [])).2.
  split; [vm_compute; reflexivity|]. split; vm_compute; reflexivity.
Qed.

(** C3, amended.  When every attempt of the operation fails, the wrapper
    fails too.  If [retries >= 1] it rethrows, unchanged, the error of the
    last attempt it made (attempt [j < retries]).  Only if [retries <= 0],
    when no attempt is made at all, does it raise the terminal failure whose
    message names the operation. *)
Theorem callWithRetry_exhausted {T} (operationName : string) (fn : Thunk T)
    (retries baseDelay : Z) (w : World) :
  (forall j, Z.of_nat j < retries ->
     exists e, fn (calls w + j)%nat = Rejected e) ->
  exists e w',
    callWithRetry operationName fn retries baseDelay w = (Throw e, w') /\
    ((0 < retries /\
      exists j, Z.of_nat j < retries /\ calls w' = (calls w + j + 1)%nat /\
                fn (calls w + j)%nat = Rejected e)
     \/
     (retries <= 0 /\ w' = w /\ e = exhausted operationName /\
      names operationName e = true)).
Proof.
  intros Hfail. unfold callWithRetry.
  destruct (Z.lt_ge_cases 0 retries) as [Hr|Hr].
  - destruct (loop_all_fail operationName fn retries baseDelay
                (S (Z.to_nat retries)) 0 w) as (e & w' & j & Hrun & Hj & Hc & He).
    + assumption.
    + lia.
    + intros j Hj. apply Hfail. lia.
    + exists e, w'. split; [assumption|]. left. split; [assumption|].
      exists j. split; [lia|]. split; assumption.
  - exists (exhausted operationName), w. split.
    + apply loop_exit. assumption.
    + right. split; [assumption|]. split; [reflexivity|].
      split; [reflexivity|]. apply exhausted_names.
Qed.

Lemma callWithRetry_exhausted_witness :
  exists e w',
    callWithRetry "Gerar Estrutura" alwaysLimited 3 4000 (mkWorld 0 [])
    = (Throw e, w') /\
    ((0 < 3 /\
      exists j, Z.of_nat j < 3 /\ calls w' = (0 + j + 1)%nat /\
                alwaysLimited (0 + j)%nat = Rejected e)
     \/
     (3 <= 0 /\ w' = mkWorld 0 [] /\ e = exhausted "Gerar Estrutura" /\
      names "Gerar Estrutura" e = true)).
Proof.
  apply (callWithRetry_exhausted "Gerar Estrutura" alwaysLimited 3 4000
           (mkWorld 0 [])).
  intros j _. exists quotaError. reflexivity.
Defined.

(** ** The PDF helpers *)

Module PdfFacts.
Import Pdf PdfSpec.

(** What the guard of [hexToRgb] catches: a colour that is missing,
    empty or does not start with [#] is given the fallback, which is
    also what [#1e293b] is read as. *)
Lemma hexToRgb_guarded (hex : option string) :
  hexToRgb (Some "#1e293b") = fallback /\
  (hex = None \/ hex = Some EmptyString \/
   (exists h, hex = Some h /\ Js.startsWith "#" h = false) ->
   hexToRgb hex = fallback).
Proof.
  split; [reflexivity|].
  intros [-> | [-> | (h & -> & Hh)]]; [reflexivity..|].
  unfold hexToRgb. rewrite Hh. cbn [negb]. rewrite orb_true_r. reflexivity.
Qed.

(** C9, as the specification words it, fails: the characters are not
    removed.  The space of the title is still there, as an underscore; the
    name is neither the stripped title nor its lower case, and it holds a
    character that is not alphanumeric. *)
Lemma fileName_counterexample :
  savedAs (Throttled.assemble
             (OutlineData.mk "Meu Livro" "s" "a" "r" None []) [])
  = "meu_livro.pdf" /\
  fileName "Meu Livro" <> strip "Meu Livro" +:+ ".pdf" /\
  fileName "Meu Livro" <> Js.toLowerCase (strip "Meu Livro") +:+ ".pdf" /\
  every (fun c => negb (notAlphanumeric c)) "meu_livro" = false.
Proof.
  split; [reflexivity|]. split; [discriminate|]. split; [discriminate|].
  reflexivity.
Qed.

Lemma lower_replaced (c : ascii) :
  Js.lower (if notAlphanumeric c then "_"%char else c) = sanitize c.
Proof. unfold sanitize. destruct (notAlphanumeric c); reflexivity. Qed.

Lemma sanitize_plain (c : ascii) : plain (sanitize c) = true.
Proof. destruct c as [[] [] [] [] [] [] [] []]; reflexivity. Qed.

Lemma stem_map (title : string) :
  Js.toLowerCase (replaceNonAlphanumeric title) = Js.map sanitize title.
Proof.
  unfold Js.toLowerCase, replaceNonAlphanumeric.
  induction title as [|c s IH]; [reflexivity|].
  cbn [Js.map]. rewrite IH, lower_replaced. reflexivity.
Qed.

Lemma map_length (f : ascii -> ascii) (s : string) :
  String.length (Js.map f s) = String.length s.
Proof. induction s as [|c s IH]; cbn; [reflexivity|]. rewrite IH. reflexivity. Qed.

Lemma map_get (f : ascii -> ascii) (s : string) : forall i,
  String.get i (Js.map f s) = option_map f (String.get i s).
Proof.
  induction s as [|c s IH]; intros i; [reflexivity|].
  destruct i as [|i]; cbn [Js.map String.get]; [reflexivity|apply IH].
Qed.

Lemma map_every (f : ascii -> ascii) (p : ascii -> bool) (s : string) :
  (forall c, p (f c) = true) -> every p (Js.map f s) = true.
Proof.
  intros H. induction s as [|c s IH]; [reflexivity|].
  cbn [Js.map every]. rewrite H, IH. reflexivity.
Qed.

(** C9, amended.  The file name is a function of the title alone: a stem
    followed by [.pdf], where the stem has the title's length, holds at
    each position the title's character lower-cased if it is
    alphanumeric and an underscore otherwise, and so consists of
    lower-case letters, digits and underscores only. *)
Theorem fileName_sanitized {Chapter} (data : ContentData.t Chapter) :
  let title := ContentData.title data in
  exists stem,
    savedAs data = stem +:+ ".pdf" /\
    String.length stem = String.length title /\
    (forall i, String.get i stem = option_map sanitize (String.get i title)) /\
    every plain stem = true.
Proof.
  intros title. exists (Js.map sanitize title).
  unfold savedAs, fileName. fold title. rewrite stem_map.
  split; [reflexivity|]. split; [apply map_length|].
  split; [intros i; apply map_get|].
  apply map_every, sanitize_plain.
Qed.

End PdfFacts.

(** ** Running monadic code *)

Lemma bind_ok {A B} (m : M A) (k : A -> M B) w a w1 :
  m w = (Ok a, w1) -> (x <- m ;; k x) w = k a w1.
Proof. intros H. unfold bind. rewrite H. reflexivity. Qed.

Lemma bind_throw {A B} (m : M A) (k : A -> M B) w e w1 :
  m w = (Throw e, w1) -> (x <- m ;; k x) w = (Throw e, w1).
Proof. intros H. unfold bind. rewrite H. reflexivity. Qed.

Lemma tryCatch_ok {A} (body : M A) (handler : JsError -> M A) w a w1 :
  body w = (Ok a, w1) -> tryCatch body handler w = (Ok a, w1).
Proof. intros H. unfold tryCatch. rewrite H. reflexivity. Qed.

Lemma tryCatch_throw {A} (body : M A) (handler : JsError -> M A) w e w1 :
  body w = (Throw e, w1) -> tryCatch body handler w = handler e w1.
Proof. intros H. unfold tryCatch. rewrite H. reflexivity. Qed.

Lemma callWithRetry_settles {T} operationName (fn : Thunk T) retries baseDelay w :
  (callWithRetry operationName fn retries baseDelay w).1 <> Pending.
Proof. apply loop_settles. lia. Qed.

Lemma callWithRetry_ok_inv {T} operationName (fn : Thunk T) retries baseDelay
    w r w' :
  callWithRetry operationName fn retries baseDelay w = (Ok r, w') ->
  exists n, fn n = Resolved r /\ calls w' = S n.
Proof. apply loop_ok_inv. Qed.

(** With a single attempt allowed, the wrapper makes it and passes on what
    came of it. *)
Lemma callWithRetry_once_resolved {T} operationName (fn : Thunk T) baseDelay w r :
  fn (calls w) = Resolved r ->
  callWithRetry operationName fn 1 baseDelay w = (Ok r, tick w).
Proof. intros H. apply loop_success; [lia|assumption]. Qed.

Lemma callWithRetry_once_rejected {T} operationName (fn : Thunk T) baseDelay w e :
  fn (calls w) = Rejected e ->
  callWithRetry operationName fn 1 baseDelay w
  = (Throw e,
     logged [ConsoleError ("Error in " +:+ operationName +:+ ":") (Some e)]
            (tick w)).
Proof. intros H. apply loop_rethrow; [lia|assumption|right; lia]. Qed.

(** ** The first revision, chapter by chapter *)

Module ThrottledFacts.
Import Throttled ThrottledSpec.

Section Facts.
Variable api : Api.
Variable parseContent : string -> Settled (option string).
Variable answers : Answers.t.
Variable outline : OutlineData.t.
Variable totalChapters : nat.

Local Abbreviation genImage := (generateImage api answers).
Local Abbreviation genText := (generateText api answers outline).
Local Abbreviation step :=
  (chapterStep api parseContent answers outline totalChapters).
Local Abbreviation loop :=
  (chapterLoop api parseContent answers outline totalChapters).
Local Abbreviation bodyOf := (ThrottledSpec.bodyOf parseContent).
Local Abbreviation own :=
  (ThrottledSpec.own api parseContent answers outline totalChapters).
Local Abbreviation announced := (ThrottledSpec.announced totalChapters).
Local Abbreviation upTo :=
  (ThrottledSpec.upTo api parseContent answers outline totalChapters).
Local Abbreviation reached :=
  (ThrottledSpec.reached api parseContent answers outline totalChapters).

Lemma chapterText_bodyOf textResult w :
  chapterText parseContent textResult w = (settle (bodyOf textResult), w).
Proof.
  unfold chapterText, bodyOf.
  destruct (Response.text textResult) as [t|]; [|reflexivity].
  destruct (Js.truthy t); reflexivity.
Qed.

Lemma genImage_resolved i t w r :
  api (calls w) (imageRequest t answers) = Resolved r ->
  genImage i t w = (Ok (inlineOf r), tick (logged [Sleep 1000] w)).
Proof.
  intros H. unfold generateImage.
  apply tryCatch_ok. unfold sleep.
  erewrite bind_ok by reflexivity.
  erewrite bind_ok; [reflexivity|].
  apply callWithRetry_once_resolved. exact H.
Qed.

Lemma genImage_rejected i t w e :
  api (calls w) (imageRequest t answers) = Rejected e ->
  genImage i t w
  = (Ok None,
     logged [ConsoleError ("Error in " +:+ "Imagem Cap "
                             +:+ pretty (i + 1)%nat +:+ ":") (Some e);
             ConsoleWarn ("Imagem pulada para " +:+ t) (Some e)]
            (tick (logged [Sleep 1000] w))).
Proof.
  intros H. unfold generateImage.
  erewrite tryCatch_throw.
  2:{ unfold sleep. erewrite bind_ok by reflexivity.
      apply bind_throw. apply callWithRetry_once_rejected. exact H. }
  unfold bind, emit, logged, tick. cbn [calls trace].
  rewrite <- !app_assoc. reflexivity.
Qed.

(** The inner [try] swallows whatever the image request does. *)
Lemma genImage_total i t w :
  exists img w', genImage i t w = (Ok img, w') /\ calls w' = S (calls w).
Proof.
  destruct (api (calls w) (imageRequest t answers)) as [r|e] eqn:E.
  - rewrite (genImage_resolved _ _ _ r E). eauto.
  - rewrite (genImage_rejected _ _ _ e E). eauto.
Qed.

Lemma genText_settles i t w : (genText i t w).1 <> Pending.
Proof. apply callWithRetry_settles. Qed.

(** The three ways an iteration can go. *)
Lemma step_text_throws i t chapters w e w2 :
  genText i t (announced i t w) = (Throw e, w2) ->
  step i t chapters w
  = (Ok (chapters ++ [placeholder t]),
     logged [ConsoleError ("Erro no capítulo " +:+ t) (Some e)] w2).
Proof.
  intros H. unfold chapterStep, onProgress.
  erewrite bind_ok by reflexivity.
  erewrite tryCatch_throw by (apply bind_throw; exact H).
  reflexivity.
Qed.

Lemma step_parse_throws i t chapters w textResult w2 img w3 e :
  genText i t (announced i t w) = (Ok textResult, w2) ->
  genImage i t w2 = (Ok img, w3) ->
  bodyOf textResult = Rejected e ->
  step i t chapters w
  = (Ok (chapters ++ [placeholder t]),
     logged [ConsoleError ("Erro no capítulo " +:+ t) (Some e)] w3).
Proof.
  intros Ht Hi Hb. unfold chapterStep, onProgress.
  erewrite bind_ok by reflexivity.
  erewrite tryCatch_throw.
  2:{ erewrite bind_ok by exact Ht. erewrite bind_ok by exact Hi.
      apply bind_throw. rewrite chapterText_bodyOf, Hb. reflexivity. }
  reflexivity.
Qed.

Lemma step_written i t chapters w textResult w2 img w3 body :
  genText i t (announced i t w) = (Ok textResult, w2) ->
  genImage i t w2 = (Ok img, w3) ->
  bodyOf textResult = Resolved body ->
  exists w',
    step i t chapters w
    = (Ok (chapters ++ [{| title := t; content := body; image := img |}]),
       w') /\
    calls w' = calls w3.
Proof.
  intros Ht Hi Hb. unfold chapterStep, onProgress.
  erewrite bind_ok by reflexivity.
  destruct (Z.of_nat i <? Z.of_nat totalChapters - 1) eqn:Hlast.
  - eexists. split.
    + apply tryCatch_ok.
      erewrite bind_ok by exact Ht. erewrite bind_ok by exact Hi.
      erewrite bind_ok by (rewrite chapterText_bodyOf, Hb; reflexivity).
      reflexivity.
    + reflexivity.
  - eexists. split.
    + apply tryCatch_ok.
      erewrite bind_ok by exact Ht. erewrite bind_ok by exact Hi.
      erewrite bind_ok by (rewrite chapterText_bodyOf, Hb; reflexivity).
      reflexivity.
    + reflexivity.
Qed.

(** Every iteration appends exactly one chapter: the one that the
    replies to its own requests make. *)
Lemma step_total i t chapters w :
  exists w', step i t chapters w = (Ok (chapters ++ [own i t w]), w').
Proof.
  unfold ThrottledSpec.own.
  destruct (genText i t (announced i t w)) as [[textResult|e|] w2] eqn:Ht.
  - destruct (genImage_total i t w2) as (img & w3 & Hi & _).
    destruct (bodyOf textResult) as [body|e] eqn:Hb.
    + destruct (step_written i t chapters w _ _ _ _ body Ht Hi Hb)
        as (w' & Hs & _).
      exists w'. rewrite Hi. exact Hs.
    + rewrite (step_parse_throws i t chapters w _ _ _ _ e Ht Hi Hb).
      eexists. reflexivity.
  - rewrite (step_text_throws i t chapters w e w2 Ht).
    eexists. reflexivity.
  - exfalso. apply (genText_settles i t (announced i t w)).
    rewrite Ht. reflexivity.
Qed.

Lemma own_title i t w : title (own i t w) = t.
Proof.
  unfold ThrottledSpec.own.
  destruct (genText i t (announced i t w)) as [[textResult|e|] w2];
    [|reflexivity..].
  destruct (bodyOf textResult) as [body|e]; [|reflexivity].
  destruct (genImage i t w2) as [[img|e|] w3]; reflexivity.
Qed.

(** The body of that chapter is the placeholder of a failed chapter, the
    sentinel of an empty text, or what parsing the text of a reply to
    the request for its title gave. *)
Lemma own_body i t w :
  (content (own i t w) = Some chapterError /\ image (own i t w) = None) \/
  content (own i t w) = Some unavailable \/
  exists n textResult s,
    api n (chapterRequest t outline answers) = Resolved textResult /\
    Response.text textResult = Some s /\ Js.truthy s = true /\
    parseContent s = Resolved (content (own i t w)).
Proof.
  unfold ThrottledSpec.own.
  destruct (genText i t (announced i t w)) as [[textResult|e|] w2] eqn:Ht;
    [|left; split; reflexivity..].
  destruct (callWithRetry_ok_inv _ _ _ _ _ _ _ Ht) as (n & Hn & _).
  destruct (bodyOf textResult) as [body|e] eqn:Hb; [|left; split; reflexivity].
  destruct (genImage i t w2) as [[img|e|] w3]; [|left; split; reflexivity..].
  cbn [content image]. unfold ThrottledSpec.bodyOf in Hb.
  destruct (Response.text textResult) as [s|] eqn:Hs.
  2:{ injection Hb as <-. right. left. reflexivity. }
  destruct (Js.truthy s) eqn:Htr.
  2:{ injection Hb as <-. right. left. reflexivity. }
  right. right. exists n, textResult, s. repeat split; assumption.
Qed.

(** The loop over [titles] appends one chapter per title, in order. *)
Lemma loop_total titles : forall i chapters w,
  exists added w',
    loop i titles chapters w = (Ok (chapters ++ added), w') /\
    map title added = titles.
Proof.
  induction titles as [|t titles IH]; intros i chapters w.
  - exists [], w. rewrite app_nil_r. split; reflexivity.
  - destruct (step_total i t chapters w) as (w1 & Hs).
    destruct (IH (S i) (chapters ++ [own i t w]) w1) as (added & w' & Hl & Hm).
    exists (own i t w :: added), w'. split.
    + cbn [chapterLoop]. erewrite bind_ok by exact Hs.
      rewrite Hl, <- app_assoc. reflexivity.
    + cbn [map]. rewrite own_title, Hm. reflexivity.
Qed.

Lemma loop_app l1 l2 : forall i chapters w,
  loop i (l1 ++ l2) chapters w
  = (chapters' <- loop i l1 chapters ;;
     loop (i + length l1) l2 chapters') w.
Proof.
  induction l1 as [|t l1 IH]; intros i chapters w.
  - cbn [app chapterLoop length]. rewrite Nat.add_0_r. reflexivity.
  - cbn [app chapterLoop length]. unfold bind.
    destruct (step i t chapters w) as [[chapters'|e|] w1]; [|reflexivity..].
    rewrite IH. unfold bind.
    replace (S i + length l1)%nat with (i + S (length l1))%nat by lia.
    reflexivity.
Qed.

(** What the iteration for index [i] appends is what the array holds
    at index [i] in the end. *)
Lemma loop_nth titles i t w :
  titles !! i = Some t ->
  exists before,
    upTo titles i w = (Ok before, reached titles i w) /\
    length before = i /\
    forall c w2,
      step i t before (reached titles i w) = (Ok (before ++ [c]), w2) ->
      exists chapters w',
        loop 0 titles [] w = (Ok chapters, w') /\
        length chapters = length titles /\
        chapters !! i = Some c.
Proof.
  intros Hi.
  assert (Hlen : (i < length titles)%nat) by (eapply lookup_lt_Some; eauto).
  destruct (loop_total (take i titles) 0 [] w) as (before & w1 & Hb & Hm).
  cbn [app] in Hb.
  assert (Hbl : length before = i).
  { rewrite <- (length_map title), Hm, length_take. lia. }
  exists before. unfold reached, upTo. rewrite Hb. cbn [snd].
  split; [reflexivity|]. split; [exact Hbl|].
  intros c w2 Hs.
  destruct (loop_total (drop (S i) titles) (S i) (before ++ [c]) w2)
    as (after & w' & Ha & Hma).
  exists ((before ++ [c]) ++ after), w'. split; [|split].
  - rewrite <- (take_drop_middle titles i t Hi) at 1.
    rewrite loop_app. erewrite bind_ok by exact Hb.
    rewrite length_take, Nat.min_l, Nat.add_0_l by lia.
    cbn [chapterLoop]. erewrite bind_ok by exact Hs. exact Ha.
  - rewrite !length_app, Hbl. cbn [length].
    rewrite <- (length_map title after), Hma, length_drop. lia.
  - rewrite <- app_assoc. rewrite lookup_app_r by lia.
    rewrite Hbl, Nat.sub_diag. reflexivity.
Qed.

(** The array in the end: at each index the chapter that the iteration
    for that index made of its own replies. *)
Lemma loop_own titles w :
  exists chapters w',
    loop 0 titles [] w = (Ok chapters, w') /\
    length chapters = length titles /\
    forall i t, titles !! i = Some t ->
      chapters !! i = Some (own i t (reached titles i w)).
Proof.
  destruct (loop_total titles 0 [] w) as (chapters & w' & Hrun & Hm).
  cbn [app] in Hrun. exists chapters, w'. split; [exact Hrun|]. split.
  { rewrite <- Hm. symmetry. apply length_map. }
  intros i t Hi.
  destruct (loop_nth titles i t w Hi) as (before & _ & _ & Hnth).
  destruct (step_total i t before (reached titles i w)) as (w2 & Hs).
  destruct (Hnth _ _ Hs) as (chapters' & w'' & Hrun' & _ & Hc).
  rewrite Hrun in Hrun'. injection Hrun' as <- _. exact Hc.
Qed.

End Facts.

(** The run as a whole: once the outline is there, the result is the
    outline's metadata with what the chapter loop returns. *)
Lemma generateMaterial_assembles api parseOutline parseContent answers
    w outline w1 chapters w2 :
  generateOutline api parseOutline answers (started w) = (Ok (Outline outline), w1) ->
  generateChapters api parseContent answers outline w1 = (Ok chapters, w2) ->
  generateMaterial api parseOutline parseContent answers w
  = (Ok (assemble outline chapters),
     logged [Progress "Finalizando diagramação..."] w2).
Proof.
  intros Ho Hc. unfold generateMaterial, onProgress.
  erewrite bind_ok by reflexivity. erewrite bind_ok by exact Ho.
  erewrite bind_ok by reflexivity.
  erewrite bind_ok by exact Hc. reflexivity.
Qed.

(** The run returns, with at each index the chapter that the iteration
    for that index made of its own replies. *)
Lemma material_own api parseOutline parseContent answers w outline w1 :
  let titles := OutlineData.chapterTitles outline in
  generateOutline api parseOutline answers (started w) = (Ok (Outline outline), w1) ->
  exists content w',
    generateMaterial api parseOutline parseContent answers w
    = (Ok content, w') /\
    length (ContentData.chapters content) = length titles /\
    forall j t, titles !! j = Some t ->
      ContentData.chapters content !! j
      = Some (own api parseContent answers outline (length titles) j t
                (reached api parseContent answers outline (length titles)
                   titles j w1)).
Proof.
  intros titles Ho.
  destruct (loop_own api parseContent answers outline (length titles)
              titles w1) as (chapters & w' & Hrun & Hlen & Hown).
  eexists _, _. split.
  { eapply generateMaterial_assembles; [exact Ho|exact Hrun]. }
  cbn [assemble ContentData.chapters]. split; assumption.
Qed.

(** From one iteration to the whole run. *)
Lemma material_nth api parseOutline parseContent answers w outline w1 i t :
  let titles := OutlineData.chapterTitles outline in
  generateOutline api parseOutline answers (started w) = (Ok (Outline outline), w1) ->
  titles !! i = Some t ->
  exists before,
    upTo api parseContent answers outline (length titles) titles i w1
    = (Ok before,
       reached api parseContent answers outline (length titles) titles i w1) /\
    forall c w2,
      chapterStep api parseContent answers outline (length titles) i t before
        (reached api parseContent answers outline (length titles) titles i w1)
      = (Ok (before ++ [c]), w2) ->
      exists content w',
        generateMaterial api parseOutline parseContent answers w
        = (Ok content, w') /\
        length (ContentData.chapters content) = length titles /\
        ContentData.chapters content !! i = Some c /\
        forall j t', titles !! j = Some t' ->
          ContentData.chapters content !! j
          = Some (own api parseContent answers outline (length titles) j t'
                    (reached api parseContent answers outline (length titles)
                       titles j w1)).
Proof.
  intros titles Ho Hi.
  destruct (loop_nth api parseContent answers outline (length titles)
              titles i t w1 Hi) as (before & Hup & _ & Hnth).
  exists before. split; [exact Hup|]. intros c w2 Hs.
  destruct (Hnth c w2 Hs) as (chapters & w' & Hrun & Hlen & Hc).
  destruct (material_own api parseOutline parseContent answers w outline w1 Ho)
    as (content & w'' & Hmat & _ & Hown).
  pose proof (generateMaterial_assembles api parseOutline parseContent answers
                w outline w1 chapters w' Ho Hrun) as Hmat'.
  rewrite Hmat in Hmat'. injection Hmat' as -> _.
  eexists _, _. split; [exact Hmat|].
  cbn [assemble ContentData.chapters] in *.
  split; [exact Hlen|]. split; [exact Hc|]. exact Hown.
Qed.

End ThrottledFacts.

(** ** The second revision, batch by batch *)

Module BatchedFacts.
Import Batched BatchedSpec.

Section Facts.
Variable api : Api.
Variable parseContent : string -> Settled (option string).
Variable answers : Answers.t.
Variable settleOrder : nat -> list nat.
Variable outline : OutlineData.t.

Local Abbreviation titles := (OutlineData.chapterTitles outline).
Local Abbreviation bodyOf := (BatchedSpec.bodyOf parseContent).
Local Abbreviation chapterOf := (BatchedSpec.chapterOf parseContent).
Local Abbreviation inFlight := (BatchedSpec.inFlight api answers outline).
Local Abbreviation stored := (BatchedSpec.stored parseContent).
Local Abbreviation written :=
  (BatchedSpec.written api parseContent answers outline).
Local Abbreviation everySettles :=
  (BatchedSpec.everySettles settleOrder outline).

Lemma chapterText_value result w :
  chapterText parseContent result w = (settle (bodyOf result), w).
Proof.
  unfold chapterText, bodyOf.
  destruct (Response.text result) as [t|]; [|reflexivity].
  destruct (Js.truthy t); reflexivity.
Qed.

(** An arrow never rejects: its own handler turns every failure into a
    chapter. *)
Lemma finishChapter_value p w :
  exists w',
    finishChapter parseContent p w = (Ok (chapterOf p), w') /\
    calls w' = calls w.
Proof.
  destruct p as [t [result|e]]; unfold finishChapter, chapterOf; cbn [fst snd].
  - destruct (bodyOf result) as [body|e] eqn:Hb.
    + eexists. split; [|reflexivity]. apply tryCatch_ok.
      erewrite bind_ok by reflexivity.
      erewrite bind_ok by (rewrite chapterText_value, Hb; reflexivity).
      reflexivity.
    + eexists. split.
      * erewrite tryCatch_throw.
        2:{ erewrite bind_ok by reflexivity. apply bind_throw.
            rewrite chapterText_value, Hb. reflexivity. }
        reflexivity.
      * reflexivity.
  - eexists. split.
    + erewrite tryCatch_throw by (apply bind_throw; reflexivity).
      reflexivity.
    + reflexivity.
Qed.

Lemma startBatch_value batch : forall w,
  startBatch api answers outline batch w
  = (Ok (inFlight (calls w) batch),
     {| calls := calls w + length batch; trace := trace w |}).
Proof.
  induction batch as [|t batch IH]; intros w.
  - cbn. rewrite Nat.add_0_r. destruct w; reflexivity.
  - cbn [startBatch]. erewrite bind_ok by reflexivity.
    erewrite bind_ok by apply IH.
    unfold ret, inFlight. cbn [calls trace length imap].
    rewrite Nat.add_0_r. do 2 f_equal.
    + f_equal. apply imap_ext. intros j x _. cbn. do 2 f_equal. lia.
    + lia.
Qed.

Lemma stored_cons members k order values :
  stored members (k :: order) values
  = stored members order
      (match members !! k with
       | Some p => <[k := Some (chapterOf p)]> values
       | None => values
       end).
Proof. reflexivity. Qed.

Lemma settleAll_value members order : forall values w,
  exists w',
    settleAll parseContent members order values w
    = (Ok (stored members order values), w') /\
    calls w' = calls w.
Proof.
  induction order as [|j order IH]; intros values w.
  - exists w. split; reflexivity.
  - rewrite stored_cons. cbn [settleAll].
    destruct (members !! j) as [p|]; [|apply IH].
    destruct (finishChapter_value p w) as (w1 & Hf & Hc1).
    destruct (IH (<[j := Some (chapterOf p)]> values) w1) as (w' & Hs & Hc).
    exists w'. split; [|congruence].
    erewrite bind_ok by exact Hf. exact Hs.
Qed.

(** A slot holds its own member's chapter once that member has
    settled, and is untouched before. *)
Lemma stored_lookup members order : forall values j,
  length values = length members ->
  stored members order values !! j
  = if decide (j ∈ order) then Some ∘ chapterOf <$> members !! j
    else values !! j.
Proof.
  induction order as [|k order IH]; intros values j Hlen.
  - cbn. destruct (decide (j ∈ [])) as [H|_]; [|reflexivity].
    inversion H.
  - rewrite stored_cons.
    set (values' := match members !! k with
                    | Some p => <[k := Some (chapterOf p)]> values
                    | None => values
                    end).
    assert (Hlen' : length values' = length members).
    { subst values'. destruct (members !! k); [|assumption].
      rewrite length_insert. assumption. }
    rewrite (IH values' j Hlen').
    destruct (decide (j ∈ order)) as [Hin|Hnin].
    { rewrite decide_True by (right; assumption). reflexivity. }
    destruct (decide (j = k)) as [->|Hne].
    + rewrite decide_True by left. subst values'.
      destruct (members !! k) as [p|] eqn:Hk.
      * rewrite list_lookup_insert_eq; [reflexivity|].
        rewrite Hlen. eapply lookup_lt_Some; eauto.
      * cbn. apply lookup_ge_None. rewrite Hlen.
        apply lookup_ge_None. assumption.
    + rewrite decide_False.
      2:{ intros H. apply elem_of_cons in H as [?|?]; contradiction. }
      subst values'. destruct (members !! k); [|reflexivity].
      apply list_lookup_insert_ne. congruence.
Qed.

(** When every member settles, in whatever order, the array is the
    members' chapters in the order of the members. *)
Lemma stored_all members order :
  order ≡ₚ seq 0 (length members) ->
  stored members order (replicate (length members) None)
  = Some <$> (chapterOf <$> members).
Proof.
  intros Hperm. apply list_eq. intros j.
  rewrite stored_lookup by apply length_replicate.
  rewrite <- list_fmap_compose, list_lookup_fmap.
  destruct (decide (j ∈ order)) as [Hin|Hnin]; [reflexivity|].
  assert (Hge : (length members <= j)%nat).
  { destruct (Nat.le_gt_cases (length members) j) as [?|Hlt]; [assumption|].
    exfalso. apply Hnin. rewrite Hperm. apply elem_of_seq. lia. }
  rewrite (proj2 (lookup_ge_None members j) Hge).
  apply lookup_ge_None. rewrite length_replicate. assumption.
Qed.

Lemma promiseAll_value members order w :
  order ≡ₚ seq 0 (length members) ->
  exists w',
    promiseAll parseContent members order w
    = (Ok (chapterOf <$> members), w') /\
    calls w' = calls w.
Proof.
  intros Hperm. unfold promiseAll.
  destruct (settleAll_value members order
              (replicate (length members) None) w) as (w' & Hs & Hc).
  exists w'. split; [|exact Hc].
  erewrite bind_ok by exact Hs. rewrite (stored_all _ _ Hperm).
  rewrite mapM_fmap_Some by reflexivity. reflexivity.
Qed.

Lemma written_app c l1 l2 :
  written c (l1 ++ l2) = written c l1 ++ written (c + length l1) l2.
Proof.
  unfold written, inFlight. rewrite imap_app, fmap_app. f_equal. f_equal.
  apply imap_ext. intros j x _. cbn. do 2 f_equal. lia.
Qed.

Lemma written_lookup c l i t :
  l !! i = Some t ->
  written c l !! i
  = Some (chapterOf (t, api (c + i)%nat (chapterRequest t outline answers))).
Proof.
  intros H. unfold written, inFlight.
  rewrite list_lookup_fmap, list_lookup_imap, H. reflexivity.
Qed.

Lemma written_length c l : length (written c l) = length l.
Proof. unfold written, inFlight. rewrite length_fmap. apply length_imap. Qed.

Lemma written_titles c l : title <$> written c l = l.
Proof.
  unfold written, inFlight. rewrite <- list_fmap_compose, fmap_imap.
  cbn. apply list_eq. intros i. rewrite list_lookup_imap.
  destruct (l !! i); reflexivity.
Qed.

Lemma batchLoop_value :
  everySettles ->
  forall fuel k chapters w,
    (length titles - k * batchSize < fuel)%nat ->
    exists w',
      batchLoop api parseContent answers settleOrder outline fuel
        (k * batchSize) chapters w
      = (Ok (chapters ++ written (calls w) (drop (k * batchSize) titles)),
         w') /\
      calls w' = (calls w + length (drop (k * batchSize) titles))%nat.
Proof.
  intros Hsettle. induction fuel as [|fuel IH]; intros k chapters w Hfuel;
    [lia|].
  cbn [batchLoop]. set (i := (k * batchSize)%nat) in *.
  destruct (Nat.ltb_spec i (length titles)) as [Hlt|Hge].
  2:{ rewrite drop_ge by assumption. exists w.
      unfold written. cbn. rewrite app_nil_r, Nat.add_0_r.
      split; reflexivity. }
  set (batch := take batchSize (drop i titles)).
  unfold onProgress. erewrite bind_ok by reflexivity.
  erewrite bind_ok by apply startBatch_value. cbv beta. cbn [calls trace].
  match goal with
  | |- context [bind (promiseAll _ ?ms ?ord) _ ?w1] =>
      destruct (promiseAll_value ms ord w1) as (w2 & Hp & Hc2)
  end.
  { unfold inFlight. rewrite length_imap. apply Hsettle. assumption. }
  erewrite bind_ok by exact Hp.
  destruct (IH (S k) (chapters ++ written (calls w) batch) w2)
    as (w' & Hloop & Hc').
  { change (S k * batchSize)%nat with (batchSize + i)%nat.
    unfold batchSize. lia. }
  assert (Hsplit : drop i titles = batch ++ drop (batchSize + i) titles).
  { subst batch.
    replace (batchSize + i)%nat with (i + batchSize)%nat by lia.
    rewrite <- drop_drop. symmetry. apply take_drop. }
  change (S k * batchSize)%nat with (batchSize + i)%nat in Hloop, Hc'.
  replace (i + batchSize)%nat with (batchSize + i)%nat by lia.
  cbn [calls] in Hc2. unfold written at 1 in Hloop.
  exists w'. split.
  - rewrite Hloop, <- app_assoc, Hc2. f_equal.
    rewrite Hsplit, written_app. reflexivity.
  - rewrite Hc', Hc2, Hsplit, length_app. lia.
Qed.

Lemma generateChapters_value w :
  everySettles ->
  exists w',
    generateChapters api parseContent answers settleOrder outline w
    = (Ok (written (calls w) titles), w') /\
    calls w' = (calls w + length titles)%nat.
Proof.
  intros Hsettle. unfold generateChapters.
  destruct (batchLoop_value Hsettle (S (length titles)) 0 [] w)
    as (w' & Hrun & Hc); [cbn; lia|].
  exists w'. split; assumption.
Qed.

End Facts.

Lemma generateMaterial_collects api parseOutline parseContent answers
    settleOrder w outline w1 chapters w2 :
  generateOutline api parseOutline answers (started w) = (Ok (Outline outline), w1) ->
  generateChapters api parseContent answers settleOrder outline w1
  = (Ok chapters, w2) ->
  generateMaterial api parseOutline parseContent answers settleOrder w
  = (Ok (assemble outline chapters),
     logged [Progress "Finalizando formatação..."] w2).
Proof.
  intros Ho Hc. unfold generateMaterial, onProgress.
  erewrite bind_ok by reflexivity. erewrite bind_ok by exact Ho.
  erewrite bind_ok by reflexivity.
  erewrite bind_ok by exact Hc. reflexivity.
Qed.

(** The result of a run in which every request settles: it does not
    depend on the order in which they do. *)
Lemma generateMaterial_value api parseOutline parseContent answers
    settleOrder w outline w1 :
  generateOutline api parseOutline answers (started w) = (Ok (Outline outline), w1) ->
  everySettles settleOrder outline ->
  exists w',
    generateMaterial api parseOutline parseContent answers settleOrder w
    = (Ok (assemble outline
             (written api parseContent answers outline (calls w1)
                (OutlineData.chapterTitles outline))), w') /\
    calls w' = (calls w1 + length (OutlineData.chapterTitles outline))%nat.
Proof.
  intros Ho Hsettle.
  destruct (generateChapters_value api parseContent answers settleOrder
              outline w1 Hsettle) as (w2 & Hrun & Hc).
  eexists. split.
  - eapply generateMaterial_collects; [exact Ho|exact Hrun].
  - exact Hc.
Qed.

End BatchedFacts.

(** ** The claims about the pipeline *)

(** The two settle orders of the demonstration are complete. *)
Module DemoFacts.
Import Demo.

Lemma cFirst_settles :
  BatchedSpec.everySettles cFirst outline.
Proof.
  intros [|[|k]] Hk.
  - cbn. apply Permutation_cons_app with (l1 := [0; 1]%nat) (l2 := []).
    reflexivity.
  - reflexivity.
  - cbn in Hk. lia.
Qed.

Lemma inOrder_settles :
  BatchedSpec.everySettles inOrder outline.
Proof.
  intros [|[|k]] Hk; [reflexivity|reflexivity|cbn in Hk; lia].
Qed.

End DemoFacts.

(** C1.  The claim holds of every slot but for its body: when the text
    of a chapter's reply parses to an object without [content], the body
    written at lines 205 and 1007 is [undefined], neither text nor one of
    the sentinel strings.  In both revisions the run then returns its
    [|T|] chapters, and the chapter at that index has the title [T[i]]
    and no body. *)
Theorem bare_reply_leaves_body_undefined (api : Api)
    (parseOutline : string -> Settled Reply)
    (parseContent : string -> Settled (option string)) (answers : Answers.t)
    (settleOrder : nat -> list nat) (w : World) :
  (forall outline w1 i t textResult w2,
     let titles := OutlineData.chapterTitles outline in
     let total := length titles in
     Throttled.generateOutline api parseOutline answers
       (ThrottledSpec.started w) = (Ok (Outline outline), w1) ->
     titles !! i = Some t ->
     Throttled.generateText api answers outline i t
       (ThrottledSpec.announced total i t
          (ThrottledSpec.reached api parseContent answers outline total
             titles i w1))
     = (Ok textResult, w2) ->
     ThrottledSpec.bodyOf parseContent textResult = Resolved None ->
     exists content w' img,
       Throttled.generateMaterial api parseOutline parseContent answers w
       = (Ok content, w') /\
       length (ContentData.chapters content) = length titles /\
       ContentData.chapters content !! i
       = Some {| Throttled.title := t; Throttled.content := None;
                 Throttled.image := img |})
  /\
  (forall outline w1 i t result,
     let titles := OutlineData.chapterTitles outline in
     Batched.generateOutline api parseOutline answers
       (BatchedSpec.started w) = (Ok (Outline outline), w1) ->
     BatchedSpec.everySettles settleOrder outline ->
     titles !! i = Some t ->
     api (calls w1 + i)%nat (chapterRequest t outline answers)
     = Resolved result ->
     BatchedSpec.bodyOf parseContent result = Resolved None ->
     exists content w',
       Batched.generateMaterial api parseOutline parseContent answers
         settleOrder w = (Ok content, w') /\
       length (ContentData.chapters content) = length titles /\
       ContentData.chapters content !! i
       = Some {| Batched.title := t; Batched.content := None |}).
Proof.
  split.
  - intros outline w1 i t textResult w2 titles total Ho Hi Ht Hb.
    destruct (ThrottledFacts.genImage_total api answers i t w2)
      as (img & w3 & Himg & _).
    destruct (ThrottledFacts.material_nth api parseOutline parseContent answers
                w outline w1 i t Ho Hi) as (before & _ & Hnth).
    destruct (ThrottledFacts.step_written api parseContent answers outline
                total i t before _ textResult w2 img w3 _ Ht Himg Hb)
      as (w4 & Hstep & _).
    destruct (Hnth _ _ Hstep) as (content & w' & Hrun & Hlen & Hc & _).
    exists content, w', img. split; [exact Hrun|]. split; assumption.
  - intros outline w1 i t result titles Ho Hsettle Hi Hres Hb.
    destruct (BatchedFacts.generateMaterial_value api parseOutline parseContent
                answers settleOrder w outline w1 Ho Hsettle) as (w' & Hrun & _).
    eexists _, w'. split; [exact Hrun|].
    cbn [Batched.assemble ContentData.chapters].
    split; [apply BatchedFacts.written_length|].
    rewrite (BatchedFacts.written_lookup _ _ _ _ _ _ _ t Hi).
    unfold BatchedSpec.chapterOf. cbn [fst snd]. rewrite Hres, Hb.
    reflexivity.
Qed.

Lemma bare_reply_leaves_body_undefined_witness :
  (exists content w' img,
     Throttled.generateMaterial DemoBare.api Demo.parseOutline
       Demo.parseContent Demo.answers Demo.start = (Ok content, w') /\
     length (ContentData.chapters content) = 4%nat /\
     ContentData.chapters content !! 3%nat
     = Some {| Throttled.title := "D"; Throttled.content := None;
               Throttled.image := img |})
  /\
  (exists content w',
     Batched.generateMaterial DemoBare.api Demo.parseOutline
       Demo.parseContent Demo.answers Demo.cFirst Demo.start
     = (Ok content, w') /\
     length (ContentData.chapters content) = 4%nat /\
     ContentData.chapters content !! 3%nat
     = Some {| Batched.title := "D"; Batched.content := None |}).
Proof.
  split.
  - pose (w1 := (Throttled.generateOutline DemoBare.api Demo.parseOutline
                   Demo.answers (ThrottledSpec.started Demo.start)).2).
    pose (wi := ThrottledSpec.announced 4 3 "D"
                  (ThrottledSpec.reached DemoBare.api Demo.parseContent
                     Demo.answers Demo.outline 4
                     (OutlineData.chapterTitles Demo.outline) 3 w1)).
    apply (proj1 (bare_reply_leaves_body_undefined DemoBare.api
                    Demo.parseOutline Demo.parseContent Demo.answers
                    Demo.cFirst Demo.start)
             Demo.outline w1 3%nat "D" (Response.mk (Some "{}") None)
             (Throttled.generateText DemoBare.api Demo.answers Demo.outline
                3 "D" wi).2).
    + vm_compute. reflexivity.
    + reflexivity.
    + vm_compute. reflexivity.
    + reflexivity.
  - apply (proj2 (bare_reply_leaves_body_undefined DemoBare.api
                    Demo.parseOutline Demo.parseContent Demo.answers
                    Demo.cFirst Demo.start)
             Demo.outline
             (Batched.generateOutline DemoBare.api Demo.parseOutline
                Demo.answers (BatchedSpec.started Demo.start)).2
             3%nat "D" (Response.mk (Some "{}") None)).
    + vm_compute. reflexivity.
    + exact DemoFacts.cFirst_settles.
    + reflexivity.
    + reflexivity.
    + reflexivity.
Defined.

(** C6.  In the second revision the chapters come out in the order of the
    titles, whatever the order in which the requests of a batch settle: two
    runs that differ only in that order return the same content, whose
    chapter titles are the outline's titles in order, the chapter at each
    index being the one for the request sent for that index. *)
Theorem batched_order_preserved (api : Api)
    (parseOutline : string -> Settled Reply)
    (parseContent : string -> Settled (option string)) (answers : Answers.t)
    (order1 order2 : nat -> list nat) (w : World) outline w1 :
  let titles := OutlineData.chapterTitles outline in
  Batched.generateOutline api parseOutline answers (BatchedSpec.started w)
  = (Ok (Outline outline), w1) ->
  BatchedSpec.everySettles order1 outline ->
  BatchedSpec.everySettles order2 outline ->
  exists content w1' w2',
    Batched.generateMaterial api parseOutline parseContent answers order1 w
    = (Ok content, w1') /\
    Batched.generateMaterial api parseOutline parseContent answers order2 w
    = (Ok content, w2') /\
    Batched.title <$> ContentData.chapters content = titles /\
    forall i t, titles !! i = Some t ->
      ContentData.chapters content !! i
      = Some (BatchedSpec.chapterOf parseContent
                (t, api (calls w1 + i)%nat (chapterRequest t outline answers))).
Proof.
  intros titles Ho H1 H2.
  destruct (BatchedFacts.generateMaterial_value api parseOutline parseContent
              answers order1 w outline w1 Ho H1) as (w1' & Hrun1 & _).
  destruct (BatchedFacts.generateMaterial_value api parseOutline parseContent
              answers order2 w outline w1 Ho H2) as (w2' & Hrun2 & _).
  eexists _, w1', w2'. split; [exact Hrun1|]. split; [exact Hrun2|].
  cbn [Batched.assemble ContentData.chapters]. split.
  - apply BatchedFacts.written_titles.
  - intros i t Hi. apply BatchedFacts.written_lookup. exact Hi.
Qed.

Lemma batched_order_preserved_witness :
  exists content w1' w2',
    Batched.generateMaterial Demo.api Demo.parseOutline Demo.parseContent
      Demo.answers Demo.cFirst Demo.start = (Ok content, w1') /\
    Batched.generateMaterial Demo.api Demo.parseOutline Demo.parseContent
      Demo.answers Demo.inOrder Demo.start = (Ok content, w2') /\
    Batched.title <$> ContentData.chapters content = ["A"; "B"; "C"; "D"] /\
    forall i t, OutlineData.chapterTitles Demo.outline !! i = Some t ->
      ContentData.chapters content !! i
      = Some (BatchedSpec.chapterOf Demo.parseContent
                (t, Demo.api (1 + i)%nat
                      (chapterRequest t Demo.outline Demo.answers))).
Proof.
  apply (batched_order_preserved Demo.api Demo.parseOutline Demo.parseContent
           Demo.answers Demo.cFirst Demo.inOrder Demo.start Demo.outline
           (Batched.generateOutline Demo.api Demo.parseOutline Demo.answers
              (BatchedSpec.started Demo.start)).2).
  - vm_compute. reflexivity.
  - exact DemoFacts.cFirst_settles.
  - exact DemoFacts.inOrder_settles.
Defined.

(** C7.  In the first revision the image step never throws.  If, for the
    chapter at index [i], the text has been generated and the image request
    fails or returns no inline image, the chapter is written with that
    text and without illustration, and the run returns all its chapters. *)
Theorem image_failure_swallowed (api : Api)
    (parseOutline : string -> Settled Reply)
    (parseContent : string -> Settled (option string)) (answers : Answers.t)
    (w : World) outline w1 i t textResult w2 body :
  let titles := OutlineData.chapterTitles outline in
  let total := length titles in
  Throttled.generateOutline api parseOutline answers
    (ThrottledSpec.started w) = (Ok (Outline outline), w1) ->
  titles !! i = Some t ->
  Throttled.generateText api answers outline i t
    (ThrottledSpec.announced total i t
       (ThrottledSpec.reached api parseContent answers outline total
          titles i w1))
  = (Ok textResult, w2) ->
  ThrottledSpec.bodyOf parseContent textResult = Resolved body ->
  noIllustration (api (calls w2) (imageRequest t answers)) ->
  (exists w3, Throttled.generateImage api answers i t w2 = (Ok None, w3)) /\
  exists content w',
    Throttled.generateMaterial api parseOutline parseContent answers w
    = (Ok content, w') /\
    length (ContentData.chapters content) = length titles /\
    ContentData.chapters content !! i
    = Some {| Throttled.title := t; Throttled.content := body;
              Throttled.image := None |}.
Proof.
  intros titles total Ho Hi Ht Hb Hno.
  assert (Himg : exists w3,
             Throttled.generateImage api answers i t w2 = (Ok None, w3)).
  { destruct (api (calls w2) (imageRequest t answers)) as [r|e] eqn:E.
    - cbn in Hno. rewrite <- Hno. eexists.
      apply ThrottledFacts.genImage_resolved. exact E.
    - eexists. apply ThrottledFacts.genImage_rejected. exact E. }
  split; [exact Himg|]. destruct Himg as (w3 & Himg).
  destruct (ThrottledFacts.material_nth api parseOutline parseContent answers
              w outline w1 i t Ho Hi) as (before & _ & Hnth).
  destruct (ThrottledFacts.step_written api parseContent answers outline total
              i t before _ textResult w2 None w3 body Ht Himg Hb)
    as (w4 & Hstep & _).
  destruct (Hnth _ _ Hstep) as (content & w' & Hrun & Hlen & Hc & _).
  exists content, w'. split; [exact Hrun|]. split; assumption.
Qed.

Lemma image_failure_swallowed_witness :
  (exists w3,
     Throttled.generateImage Demo.api Demo.answers 0 "A" (mkWorld 2 [
       Progress "Analisando nicho e criando estrutura...";
       Progress (Throttled.chapterProgress 4 0 "A")]) = (Ok None, w3)) /\
  exists content w',
    Throttled.generateMaterial Demo.api Demo.parseOutline Demo.parseContent
      Demo.answers Demo.start = (Ok content, w') /\
    length (ContentData.chapters content) = 4%nat /\
    ContentData.chapters content !! 0%nat
    = Some {| Throttled.title := "A";
              Throttled.content := Some "Texto de A";
              Throttled.image := None |}.
Proof.
  apply (image_failure_swallowed Demo.api Demo.parseOutline Demo.parseContent
           Demo.answers Demo.start Demo.outline
           (mkWorld 1 [Progress "Analisando nicho e criando estrutura..."])
           0%nat "A" (Response.mk (Some "Texto de A") None)
           (mkWorld 2 [Progress "Analisando nicho e criando estrutura...";
                       Progress (Throttled.chapterProgress 4 0 "A")])
           (Some "Texto de A")).
  - vm_compute. reflexivity.
  - reflexivity.
  - vm_compute. reflexivity.
  - reflexivity.
  - exact I.
Defined.

(** C10.  A text response that arrives but carries no text (absent or
    empty) is not a failure of the chapter.  In the first revision the
    wrapper returns it from the attempt that produced it, without a further
    attempt, and the chapter is written with the body
    [Conteúdo indisponível.]; in the second revision, where each chapter is
    requested exactly once, the body is [Conteúdo não gerado.].  Neither is
    the body used when generation fails, and the run returns all its
    chapters. *)
Theorem empty_text_not_a_failure (api : Api)
    (parseOutline : string -> Settled Reply)
    (parseContent : string -> Settled (option string)) (answers : Answers.t)
    (settleOrder : nat -> list nat) (w : World) :
  (forall outline w1 i t textResult w2,
     let titles := OutlineData.chapterTitles outline in
     let total := length titles in
     Throttled.generateOutline api parseOutline answers
       (ThrottledSpec.started w) = (Ok (Outline outline), w1) ->
     titles !! i = Some t ->
     Throttled.generateText api answers outline i t
       (ThrottledSpec.announced total i t
          (ThrottledSpec.reached api parseContent answers outline total
             titles i w1))
     = (Ok textResult, w2) ->
     Js.truthy_opt (Response.text textResult) = false ->
     (exists n, calls w2 = S n /\
                api n (chapterRequest t outline answers) = Resolved textResult) /\
     Throttled.unavailable <> Throttled.chapterError /\
     exists content w' img,
       Throttled.generateMaterial api parseOutline parseContent answers w
       = (Ok content, w') /\
       length (ContentData.chapters content) = length titles /\
       ContentData.chapters content !! i
       = Some {| Throttled.title := t;
                 Throttled.content := Some Throttled.unavailable;
                 Throttled.image := img |})
  /\
  (forall outline w1 i t result,
     let titles := OutlineData.chapterTitles outline in
     Batched.generateOutline api parseOutline answers
       (BatchedSpec.started w) = (Ok (Outline outline), w1) ->
     BatchedSpec.everySettles settleOrder outline ->
     titles !! i = Some t ->
     api (calls w1 + i)%nat (chapterRequest t outline answers)
     = Resolved result ->
     Js.truthy_opt (Response.text result) = false ->
     Batched.notGenerated <> Batched.chapterError /\
     exists content w',
       Batched.generateMaterial api parseOutline parseContent answers
         settleOrder w = (Ok content, w') /\
       calls w' = (calls w1 + length titles)%nat /\
       length (ContentData.chapters content) = length titles /\
       ContentData.chapters content !! i
       = Some {| Batched.title := t;
                 Batched.content := Some Batched.notGenerated |}).
Proof.
  split.
  - intros outline w1 i t textResult w2 titles total Ho Hi Ht Hempty.
    split.
    { destruct (callWithRetry_ok_inv _ _ _ _ _ _ _ Ht) as (n & Hn & Hc).
      exists n. split; assumption. }
    split; [discriminate|].
    assert (Hb : ThrottledSpec.bodyOf parseContent textResult
                 = Resolved (Some Throttled.unavailable)).
    { unfold ThrottledSpec.bodyOf.
      destruct (Response.text textResult) as [s|]; [|reflexivity].
      cbn in Hempty. rewrite Hempty. reflexivity. }
    destruct (ThrottledFacts.genImage_total api answers i t w2)
      as (img & w3 & Himg & _).
    destruct (ThrottledFacts.material_nth api parseOutline parseContent answers
                w outline w1 i t Ho Hi) as (before & _ & Hnth).
    destruct (ThrottledFacts.step_written api parseContent answers outline
                total i t before _ textResult w2 img w3 _ Ht Himg Hb)
      as (w4 & Hstep & _).
    destruct (Hnth _ _ Hstep) as (content & w' & Hrun & Hlen & Hc & _).
    exists content, w', img. split; [exact Hrun|]. split; assumption.
  - intros outline w1 i t result titles Ho Hsettle Hi Hres Hempty.
    split; [discriminate|].
    destruct (BatchedFacts.generateMaterial_value api parseOutline parseContent
                answers settleOrder w outline w1 Ho Hsettle) as (w' & Hrun & Hc).
    eexists _, w'. split; [exact Hrun|]. split.
    { exact Hc. }
    cbn [Batched.assemble ContentData.chapters].
    split; [apply BatchedFacts.written_length|].
    rewrite (BatchedFacts.written_lookup _ _ _ _ _ _ _ t Hi).
    unfold BatchedSpec.chapterOf, BatchedSpec.bodyOf. cbn [fst snd].
    rewrite Hres. destruct (Response.text result) as [s|]; [|reflexivity].
    cbn in Hempty. rewrite Hempty. reflexivity.
Qed.

Lemma empty_text_not_a_failure_witness :
  ((exists n, 5%nat = S n /\
              Demo.api n (chapterRequest "C" Demo.outline Demo.answers)
              = Resolved (Response.mk None None)) /\
   Throttled.unavailable <> Throttled.chapterError /\
   exists content w' img,
     Throttled.generateMaterial Demo.api Demo.parseOutline Demo.parseContent
       Demo.answers Demo.start = (Ok content, w') /\
     length (ContentData.chapters content) = 4%nat /\
     ContentData.chapters content !! 2%nat
     = Some {| Throttled.title := "C";
               Throttled.content := Some Throttled.unavailable;
               Throttled.image := img |})
  /\
  (Batched.notGenerated <> Batched.chapterError /\
   exists content w',
     Batched.generateMaterial Demo.api Demo.parseOutline Demo.parseContent
       Demo.answers Demo.cFirst Demo.start = (Ok content, w') /\
     calls w' = 5%nat /\
     length (ContentData.chapters content) = 4%nat /\
     ContentData.chapters content !! 2%nat
     = Some {| Batched.title := "C";
               Batched.content := Some Batched.notGenerated |}).
Proof.
  split.
  - pose (w1 := (Throttled.generateOutline Demo.api Demo.parseOutline
                   Demo.answers (ThrottledSpec.started Demo.start)).2).
    pose (wi := ThrottledSpec.announced 4 2 "C"
                  (ThrottledSpec.reached Demo.api Demo.parseContent
                     Demo.answers Demo.outline 4
                     (OutlineData.chapterTitles Demo.outline) 2 w1)).
    apply (proj1 (empty_text_not_a_failure Demo.api Demo.parseOutline
                    Demo.parseContent Demo.answers Demo.cFirst Demo.start)
             Demo.outline w1 2%nat "C" (Response.mk None None)
             (Throttled.generateText Demo.api Demo.answers Demo.outline 2 "C"
                wi).2).
    + vm_compute. reflexivity.
    + reflexivity.
    + vm_compute. reflexivity.
    + reflexivity.
  - apply (proj2 (empty_text_not_a_failure Demo.api Demo.parseOutline
                    Demo.parseContent Demo.answers Demo.cFirst Demo.start)
             Demo.outline
             (Batched.generateOutline Demo.api Demo.parseOutline Demo.answers
                (BatchedSpec.started Demo.start)).2
             2%nat "C" (Response.mk None None)).
    + vm_compute. reflexivity.
    + exact DemoFacts.cFirst_settles.
    + reflexivity.
    + reflexivity.
    + reflexivity.
Defined.


(** * Further properties *)

(** ** More on the retry wrapper *)

Section RetryMore.
Context {T : Type}.
Variable operationName : string.
Variable fn : Thunk T.
Variables retries baseDelay : Z.

Local Abbreviation loop := (retryLoop operationName fn retries baseDelay).

Lemma world_eta (w : World) :
  w = {| calls := calls w + 0; trace := trace w ++ [] |}.
Proof. destruct w. cbn. rewrite Nat.add_0_r, app_nil_r. reflexivity. Qed.

(** Whatever the operation does, the loop started at [i] makes [n]
    attempts, [n] at most the attempts left, and backs off after each of
    them but the last, with the delay doubling from [baseDelay * 2 ^ i]. *)
Lemma loop_shape fuel : forall (i : nat) w,
  (Z.to_nat (retries - Z.of_nat i) < fuel)%nat ->
  exists n l o,
    loop fuel (Z.of_nat i) w
    = (o, {| calls := calls w + n; trace := trace w ++ l |}) /\
    Z.of_nat n <= Z.max 0 (retries - Z.of_nat i) /\
    (Z.of_nat i < retries -> (1 <= n)%nat) /\
    sleeps l = map (fun j => baseDelay * 2 ^ Z.of_nat j) (seq i (n - 1)) /\
    progressMessages l
    = map (fun j => backoffMessage operationName (baseDelay * 2 ^ Z.of_nat j))
          (seq i (n - 1)) /\
    o <> Pending.
Proof.
  induction fuel as [|fuel IH]; intros i w Hfuel; [lia|].
  destruct (Z.lt_ge_cases (Z.of_nat i) retries) as [Hi|Hi].
  2:{ rewrite loop_exit by lia. exists 0%nat, [], (Throw (exhausted operationName)).
      split; [f_equal; apply world_eta|]. split; [lia|]. split; [lia|].
      split; [reflexivity|]. split; [reflexivity|discriminate]. }
  destruct (fn (calls w)) as [r|e] eqn:E.
  { rewrite (loop_success _ _ _ _ _ _ _ r) by assumption.
    exists 1%nat, [], (Ok r). split.
    { unfold tick. rewrite app_nil_r. do 2 f_equal. lia. }
    split; [lia|]. split; [lia|]. split; [reflexivity|].
    split; [reflexivity|discriminate]. }
  assert (Hstop : isRateLimit e = false \/ retries - 1 <= Z.of_nat i ->
            exists n l o,
              loop (S fuel) (Z.of_nat i) w
              = (o, {| calls := calls w + n; trace := trace w ++ l |}) /\
              Z.of_nat n <= Z.max 0 (retries - Z.of_nat i) /\
              (Z.of_nat i < retries -> (1 <= n)%nat) /\
              sleeps l = map (fun j => baseDelay * 2 ^ Z.of_nat j) (seq i (n - 1)) /\
              progressMessages l
              = map (fun j => backoffMessage operationName
                                (baseDelay * 2 ^ Z.of_nat j)) (seq i (n - 1)) /\
              o <> Pending).
  { intros Hno. rewrite (loop_rethrow _ _ _ _ _ _ _ e) by assumption.
    exists 1%nat, [ConsoleError ("Error in " +:+ operationName +:+ ":") (Some e)],
      (Throw e).
    split. { unfold logged, tick. cbn [calls trace]. do 2 f_equal. lia. }
    split; [lia|]. split; [lia|]. split; [reflexivity|].
    split; [reflexivity|discriminate]. }
  destruct (isRateLimit e) eqn:Hrl; [|apply Hstop; left; reflexivity].
  destruct (Z.lt_ge_cases (Z.of_nat i) (retries - 1)) as [Hl|Hl];
    [|apply Hstop; right; lia].
  clear Hstop. rewrite (loop_backoff _ _ _ _ _ _ _ e) by assumption.
  replace (Z.of_nat i + 1) with (Z.of_nat (S i)) by lia.
  destruct (IH (S i) (logged (backoffEvents operationName
                                (baseDelay * 2 ^ Z.of_nat i)) (tick w)))
    as (n & l & o & Hrun & Hn & Hpos & Hs & Hp & Ho); [lia|].
  exists (S n), (backoffEvents operationName (baseDelay * 2 ^ Z.of_nat i) ++ l), o.
  assert (Hn1 : (1 <= n)%nat) by (apply Hpos; lia).
  split.
  { rewrite Hrun. unfold logged, tick. cbn [calls trace].
    rewrite <- app_assoc. do 2 f_equal. lia. }
  split; [lia|]. split; [lia|].
  replace (S n - 1)%nat with (S (n - 1)) by lia. cbn [seq map].
  split.
  - unfold sleeps in *. rewrite omap_app, Hs. reflexivity.
  - split; [|exact Ho].
    unfold progressMessages in *. rewrite omap_app, Hp. reflexivity.
Qed.

(** With at least one attempt allowed, an error the loop throws is the
    error of its last attempt. *)
Lemma loop_throw_inv fuel : forall i w e w',
  i < retries ->
  loop fuel i w = (Throw e, w') ->
  exists n, fn n = Rejected e /\ calls w' = S n.
Proof.
  induction fuel as [|fuel IH]; intros i w e w' Hi H; [discriminate|].
  destruct (fn (calls w)) as [r|e0] eqn:E.
  { rewrite (loop_success _ _ _ _ _ _ _ r) in H by assumption. discriminate. }
  destruct (isRateLimit e0) eqn:Hrl, (Z.lt_ge_cases i (retries - 1)) as [Hl|Hl].
  - rewrite (loop_backoff _ _ _ _ _ _ _ e0) in H by assumption.
    apply IH in H; [exact H|lia].
  - rewrite (loop_rethrow _ _ _ _ _ _ _ e0) in H by auto with zarith.
    injection H as -> <-. eauto.
  - rewrite (loop_rethrow _ _ _ _ _ _ _ e0) in H by auto.
    injection H as -> <-. eauto.
  - rewrite (loop_rethrow _ _ _ _ _ _ _ e0) in H by auto.
    injection H as -> <-. eauto.
Qed.

(** [k] rate-limited failures, then an error of another kind: [k]
    backoffs, then the error. *)
Lemma loop_backoffs_then_error k : forall fuel (i : nat) w e,
  (k < fuel)%nat -> Z.of_nat (i + k) < retries ->
  (forall j, (j < k)%nat ->
     exists e', fn (calls w + j)%nat = Rejected e' /\ isRateLimit e' = true) ->
  fn (calls w + k)%nat = Rejected e -> isRateLimit e = false ->
  loop fuel (Z.of_nat i) w
  = (Throw e,
     {| calls := calls w + k + 1;
        trace := trace w ++
          flat_map (fun j => backoffEvents operationName
                               (baseDelay * 2 ^ Z.of_nat j)) (seq i k) ++
          [ConsoleError ("Error in " +:+ operationName +:+ ":") (Some e)] |}).
Proof.
  induction k as [|k IH]; intros fuel i w e Hfuel Hk Hfail He Hno.
  - destruct fuel as [|fuel]; [lia|].
    rewrite Nat.add_0_r in He.
    rewrite (loop_rethrow _ _ _ _ _ _ _ e) by (lia || auto).
    unfold logged, tick. cbn [calls trace seq flat_map app].
    do 2 f_equal. lia.
  - destruct fuel as [|fuel]; [lia|].
    destruct (Hfail 0%nat) as (e0 & He0 & Hrl); [lia|].
    rewrite Nat.add_0_r in He0.
    rewrite (loop_backoff _ _ _ _ _ _ _ e0) by (assumption || lia).
    replace (Z.of_nat i + 1) with (Z.of_nat (S i)) by lia.
    rewrite (IH fuel (S i) _ e).
    + unfold logged, tick. cbn [calls trace seq flat_map].
      rewrite <- !app_assoc. do 2 f_equal. lia.
    + lia.
    + lia.
    + intros j Hj. destruct (Hfail (S j)) as (e' & He' & Hrl'); [lia|].
      exists e'. split; [|assumption].
      cbn [logged tick calls]. rewrite <- He'. f_equal. lia.
    + cbn [logged tick calls]. rewrite <- He. f_equal. lia.
    + assumption.
Qed.

End RetryMore.

(** X1.  A call of [callWithRetry] that has come to its end has made [n]
    attempts, [n <= max 0 retries] (and [n >= 1] when [retries >= 1]); it
    has waited exactly [n - 1] times, for [baseDelay * 2 ^ j] at
    [j = 0 .. n-2], each wait announced by one progress message, so that
    it has not waited more than [baseDelay * (2 ^ (n-1) - 1)] in all. *)
Theorem callWithRetry_bounded {T} (operationName : string) (fn : Thunk T)
    (retries baseDelay : Z) (w : World) (o : Outcome T) (w' : World) :
  callWithRetry operationName fn retries baseDelay w = (o, w') ->
  exists n l,
    w' = {| calls := calls w + n; trace := trace w ++ l |} /\
    Z.of_nat n <= Z.max 0 retries /\
    (0 < retries -> (1 <= n)%nat) /\
    sleeps l = map (fun j => baseDelay * 2 ^ Z.of_nat j) (seq 0 (n - 1)) /\
    progressMessages l
    = map (fun j => backoffMessage operationName (baseDelay * 2 ^ Z.of_nat j))
          (seq 0 (n - 1)) /\
    sumZ (sleeps l) = baseDelay * (2 ^ Z.of_nat (n - 1) - 1).
Proof.
  intros Hend.
  destruct (loop_shape operationName fn retries baseDelay
              (S (Z.to_nat retries)) 0 w)
    as (n & l & o' & Hrun & Hn & Hpos & Hs & Hp & _); [cbn; lia|].
  unfold callWithRetry in Hend. change 0 with (Z.of_nat 0) in Hend.
  rewrite Hrun in Hend. injection Hend as _ <-.
  exists n, l. split; [reflexivity|].
  split; [cbn in Hn; lia|]. split; [intros H; apply Hpos; cbn; lia|].
  split; [exact Hs|]. split; [exact Hp|].
  rewrite Hs. apply sumZ_doubling.
Qed.

Lemma callWithRetry_bounded_witness :
  exists n l,
    (callWithRetry "Texto Cap 1" twiceLimited 3 4000 (mkWorld 0 [])).2
    = {| calls := 0 + n; trace := [] ++ l |} /\
    Z.of_nat n <= Z.max 0 3 /\
    (0 < 3 -> (1 <= n)%nat) /\
    sleeps l = map (fun j => 4000 * 2 ^ Z.of_nat j) (seq 0 (n - 1)) /\
    progressMessages l
    = map (fun j => backoffMessage "Texto Cap 1" (4000 * 2 ^ Z.of_nat j))
          (seq 0 (n - 1)) /\
    sumZ (sleeps l) = 4000 * (2 ^ Z.of_nat (n - 1) - 1).
Proof.
  apply (callWithRetry_bounded "Texto Cap 1" twiceLimited 3 4000
           (mkWorld 0 []) (Ok 7)
           (callWithRetry "Texto Cap 1" twiceLimited 3 4000 (mkWorld 0 [])).2).
  vm_compute. reflexivity.
Defined.

(** X2.  With at least one attempt allowed the wrapper adds nothing of its
    own to the outcome: what it returns is the value its last attempt
    resolved to, and what it throws is the error its last attempt was
    rejected with (never the error of line 90). *)
Theorem callWithRetry_transparent {T} (operationName : string) (fn : Thunk T)
    (retries baseDelay : Z) (w : World) (o : Outcome T) (w' : World) :
  0 < retries ->
  callWithRetry operationName fn retries baseDelay w = (o, w') ->
  match o with
  | Ok r => exists n, fn n = Resolved r /\ calls w' = S n
  | Throw e => exists n, fn n = Rejected e /\ calls w' = S n
  | Pending => True
  end.
Proof.
  intros Hr Hrun. destruct o as [r|e|].
  - eapply loop_ok_inv. exact Hrun.
  - eapply loop_throw_inv; [|exact Hrun]. exact Hr.
  - exact I.
Qed.

Lemma callWithRetry_transparent_witness :
  exists n, limitedThenRefused n = Rejected unauthorized /\ 2%nat = S n.
Proof.
  apply (callWithRetry_transparent "Texto Cap 1" limitedThenRefused 3 4000
           (mkWorld 0 []) (Throw unauthorized)
           (callWithRetry "Texto Cap 1" limitedThenRefused 3 4000
              (mkWorld 0 [])).2).
  - lia.
  - vm_compute. reflexivity.
Defined.

(** X4.  If the operation fails with a rate-limit error on each of its
    first [k] attempts, [k < retries], and then with an error that is not
    one, the wrapper backs off [k] times and then propagates that error at
    once: [k + 1] attempts, no wait after the last. *)
Theorem callWithRetry_backoff_then_error {T} (operationName : string)
    (fn : Thunk T) (retries baseDelay : Z) (k : nat) (e : JsError) (w : World) :
  Z.of_nat k < retries ->
  (forall j, (j < k)%nat ->
     exists e', fn (calls w + j)%nat = Rejected e' /\ isRateLimit e' = true) ->
  fn (calls w + k)%nat = Rejected e ->
  isRateLimit e = false ->
  exists w',
    callWithRetry operationName fn retries baseDelay w = (Throw e, w') /\
    calls w' = (calls w + k + 1)%nat /\
    sleeps (emitted w w')
    = map (fun j => baseDelay * 2 ^ Z.of_nat j) (seq 0 k) /\
    last (emitted w w')
    = Some (ConsoleError ("Error in " +:+ operationName +:+ ":") (Some e)).
Proof.
  intros Hk Hfail He Hno. eexists. split.
  { unfold callWithRetry.
    apply (loop_backoffs_then_error operationName fn retries baseDelay k _
             0%nat w e); [lia|lia|assumption..]. }
  cbn [calls]. split; [reflexivity|]. rewrite emitted_logged. split.
  - unfold sleeps. rewrite omap_app. cbn [omap]. rewrite app_nil_r.
    apply (sleeps_flat_map _ (fun j => baseDelay * 2 ^ Z.of_nat j)).
    reflexivity.
  - apply last_snoc.
Qed.

Lemma callWithRetry_backoff_then_error_witness :
  exists w',
    callWithRetry "Texto Cap 1" limitedThenRefused 3 4000 (mkWorld 0 [])
    = (Throw unauthorized, w') /\
    calls w' = 2%nat /\
    sleeps (emitted (mkWorld 0 []) w') = [4000] /\
    last (emitted (mkWorld 0 []) w')
    = Some (ConsoleError "Error in Texto Cap 1:" (Some unauthorized)).
Proof.
  apply (callWithRetry_backoff_then_error "Texto Cap 1" limitedThenRefused
           3 4000 1 unauthorized (mkWorld 0 [])).
  - lia.
  - intros [|j] Hj; [|lia]. exists quotaError. split; reflexivity.
  - reflexivity.
  - reflexivity.
Defined.

(** *** The classification of errors *)

Lemma prefix_inv (p : string) : forall s,
  String.prefix p s = true -> exists b, s = p +:+ b.
Proof.
  induction p as [|c p IH]; intros s H; [exists s; reflexivity|].
  destruct s as [|c' s]; [discriminate|]. cbn [String.prefix] in H.
  destruct (ascii_dec c c') as [<-|]; [|discriminate].
  destruct (IH s H) as (b & ->). exists b. reflexivity.
Qed.

Lemma includes_inv (p : string) : forall s,
  Js.includes p s = true -> exists a b, s = a +:+ p +:+ b.
Proof.
  induction s as [|c s IH]; intros H.
  - cbn [Js.includes] in H. rewrite orb_false_r in H.
    destruct (prefix_inv _ _ H) as (b & ->). exists EmptyString, b. reflexivity.
  - cbn [Js.includes] in H. apply orb_true_iff in H as [H|H].
    + destruct (prefix_inv _ _ H) as (b & ->). exists EmptyString, b. reflexivity.
    + destruct (IH H) as (a & b & ->). exists (String c a), b. reflexivity.
Qed.

Lemma includes_iff (p s : string) :
  Js.includes p s = true <-> exists a b, s = a +:+ p +:+ b.
Proof.
  split; [apply includes_inv|]. intros (a & b & ->). apply includes_append.
Qed.

Lemma rateLimitPattern_iff (m : string) :
  rateLimitPattern m = true
  <-> mentions "quota" m \/ mentions "limit" m \/ mentions "429" m.
Proof.
  unfold rateLimitPattern, mentions. cbv zeta.
  rewrite !orb_true_iff, !includes_iff. tauto.
Qed.

Lemma mentions_nonempty (c : ascii) (word m : string) :
  mentions (String c word) m -> Js.truthy m = true.
Proof.
  intros (a & b & H). destruct m as [|c' m]; [|reflexivity].
  destruct a; discriminate.
Qed.

Lemma is429_iff (v : option Z) : is429 v = true <-> v = Some 429.
Proof.
  destruct v as [n|]; cbn; [|split; discriminate].
  destruct (Z.eqb_spec n 429); split; congruence.
Qed.

(** X3.  An error is classified as a rate limit, and so retried, exactly
    when its [status] or its [code] is 429 or its message holds one of
    [quota], [limit] and [429] somewhere, in whatever letter case -- be it
    a quota message or any other text with such a word in it. *)
Theorem isRateLimit_iff (e : JsError) :
  isRateLimit e = true
  <-> status e = Some 429 \/ code e = Some 429 \/
      exists m, message e = Some m /\
                (mentions "quota" m \/ mentions "limit" m \/ mentions "429" m).
Proof.
  unfold isRateLimit. rewrite !orb_true_iff, !is429_iff.
  split.
  - intros [[H|H]|H]; [left; exact H|right; left; exact H|right; right].
    destruct (message e) as [m|]; [|discriminate].
    apply andb_true_iff in H as [_ H]. exists m. split; [reflexivity|].
    apply rateLimitPattern_iff. exact H.
  - intros [H|[H|(m & Hm & H)]]; [left; left; exact H|left; right; exact H|].
    right. rewrite Hm. apply andb_true_iff. split.
    + destruct H as [H|[H|H]]; eapply mentions_nonempty; exact H.
    + apply rateLimitPattern_iff. exact H.
Qed.

(** ** More on the first revision *)

Module ThrottledMore.
Import Throttled ThrottledSpec.

(** The outline step: at most three requests, and whatever goes wrong the
    same error. *)
Lemma generateOutline_cases api parseOutline answers w :
  exists n l,
    (n <= 3)%nat /\
    ((exists reply,
        generateOutline api parseOutline answers w
        = (Ok reply, {| calls := calls w + n; trace := trace w ++ l |})) \/
     (exists e,
        generateOutline api parseOutline answers w
        = (Throw connectionError,
           {| calls := calls w + n;
              trace := trace w ++ l ++
                       [ConsoleError "Falha na estrutura:" (Some e)] |}))).
Proof.
  destruct (loop_shape "Gerar Estrutura"
              (fun n => api n (outlineRequest answers)) 3 4000 4 0 w)
    as (n & l & o & Hrun & Hn & _ & _ & _ & Ho); [cbn; lia|].
  exists n, l. split; [cbn in Hn; lia|].
  assert (Hthrow : forall e (body : M Reply),
            body w = (Throw e, {| calls := calls w + n; trace := trace w ++ l |}) ->
            tryCatch body
              (fun e =>
                 emit (ConsoleError "Falha na estrutura:" (Some e)) ;;
                 throw connectionError) w
            = (Throw connectionError,
               {| calls := calls w + n;
                  trace := trace w ++ l ++
                           [ConsoleError "Falha na estrutura:" (Some e)] |})).
  { intros e body Hb. erewrite tryCatch_throw by exact Hb.
    unfold bind, emit, throw. cbn [calls trace]. rewrite <- app_assoc.
    reflexivity. }
  unfold generateOutline, callWithRetry. change (S (Z.to_nat 3)) with 4%nat.
  change 0 with (Z.of_nat 0). destruct o as [resp|e|]; [| |congruence].
  - destruct (Response.text resp) as [t|] eqn:Ht.
    + destruct (Js.truthy t) eqn:Htr.
      * destruct (parseOutline t) as [outline|e] eqn:Hp.
        -- left. exists outline. apply tryCatch_ok.
           erewrite bind_ok by exact Hrun. rewrite Ht, Htr.
           unfold attempt. rewrite Hp. reflexivity.
        -- right. exists e. apply Hthrow.
           erewrite bind_ok by exact Hrun. rewrite Ht, Htr.
           unfold attempt. rewrite Hp. reflexivity.
      * right. eexists. apply Hthrow.
        erewrite bind_ok by exact Hrun. rewrite Ht, Htr. reflexivity.
    + right. eexists. apply Hthrow.
      erewrite bind_ok by exact Hrun. rewrite Ht. reflexivity.
  - right. exists e. apply Hthrow. apply bind_throw. exact Hrun.
Qed.

Section More.
Variable api : Api.
Variable parseContent : string -> Settled (option string).
Variable answers : Answers.t.
Variable outline : OutlineData.t.
Variable totalChapters : nat.

Local Abbreviation genImage := (generateImage api answers).
Local Abbreviation genText := (generateText api answers outline).
Local Abbreviation step :=
  (chapterStep api parseContent answers outline totalChapters).
Local Abbreviation loop :=
  (chapterLoop api parseContent answers outline totalChapters).
Local Abbreviation bodyOf := (ThrottledSpec.bodyOf parseContent).
Local Abbreviation announced := (ThrottledSpec.announced totalChapters).

(** The text of a chapter takes between one and three requests. *)
Lemma genText_shape i t w :
  exists n l o,
    genText i t w = (o, {| calls := calls w + n; trace := trace w ++ l |}) /\
    (1 <= n <= 3)%nat /\ o <> Pending.
Proof.
  destruct (loop_shape ("Texto Cap " +:+ pretty (i + 1)%nat)
              (textThunk api answers outline t) 3 4000 4 0 w)
    as (n & l & o & Hrun & Hn & Hpos & _ & _ & Ho); [cbn; lia|].
  exists n, l, o. split; [exact Hrun|]. split; [|exact Ho].
  cbn in Hn. split; [apply Hpos; cbn; lia|lia].
Qed.

(** An iteration sends between one and four requests. *)
Lemma step_calls i t chapters w :
  exists c w',
    step i t chapters w = (Ok (chapters ++ [c]), w') /\
    (calls w + 1 <= calls w' <= calls w + 4)%nat.
Proof.
  destruct (genText_shape i t (announced i t w))
    as (n & l & o & Ht & Hn & Ho).
  cbn [ThrottledSpec.announced logged calls trace] in Ht.
  destruct o as [textResult|e|]; [| |congruence].
  - destruct (ThrottledFacts.genImage_total api answers i t
                {| calls := calls w + n;
                   trace := (trace w ++
                     [Progress (chapterProgress totalChapters i t)]) ++ l |})
      as (img & w3 & Hi & Hc3).
    cbn [calls] in Hc3.
    destruct (bodyOf textResult) as [body|e] eqn:Hb.
    + destruct (ThrottledFacts.step_written api parseContent answers outline
                  totalChapters i t chapters w _ _ _ _ body Ht Hi Hb)
        as (w' & Hs & Hc).
      eexists _, w'. split; [exact Hs|]. lia.
    + rewrite (ThrottledFacts.step_parse_throws api parseContent answers
                 outline totalChapters i t chapters w _ _ _ _ e Ht Hi Hb).
      eexists _, _. split; [reflexivity|]. cbn [logged calls]. lia.
  - rewrite (ThrottledFacts.step_text_throws api parseContent answers outline
               totalChapters i t chapters w e _ Ht).
    eexists _, _. split; [reflexivity|]. cbn [logged calls]. lia.
Qed.

Lemma loop_calls titles : forall i chapters w,
  exists added w',
    loop i titles chapters w = (Ok (chapters ++ added), w') /\
    (calls w + length titles <= calls w' <= calls w + 4 * length titles)%nat.
Proof.
  induction titles as [|t titles IH]; intros i chapters w.
  - exists [], w. rewrite app_nil_r. split; [reflexivity|]. cbn. lia.
  - destruct (step_calls i t chapters w) as (c & w1 & Hs & Hc1).
    destruct (IH (S i) (chapters ++ [c]) w1) as (added & w' & Hl & Hc).
    exists (c :: added), w'. split.
    + cbn [chapterLoop]. erewrite bind_ok by exact Hs.
      rewrite Hl, <- app_assoc. reflexivity.
    + cbn [length]. lia.
Qed.

(** The world an iteration ends in when the chapter is written. *)
Lemma step_written_exact i t chapters w textResult w2 img w3 body :
  genText i t (announced i t w) = (Ok textResult, w2) ->
  genImage i t w2 = (Ok img, w3) ->
  bodyOf textResult = Resolved body ->
  step i t chapters w
  = (Ok (chapters ++ [{| title := t; content := body; image := img |}]),
     if Z.of_nat i <? Z.of_nat totalChapters - 1
     then logged [Sleep 2000] w3 else w3).
Proof.
  intros Ht Hi Hb. unfold chapterStep, onProgress.
  erewrite bind_ok by reflexivity.
  destruct (Z.of_nat i <? Z.of_nat totalChapters - 1) eqn:Hlast.
  - apply tryCatch_ok.
    erewrite bind_ok by exact Ht. erewrite bind_ok by exact Hi.
    erewrite bind_ok
      by (rewrite ThrottledFacts.chapterText_bodyOf, Hb; reflexivity).
    reflexivity.
  - apply tryCatch_ok.
    erewrite bind_ok by exact Ht. erewrite bind_ok by exact Hi.
    erewrite bind_ok
      by (rewrite ThrottledFacts.chapterText_bodyOf, Hb; reflexivity).
    destruct w3; reflexivity.
Qed.

(** The first part that carries inline data is the illustration. *)
Lemma firstInline_first pre d post :
  Forall (fun p => Response.inlineData p = None) pre ->
  firstInline (pre ++ Response.mkPart (Some d) :: post) = Some (dataUrl d).
Proof.
  induction 1 as [|p pre Hp _ IH]; [reflexivity|].
  cbn [app firstInline]. rewrite Hp. exact IH.
Qed.

(** The pauses of an iteration in which the text comes at once. *)
Lemma step_pauses i t chapters w :
  textAlwaysThere api parseContent answers outline ->
  exists c w' l,
    step i t chapters w = (Ok (chapters ++ [c]), w') /\
    trace w' = trace w ++ l /\
    sleeps l = (if Z.of_nat i <? Z.of_nat totalChapters - 1
                then [1000; 2000] else [1000]).
Proof.
  intros Hall.
  destruct (Hall (calls w) t) as (textResult & body & Ha & Hb).
  assert (Ht : genText i t (announced i t w)
               = (Ok textResult, tick (announced i t w))).
  { apply loop_success; [lia|]. exact Ha. }
  assert (Hi : exists img w3 l3,
             genImage i t (tick (announced i t w)) = (Ok img, w3) /\
             trace w3 = trace w ++ l3 /\ sleeps l3 = [1000]).
  { destruct (api (calls (tick (announced i t w))) (imageRequest t answers))
      as [r|e] eqn:E.
    - eexists _, _, [_; Sleep 1000]. split; [|split].
      + apply (ThrottledFacts.genImage_resolved api answers i t _ r E).
      + cbn. rewrite <- app_assoc. reflexivity.
      + reflexivity.
    - eexists _, _, [_; Sleep 1000; _; _]. split; [|split].
      + apply (ThrottledFacts.genImage_rejected api answers i t _ e E).
      + cbn. rewrite <- !app_assoc. reflexivity.
      + reflexivity. }
  destruct Hi as (img & w3 & l3 & Hi & Ht3 & Hs3).
  rewrite (step_written_exact i t chapters w _ _ _ _ body Ht Hi Hb).
  destruct (Z.of_nat i <? Z.of_nat totalChapters - 1).
  - eexists _, _, (l3 ++ [Sleep 2000]). split; [reflexivity|]. split.
    + cbn [logged trace]. rewrite Ht3, <- app_assoc. reflexivity.
    + unfold sleeps in *. rewrite omap_app, Hs3. reflexivity.
  - eexists _, _, l3. split; [reflexivity|]. split; assumption.
Qed.

Lemma loop_pauses titles : forall i chapters w,
  textAlwaysThere api parseContent answers outline ->
  exists added w' l,
    loop i titles chapters w = (Ok (chapters ++ added), w') /\
    trace w' = trace w ++ l /\
    sleeps l
    = flat_map (fun i => if Z.of_nat i <? Z.of_nat totalChapters - 1
                         then [1000; 2000] else [1000])
               (seq i (length titles)).
Proof.
  induction titles as [|t titles IH]; intros i chapters w Hall.
  - exists [], w, []. rewrite !app_nil_r. repeat split.
  - destruct (step_pauses i t chapters w Hall) as (c & w1 & l1 & Hs & Ht1 & Hp1).
    destruct (IH (S i) (chapters ++ [c]) w1 Hall)
      as (added & w' & l' & Hl & Ht' & Hp').
    exists (c :: added), w', (l1 ++ l'). split; [|split].
    + cbn [chapterLoop]. erewrite bind_ok by exact Hs.
      rewrite Hl, <- app_assoc. reflexivity.
    + rewrite Ht', Ht1, <- app_assoc. reflexivity.
    + cbn [length seq flat_map]. unfold sleeps in *.
      rewrite omap_app, Hp1, Hp'. reflexivity.
Qed.

(** The iteration for index [j] leads from the world reached at [j] to
    the world reached at [j + 1], with between one and four requests. *)
Lemma reached_calls titles j w :
  (j < length titles)%nat ->
  let reached :=
    ThrottledSpec.reached api parseContent answers outline totalChapters
      titles in
  (calls (reached j w) + 1 <= calls (reached (S j) w)
   <= calls (reached j w) + 4)%nat.
Proof.
  intros Hj. cbv zeta.
  destruct (lookup_lt_is_Some_2 titles j Hj) as (t & Ht).
  destruct (ThrottledFacts.loop_nth api parseContent answers outline
              totalChapters titles j t w Ht) as (before & Hup & Hlen & _).
  destruct (step_calls j t before
              (ThrottledSpec.reached api parseContent answers outline
                 totalChapters titles j w)) as (c & w2 & Hs & Hc).
  assert (Hnext : ThrottledSpec.reached api parseContent answers outline
                    totalChapters titles (S j) w = w2).
  { unfold ThrottledSpec.reached at 1, ThrottledSpec.upTo.
    rewrite (take_S_r titles j t Ht), ThrottledFacts.loop_app.
    unfold ThrottledSpec.upTo in Hup. erewrite bind_ok by exact Hup.
    rewrite length_take, Nat.min_l, Nat.add_0_l by lia.
    cbn [chapterLoop]. erewrite bind_ok by exact Hs. reflexivity. }
  rewrite Hnext. exact Hc.
Qed.

End More.

(** What a run throws, and when. *)
Lemma material_throws (api : Api)
    (parseOutline : string -> Settled Reply)
    (parseContent : string -> Settled (option string)) (answers : Answers.t)
    (w : World) (e : JsError) (w' : World) :
  generateMaterial api parseOutline parseContent answers w
  = (Throw e, w') ->
  (calls w' <= calls w + 3)%nat /\
  ((e = connectionError /\
    exists cause,
      last (emitted w w')
      = Some (ConsoleError "Falha na estrutura:" (Some cause)))
   \/
   generateOutline api parseOutline answers
     (ThrottledSpec.started w) = (Ok (Unreadable e), w')).
Proof.
  intros Hrun.
  destruct (generateOutline_cases api parseOutline answers
              (ThrottledSpec.started w))
    as (n & l & Hn & [([outline|e0] & Ho)|(cause & Ho)]).
  - exfalso.
    destruct (ThrottledFacts.loop_total api parseContent answers outline
                (length (OutlineData.chapterTitles outline))
                (OutlineData.chapterTitles outline) 0 []
                {| calls := calls (ThrottledSpec.started w) + n;
                   trace := trace (ThrottledSpec.started w) ++ l |})
      as (chapters & w2 & Hloop & _).
    rewrite (ThrottledFacts.generateMaterial_assembles api parseOutline
               parseContent answers w outline _ chapters w2 Ho Hloop) in Hrun.
    discriminate.
  - unfold generateMaterial, onProgress in Hrun.
    erewrite bind_ok in Hrun by reflexivity.
    erewrite bind_ok in Hrun by exact Ho.
    injection Hrun as <- <-. cbn [calls ThrottledSpec.started logged trace].
    split; [lia|]. right. exact Ho.
  - unfold generateMaterial, onProgress in Hrun.
    erewrite bind_ok in Hrun by reflexivity.
    erewrite bind_throw in Hrun by exact Ho.
    injection Hrun as <- <-. cbn [calls ThrottledSpec.started logged trace].
    split; [lia|]. left. split; [reflexivity|]. exists cause.
    rewrite <- !app_assoc, emitted_logged.
    rewrite !app_assoc. apply last_snoc.
Qed.

(** The requests of a run whose outline is there. *)
Lemma material_calls api parseOutline parseContent answers w outline w1 o w' :
  generateOutline api parseOutline answers (started w)
  = (Ok (Outline outline), w1) ->
  generateMaterial api parseOutline parseContent answers w = (o, w') ->
  let total := length (OutlineData.chapterTitles outline) in
  (calls w1 + total <= calls w' <= calls w1 + 4 * total)%nat /\
  calls w'
  = calls (reached api parseContent answers outline total
             (OutlineData.chapterTitles outline) total w1).
Proof.
  intros Ho Hrun total.
  destruct (loop_calls api parseContent answers outline total
              (OutlineData.chapterTitles outline) 0 [] w1)
    as (chapters & w2 & Hloop & Hc).
  cbn [app] in Hloop.
  rewrite (ThrottledFacts.generateMaterial_assembles api parseOutline
             parseContent answers w outline w1 chapters w2 Ho Hloop) in Hrun.
  injection Hrun as _ <-. cbn [logged calls]. split; [exact Hc|].
  unfold reached, upTo. subst total.
  rewrite firstn_all, Hloop. reflexivity.
Qed.

End ThrottledMore.

(** C5.  If the text generation of the chapter at index [i] throws (in the
    first revision: [callWithRetry] gives up; in the second: the request is
    rejected), the run does not abort.  It returns all [|T|] chapters; the
    one at index [i] has the title [T[i]] and the fixed, non-empty
    placeholder body; and generation goes on for every other chapter: the
    chapter at each index [j] has the title [T[j]] and is what the code
    makes of the replies to the requests sent for [j] (in the first
    revision: sent when the iteration for [j] is reached; in the second:
    the [j]-th request after the outline), the run sending one request
    per chapter at least. *)
Theorem chapter_failure_contained (api : Api)
    (parseOutline : string -> Settled Reply)
    (parseContent : string -> Settled (option string)) (answers : Answers.t)
    (settleOrder : nat -> list nat) (w : World) :
  (forall outline w1 i t e w2,
     let titles := OutlineData.chapterTitles outline in
     let total := length titles in
     Throttled.generateOutline api parseOutline answers
       (ThrottledSpec.started w) = (Ok (Outline outline), w1) ->
     titles !! i = Some t ->
     Throttled.generateText api answers outline i t
       (ThrottledSpec.announced total i t
          (ThrottledSpec.reached api parseContent answers outline total
             titles i w1))
     = (Throw e, w2) ->
     exists content w',
       Throttled.generateMaterial api parseOutline parseContent answers w
       = (Ok content, w') /\
       length (ContentData.chapters content) = length titles /\
       ContentData.chapters content !! i
       = Some {| Throttled.title := t;
                 Throttled.content := Some Throttled.chapterError;
                 Throttled.image := None |} /\
       Throttled.chapterError <> EmptyString /\
       (calls w1 + length titles <= calls w')%nat /\
       forall j t', titles !! j = Some t' ->
         exists c, ContentData.chapters content !! j = Some c /\
                   Throttled.title c = t' /\
                   c = ThrottledSpec.own api parseContent answers outline
                         total j t'
                         (ThrottledSpec.reached api parseContent answers
                            outline total titles j w1))
  /\
  (forall outline w1 i t e,
     let titles := OutlineData.chapterTitles outline in
     Batched.generateOutline api parseOutline answers
       (BatchedSpec.started w) = (Ok (Outline outline), w1) ->
     BatchedSpec.everySettles settleOrder outline ->
     titles !! i = Some t ->
     api (calls w1 + i)%nat (chapterRequest t outline answers) = Rejected e ->
     exists content w',
       Batched.generateMaterial api parseOutline parseContent answers
         settleOrder w = (Ok content, w') /\
       length (ContentData.chapters content) = length titles /\
       ContentData.chapters content !! i
       = Some {| Batched.title := t;
                 Batched.content := Some Batched.chapterError |} /\
       Batched.chapterError <> EmptyString /\
       calls w' = (calls w1 + length titles)%nat /\
       forall j t', titles !! j = Some t' ->
         exists c, ContentData.chapters content !! j = Some c /\
                   Batched.title c = t' /\
                   c = BatchedSpec.chapterOf parseContent
                         (t', api (calls w1 + j)%nat
                                (chapterRequest t' outline answers))).
Proof.
  split.
  - intros outline w1 i t e w2 titles total Ho Hi Ht.
    destruct (ThrottledFacts.material_nth api parseOutline parseContent answers
                w outline w1 i t Ho Hi) as (before & _ & Hnth).
    destruct (Hnth _ _ (ThrottledFacts.step_text_throws api parseContent answers
                          outline total i t before _ e w2 Ht))
      as (content & w' & Hrun & Hlen & Hc & Hall).
    exists content, w'. split; [exact Hrun|]. split; [exact Hlen|].
    split; [exact Hc|]. split; [discriminate|].
    split.
    { apply (ThrottledMore.material_calls api parseOutline parseContent
               answers w outline w1 (Ok content) w' Ho Hrun). }
    intros j t' Hj. eexists. split; [apply Hall; exact Hj|].
    split; [apply ThrottledFacts.own_title|reflexivity].
  - intros outline w1 i t e titles Ho Hsettle Hi He.
    destruct (BatchedFacts.generateMaterial_value api parseOutline parseContent
                answers settleOrder w outline w1 Ho Hsettle) as (w' & Hrun & Hcalls).
    eexists _, w'. split; [exact Hrun|].
    cbn [Batched.assemble ContentData.chapters]. split.
    { apply BatchedFacts.written_length. }
    split.
    { rewrite (BatchedFacts.written_lookup _ _ _ _ _ _ _ t Hi).
      unfold BatchedSpec.chapterOf. cbn [fst snd]. rewrite He. reflexivity. }
    split; [discriminate|]. split; [exact Hcalls|].
    intros j t' Hj. rewrite (BatchedFacts.written_lookup _ _ _ _ _ _ _ t' Hj).
    eexists. split; [reflexivity|]. split; reflexivity.
Qed.

Lemma chapter_failure_contained_witness :
  (exists content w',
     Throttled.generateMaterial Demo.api Demo.parseOutline Demo.parseContent
       Demo.answers Demo.start = (Ok content, w') /\
     length (ContentData.chapters content) = 4%nat /\
     ContentData.chapters content !! 1%nat
     = Some {| Throttled.title := "B";
               Throttled.content := Some Throttled.chapterError;
               Throttled.image := None |} /\
     Throttled.chapterError <> EmptyString /\
     (1 + 4 <= calls w')%nat /\
     forall j t', OutlineData.chapterTitles Demo.outline !! j = Some t' ->
       exists c, ContentData.chapters content !! j = Some c /\
                 Throttled.title c = t' /\
                 c = ThrottledSpec.own Demo.api Demo.parseContent Demo.answers
                       Demo.outline 4 j t'
                       (ThrottledSpec.reached Demo.api Demo.parseContent
                          Demo.answers Demo.outline 4
                          (OutlineData.chapterTitles Demo.outline) j
                          (mkWorld 1
                             [Progress "Analisando nicho e criando estrutura..."])))
  /\
  (exists content w',
     Batched.generateMaterial Demo.api Demo.parseOutline Demo.parseContent
       Demo.answers Demo.cFirst Demo.start = (Ok content, w') /\
     length (ContentData.chapters content) = 4%nat /\
     ContentData.chapters content !! 1%nat
     = Some {| Batched.title := "B";
               Batched.content := Some Batched.chapterError |} /\
     Batched.chapterError <> EmptyString /\
     calls w' = (1 + 4)%nat /\
     forall j t', OutlineData.chapterTitles Demo.outline !! j = Some t' ->
       exists c, ContentData.chapters content !! j = Some c /\
                 Batched.title c = t' /\
                 c = BatchedSpec.chapterOf Demo.parseContent
                       (t', Demo.api (1 + j)%nat
                              (chapterRequest t' Demo.outline Demo.answers))).
Proof.
  split.
  - pose (w1 := mkWorld 1 [Progress "Analisando nicho e criando estrutura..."]).
    pose (wi := ThrottledSpec.announced 4 1 "B"
                  (ThrottledSpec.reached Demo.api Demo.parseContent
                     Demo.answers Demo.outline 4
                     (OutlineData.chapterTitles Demo.outline) 1 w1)).
    apply (proj1 (chapter_failure_contained Demo.api Demo.parseOutline
                    Demo.parseContent Demo.answers Demo.cFirst Demo.start)
             Demo.outline w1 1%nat "B" Demo.refused
             (Throttled.generateText Demo.api Demo.answers Demo.outline 1 "B"
                wi).2).
    + vm_compute. reflexivity.
    + reflexivity.
    + vm_compute. reflexivity.
  - apply (proj2 (chapter_failure_contained Demo.api Demo.parseOutline
                    Demo.parseContent Demo.answers Demo.cFirst Demo.start)
             Demo.outline
             (mkWorld 1 [Progress "Criando estrutura, capa e sumário..."])
             1%nat "B" Demo.refused).
    + vm_compute. reflexivity.
    + exact DemoFacts.cFirst_settles.
    + reflexivity.
    + reflexivity.
Defined.

(** X5.  A run of the first revision throws only on account of the
    outline, with at most its three requests sent and no chapter
    requested.  What it throws is the one fixed connection error, when the
    outline request, an empty text or a text that cannot be parsed made
    the outline step fail (the cause is only written to the console); or
    the error of reading [chapterTitles.length] (line 149), when the
    outline step returned a reply that carries no titles. *)
Theorem throttled_failure_causes (api : Api)
    (parseOutline : string -> Settled Reply)
    (parseContent : string -> Settled (option string)) (answers : Answers.t)
    (w : World) (e : JsError) (w' : World) :
  Throttled.generateMaterial api parseOutline parseContent answers w
  = (Throw e, w') ->
  (calls w' <= calls w + 3)%nat /\
  ((e = connectionError /\
    exists cause,
      last (emitted w w')
      = Some (ConsoleError "Falha na estrutura:" (Some cause)))
   \/
   Throttled.generateOutline api parseOutline answers
     (ThrottledSpec.started w) = (Ok (Unreadable e), w')).
Proof.
  apply ThrottledMore.material_throws.
Qed.

Lemma throttled_failure_causes_witness :
  (1 <= 0 + 3)%nat /\
  ((DemoBare.noTitles = connectionError /\
    exists cause,
      last (emitted Demo.start
              (mkWorld 1 [Progress "Analisando nicho e criando estrutura..."]))
      = Some (ConsoleError "Falha na estrutura:" (Some cause)))
   \/
   Throttled.generateOutline DemoBare.bareOutline DemoBare.parseOutline
     Demo.answers (ThrottledSpec.started Demo.start)
   = (Ok (Unreadable DemoBare.noTitles),
      mkWorld 1 [Progress "Analisando nicho e criando estrutura..."])).
Proof.
  apply (throttled_failure_causes DemoBare.bareOutline DemoBare.parseOutline
           Demo.parseContent Demo.answers Demo.start DemoBare.noTitles
           (mkWorld 1 [Progress "Analisando nicho e criando estrutura..."])).
  vm_compute. reflexivity.
Defined.

(** X6.  Of a run of the first revision that has got its outline, with
    [|T|] chapters to write, and has come to its end: at most three
    requests were sent for the outline, and the iteration for each
    chapter sent at least one and at most four (up to three for the text,
    one for the image), so that the run sent between [|T|] and [4 * |T|]
    requests for its chapters and never more than [3 + 4 * |T|] in all. *)
Theorem throttled_request_budget (api : Api)
    (parseOutline : string -> Settled Reply)
    (parseContent : string -> Settled (option string)) (answers : Answers.t)
    (w : World) outline w1 o w' :
  let titles := OutlineData.chapterTitles outline in
  let total := length titles in
  let reached :=
    ThrottledSpec.reached api parseContent answers outline total titles in
  Throttled.generateOutline api parseOutline answers
    (ThrottledSpec.started w) = (Ok (Outline outline), w1) ->
  Throttled.generateMaterial api parseOutline parseContent answers w
  = (o, w') ->
  (calls w1 <= calls w + 3)%nat /\
  reached 0%nat w1 = w1 /\
  (forall j, (j < total)%nat ->
     (calls (reached j w1) + 1 <= calls (reached (S j) w1)
      <= calls (reached j w1) + 4)%nat) /\
  calls w' = calls (reached total w1) /\
  (calls w1 + total <= calls w' <= calls w1 + 4 * total)%nat /\
  (calls w' <= calls w + 3 + 4 * total)%nat.
Proof.
  intros titles total reached Ho Hrun.
  assert (Hc1 : (calls w1 <= calls w + 3)%nat).
  { destruct (ThrottledMore.generateOutline_cases api parseOutline answers
                (ThrottledSpec.started w))
      as (n & l & Hn & [(reply & Ho')|(e & Ho')]);
      rewrite Ho in Ho'; [|discriminate].
    injection Ho' as _ ->. cbn. lia. }
  destruct (ThrottledMore.material_calls api parseOutline parseContent answers
              w outline w1 o w' Ho Hrun) as (Hc & Hlast).
  fold titles total in Hc, Hlast.
  split; [exact Hc1|]. split; [reflexivity|]. split.
  { intros j Hj. apply ThrottledMore.reached_calls. exact Hj. }
  split; [exact Hlast|]. split; [exact Hc|]. lia.
Qed.

Lemma throttled_request_budget_witness :
  let reached :=
    ThrottledSpec.reached Demo.api Demo.parseContent Demo.answers Demo.outline
      4 (OutlineData.chapterTitles Demo.outline) in
  let w1 := mkWorld 1 [Progress "Analisando nicho e criando estrutura..."] in
  let w' := (Throttled.generateMaterial Demo.api Demo.parseOutline
               Demo.parseContent Demo.answers Demo.start).2 in
  (1 <= 0 + 3)%nat /\
  reached 0%nat w1 = w1 /\
  (forall j, (j < 4)%nat ->
     (calls (reached j w1) + 1 <= calls (reached (S j) w1)
      <= calls (reached j w1) + 4)%nat) /\
  calls w' = calls (reached 4%nat w1) /\
  (1 + 4 <= calls w' <= 1 + 4 * 4)%nat /\
  (calls w' <= 0 + 3 + 4 * 4)%nat.
Proof.
  apply (throttled_request_budget Demo.api Demo.parseOutline Demo.parseContent
           Demo.answers Demo.start Demo.outline
           (mkWorld 1 [Progress "Analisando nicho e criando estrutura..."])
           (Throttled.generateMaterial Demo.api Demo.parseOutline
              Demo.parseContent Demo.answers Demo.start).1
           (Throttled.generateMaterial Demo.api Demo.parseOutline
              Demo.parseContent Demo.answers Demo.start).2).
  - vm_compute. reflexivity.
  - apply surjective_pairing.
Defined.

Lemma sumZ_pauses (total : nat) :
  (1 <= total)%nat -> sumZ (pauses total) = 3000 * Z.of_nat total - 2000.
Proof.
  intros Hpos. unfold pauses.
  set (f := fun i : nat => if Z.of_nat i <? Z.of_nat total - 1
                           then [1000; 2000] else [1000]).
  assert (Hfull : forall k, (k < total)%nat ->
            sumZ (flat_map f (seq 0 k)) = 3000 * Z.of_nat k).
  { induction k as [|k IH]; intros Hk; [reflexivity|].
    rewrite seq_S, flat_map_app, sumZ_app, IH by lia.
    cbn [flat_map Nat.add]. rewrite app_nil_r. subst f. cbv beta.
    destruct (Z.ltb_spec (Z.of_nat k) (Z.of_nat total - 1)); [|lia].
    cbn. lia. }
  assert (Hlast : sumZ (flat_map f (seq 0 (S (total - 1))))
                  = 3000 * Z.of_nat total - 2000).
  { rewrite seq_S, flat_map_app, sumZ_app, Hfull by lia.
    cbn [flat_map Nat.add]. rewrite app_nil_r. subst f. cbv beta.
    destruct (Z.ltb_spec (Z.of_nat (total - 1)) (Z.of_nat total - 1)); [lia|].
    cbn. lia. }
  replace (S (total - 1)) with total in Hlast by lia. exact Hlast.
Qed.

(** X7.  When no text request fails, the chapter loop of the first
    revision pauses for one second before each image request and for two
    seconds after each chapter but the last, and for nothing else:
    [3 |T| - 2] seconds for [|T| >= 1] chapters. *)
Theorem throttled_pauses (api : Api)
    (parseOutline : string -> Settled Reply)
    (parseContent : string -> Settled (option string)) (answers : Answers.t)
    (w : World) outline w1 :
  let total := length (OutlineData.chapterTitles outline) in
  Throttled.generateOutline api parseOutline answers
    (ThrottledSpec.started w) = (Ok (Outline outline), w1) ->
  textAlwaysThere api parseContent answers outline ->
  exists chapters w2,
    Throttled.generateChapters api parseContent answers outline w1
    = (Ok chapters, w2) /\
    Throttled.generateMaterial api parseOutline parseContent answers w
    = (Ok (Throttled.assemble outline chapters),
       logged [Progress "Finalizando diagramação..."] w2) /\
    sleeps (emitted w1 w2) = pauses total /\
    ((1 <= total)%nat ->
     sumZ (sleeps (emitted w1 w2)) = 3000 * Z.of_nat total - 2000).
Proof.
  intros total Ho Hall.
  destruct (ThrottledMore.loop_pauses api parseContent answers outline total
              (OutlineData.chapterTitles outline) 0 [] w1 Hall)
    as (chapters & w2 & l & Hrun & Ht & Hs).
  cbn [app] in Hrun. exists chapters, w2. split; [exact Hrun|]. split.
  { eapply ThrottledFacts.generateMaterial_assembles; [exact Ho|exact Hrun]. }
  rewrite (emitted_app _ _ _ Ht), Hs. split; [reflexivity|].
  apply sumZ_pauses.
Qed.

Lemma demo2_textAlwaysThere :
  textAlwaysThere Demo2.api Demo.parseContent Demo.answers Demo.outline.
Proof. intros n t. eexists _, _. split; reflexivity. Qed.

Lemma throttled_pauses_witness :
  exists chapters w2,
    Throttled.generateChapters Demo2.api Demo.parseContent Demo.answers
      Demo.outline
      (mkWorld 1 [Progress "Analisando nicho e criando estrutura..."])
    = (Ok chapters, w2) /\
    Throttled.generateMaterial Demo2.api Demo.parseOutline Demo.parseContent
      Demo.answers Demo.start
    = (Ok (Throttled.assemble Demo.outline chapters),
       logged [Progress "Finalizando diagramação..."] w2) /\
    sleeps (emitted
              (mkWorld 1 [Progress "Analisando nicho e criando estrutura..."])
              w2)
    = [1000; 2000; 1000; 2000; 1000; 2000; 1000] /\
    ((1 <= 4)%nat ->
     sumZ (sleeps (emitted
                     (mkWorld 1
                        [Progress "Analisando nicho e criando estrutura..."])
                     w2)) = 3000 * Z.of_nat 4 - 2000).
Proof.
  apply (throttled_pauses Demo2.api Demo.parseOutline Demo.parseContent
           Demo.answers Demo.start Demo.outline
           (mkWorld 1 [Progress "Analisando nicho e criando estrutura..."])).
  - vm_compute. reflexivity.
  - exact demo2_textAlwaysThere.
Defined.

(** X8.  When the image response carries inline data, the illustration of
    the chapter is the [data:] URL of the first part that has some: the
    parts before it without inline data are skipped, the parts after it
    are not looked at. *)
Theorem first_inline_image_used (api : Api)
    (parseOutline : string -> Settled Reply)
    (parseContent : string -> Settled (option string)) (answers : Answers.t)
    (w : World) outline w1 i t textResult w2 body r pre d post :
  let titles := OutlineData.chapterTitles outline in
  let total := length titles in
  Throttled.generateOutline api parseOutline answers
    (ThrottledSpec.started w) = (Ok (Outline outline), w1) ->
  titles !! i = Some t ->
  Throttled.generateText api answers outline i t
    (ThrottledSpec.announced total i t
       (ThrottledSpec.reached api parseContent answers outline total
          titles i w1))
  = (Ok textResult, w2) ->
  ThrottledSpec.bodyOf parseContent textResult = Resolved body ->
  api (calls w2) (imageRequest t answers) = Resolved r ->
  Throttled.firstParts r = Some (pre ++ Response.mkPart (Some d) :: post) ->
  Forall (fun p => Response.inlineData p = None) pre ->
  exists content w',
    Throttled.generateMaterial api parseOutline parseContent answers w
    = (Ok content, w') /\
    ContentData.chapters content !! i
    = Some {| Throttled.title := t; Throttled.content := body;
              Throttled.image := Some (dataUrl d) |}.
Proof.
  intros titles total Ho Hi Ht Hb Hr Hparts Hpre.
  assert (Himg : Throttled.generateImage api answers i t w2
                 = (Ok (Some (dataUrl d)), tick (logged [Sleep 1000] w2))).
  { rewrite (ThrottledFacts.genImage_resolved api answers i t w2 r Hr).
    unfold ThrottledSpec.inlineOf. rewrite Hparts.
    rewrite (ThrottledMore.firstInline_first pre d post Hpre). reflexivity. }
  destruct (ThrottledFacts.material_nth api parseOutline parseContent answers
              w outline w1 i t Ho Hi) as (before & _ & Hnth).
  destruct (ThrottledFacts.step_written api parseContent answers outline total
              i t before _ textResult w2 _ _ body Ht Himg Hb)
    as (w4 & Hstep & _).
  destruct (Hnth _ _ Hstep) as (content & w' & Hrun & _ & Hc & _).
  exists content, w'. split; assumption.
Qed.

Lemma first_inline_image_used_witness :
  exists content w',
    Throttled.generateMaterial Demo2.api Demo.parseOutline Demo.parseContent
      Demo.answers Demo.start = (Ok content, w') /\
    ContentData.chapters content !! 0%nat
    = Some {| Throttled.title := "A";
              Throttled.content := Some "Texto de A";
              Throttled.image := Some "data:image/png;base64,iVBORw0KGgo=" |}.
Proof.
  apply (first_inline_image_used Demo2.api Demo.parseOutline Demo.parseContent
           Demo.answers Demo.start Demo.outline
           (mkWorld 1 [Progress "Analisando nicho e criando estrutura..."])
           0%nat "A" (Response.mk (Some "Texto de A") None)
           (mkWorld 2 [Progress "Analisando nicho e criando estrutura...";
                       Progress (Throttled.chapterProgress 4 0 "A")])
           (Some "Texto de A") Demo2.imageResponse
           [Response.mkPart None] Demo2.picture
           [Response.mkPart (Some Demo2.otherPicture)]).
  - vm_compute. reflexivity.
  - reflexivity.
  - vm_compute. reflexivity.
  - reflexivity.
  - reflexivity.
  - reflexivity.
  - repeat constructor.
Defined.

(** X9.  A text that arrives but cannot be parsed fails the chapter only
    after the image request has been sent: the chapter gets the error
    placeholder and no illustration, whatever the image request
    delivered. *)
Theorem unparsable_text_drops_image (api : Api)
    (parseOutline : string -> Settled Reply)
    (parseContent : string -> Settled (option string)) (answers : Answers.t)
    (w : World) outline w1 i t textResult w2 e :
  let titles := OutlineData.chapterTitles outline in
  let total := length titles in
  Throttled.generateOutline api parseOutline answers
    (ThrottledSpec.started w) = (Ok (Outline outline), w1) ->
  titles !! i = Some t ->
  Throttled.generateText api answers outline i t
    (ThrottledSpec.announced total i t
       (ThrottledSpec.reached api parseContent answers outline total
          titles i w1))
  = (Ok textResult, w2) ->
  ThrottledSpec.bodyOf parseContent textResult = Rejected e ->
  (exists img w3,
     Throttled.generateImage api answers i t w2 = (Ok img, w3) /\
     calls w3 = S (calls w2)) /\
  exists content w',
    Throttled.generateMaterial api parseOutline parseContent answers w
    = (Ok content, w') /\
    length (ContentData.chapters content) = length titles /\
    ContentData.chapters content !! i
    = Some {| Throttled.title := t;
              Throttled.content := Some Throttled.chapterError;
              Throttled.image := None |}.
Proof.
  intros titles total Ho Hi Ht Hb.
  destruct (ThrottledFacts.genImage_total api answers i t w2)
    as (img & w3 & Himg & Hc3).
  split; [exists img, w3; split; assumption|].
  destruct (ThrottledFacts.material_nth api parseOutline parseContent answers
              w outline w1 i t Ho Hi) as (before & _ & Hnth).
  destruct (Hnth _ _ (ThrottledFacts.step_parse_throws api parseContent
                        answers outline total i t before _ textResult w2
                        img w3 e Ht Himg Hb))
    as (content & w' & Hrun & Hlen & Hc & _).
  exists content, w'. split; [exact Hrun|]. split; assumption.
Qed.

Lemma unparsable_text_drops_image_witness :
  (exists img w3,
     Throttled.generateImage Demo2.api Demo.answers 3 "D"
       (Throttled.generateText Demo2.api Demo.answers Demo.outline 3 "D"
          (ThrottledSpec.announced 4 3 "D"
             (ThrottledSpec.reached Demo2.api Demo2.parseStrict Demo.answers
                Demo.outline 4 ["A"; "B"; "C"; "D"] 3
                (mkWorld 1
                   [Progress "Analisando nicho e criando estrutura..."])))).2
     = (Ok img, w3) /\
     calls w3 = 9%nat) /\
  exists content w',
    Throttled.generateMaterial Demo2.api Demo.parseOutline Demo2.parseStrict
      Demo.answers Demo.start = (Ok content, w') /\
    length (ContentData.chapters content) = 4%nat /\
    ContentData.chapters content !! 3%nat
    = Some {| Throttled.title := "D";
              Throttled.content := Some Throttled.chapterError;
              Throttled.image := None |}.
Proof.
  apply (unparsable_text_drops_image Demo2.api Demo.parseOutline
           Demo2.parseStrict Demo.answers Demo.start Demo.outline
           (mkWorld 1 [Progress "Analisando nicho e criando estrutura..."])
           3%nat "D" (Response.mk (Some "Texto de D") None)
           (Throttled.generateText Demo2.api Demo.answers Demo.outline 3 "D"
              (ThrottledSpec.announced 4 3 "D"
                 (ThrottledSpec.reached Demo2.api Demo2.parseStrict
                    Demo.answers Demo.outline 4 ["A"; "B"; "C"; "D"] 3
                    (mkWorld 1
                       [Progress "Analisando nicho e criando estrutura..."])))).2
           (newError "Unexpected end of JSON input")).
  - vm_compute. reflexivity.
  - reflexivity.
  - vm_compute. reflexivity.
  - reflexivity.
Defined.

(** X29.  Once the outline step of the first revision has succeeded with
    the titles [T], the run returns [|T|] chapters that carry the titles
    of [T] in order.  The chapter at index [i] is made of the replies to
    the requests sent for it when its iteration is reached, and of
    nothing else: its body is the placeholder of a failed chapter (and
    then it has no illustration), the sentinel of an empty text, or what
    parsing the text of a reply to the request for its own title gave --
    [undefined] when the parsed reply has no [content]. *)
Theorem throttled_chapters_own (api : Api)
    (parseOutline : string -> Settled Reply)
    (parseContent : string -> Settled (option string)) (answers : Answers.t)
    (w : World) outline w1 :
  let titles := OutlineData.chapterTitles outline in
  let total := length titles in
  Throttled.generateOutline api parseOutline answers
    (ThrottledSpec.started w) = (Ok (Outline outline), w1) ->
  exists content w',
    Throttled.generateMaterial api parseOutline parseContent answers w
    = (Ok content, w') /\
    Throttled.title <$> ContentData.chapters content = titles /\
    forall i t, titles !! i = Some t ->
      let c :=
        ThrottledSpec.own api parseContent answers outline total i t
          (ThrottledSpec.reached api parseContent answers outline total
             titles i w1) in
      ContentData.chapters content !! i = Some c /\
      ((Throttled.content c = Some Throttled.chapterError /\
        Throttled.image c = None) \/
       Throttled.content c = Some Throttled.unavailable \/
       exists n textResult s,
         api n (chapterRequest t outline answers) = Resolved textResult /\
         Response.text textResult = Some s /\ Js.truthy s = true /\
         parseContent s = Resolved (Throttled.content c)).
Proof.
  intros titles total Ho.
  destruct (ThrottledFacts.material_own api parseOutline parseContent answers
              w outline w1 Ho) as (content & w' & Hrun & Hlen & Hown).
  fold titles total in Hlen, Hown.
  exists content, w'. split; [exact Hrun|]. split.
  - apply list_eq. intros i. rewrite list_lookup_fmap.
    destruct (titles !! i) as [t|] eqn:Hi.
    + rewrite (Hown i t Hi). cbn. f_equal. apply ThrottledFacts.own_title.
    + apply lookup_ge_None in Hi.
      rewrite (proj2 (lookup_ge_None (ContentData.chapters content) i));
        [reflexivity|lia].
  - intros i t Hi c. split; [apply Hown; exact Hi|].
    apply ThrottledFacts.own_body.
Qed.

Lemma throttled_chapters_own_witness :
  exists content w',
    Throttled.generateMaterial DemoBare.api Demo.parseOutline
      Demo.parseContent Demo.answers Demo.start = (Ok content, w') /\
    Throttled.title <$> ContentData.chapters content = ["A"; "B"; "C"; "D"] /\
    forall i t, OutlineData.chapterTitles Demo.outline !! i = Some t ->
      let c :=
        ThrottledSpec.own DemoBare.api Demo.parseContent Demo.answers
          Demo.outline 4 i t
          (ThrottledSpec.reached DemoBare.api Demo.parseContent Demo.answers
             Demo.outline 4 (OutlineData.chapterTitles Demo.outline) i
             (mkWorld 1 [Progress "Analisando nicho e criando estrutura..."]))
      in
      ContentData.chapters content !! i = Some c /\
      ((Throttled.content c = Some Throttled.chapterError /\
        Throttled.image c = None) \/
       Throttled.content c = Some Throttled.unavailable \/
       exists n textResult s,
         DemoBare.api n (chapterRequest t Demo.outline Demo.answers)
         = Resolved textResult /\
         Response.text textResult = Some s /\ Js.truthy s = true /\
         Demo.parseContent s = Resolved (Throttled.content c)).
Proof.
  apply (throttled_chapters_own DemoBare.api Demo.parseOutline
           Demo.parseContent Demo.answers Demo.start Demo.outline
           (mkWorld 1 [Progress "Analisando nicho e criando estrutura..."])).
  vm_compute. reflexivity.
Defined.

(** ** More on the second revision *)

Lemma bind_pending {A B} (m : M A) (k : A -> M B) w w1 :
  m w = (Pending, w1) -> (x <- m ;; k x) w = (Pending, w1).
Proof. intros H. unfold bind. rewrite H. reflexivity. Qed.

Lemma quiet_app l1 l2 : quiet l1 -> quiet l2 -> quiet (l1 ++ l2).
Proof.
  unfold quiet, sleeps, progressMessages. intros [H1 H2] [H3 H4].
  rewrite !omap_app, H1, H2, H3, H4. split; reflexivity.
Qed.

Lemma batchCount_step (n : nat) :
  (1 <= n)%nat -> batchCount n = S (batchCount (n - Batched.batchSize)).
Proof.
  unfold batchCount, Batched.batchSize. intros Hn.
  destruct n as [|[|[|m]]]; [lia|reflexivity|reflexivity|].
  replace (S (S (S m)) + (3 - 1))%nat with ((m + 2) + 1 * 3)%nat by lia.
  rewrite Nat.div_add by lia.
  replace (S (S (S m)) - 3 + (3 - 1))%nat with (m + 2)%nat by lia. lia.
Qed.

Module BatchedMore.
Import Batched BatchedSpec.

Section More.
Variable api : Api.
Variable parseContent : string -> Settled (option string).
Variable answers : Answers.t.
Variable settleOrder : nat -> list nat.
Variable outline : OutlineData.t.

Local Abbreviation titles := (OutlineData.chapterTitles outline).
Local Abbreviation chapterOf := (BatchedSpec.chapterOf parseContent).
Local Abbreviation inFlight := (BatchedSpec.inFlight api answers outline).
Local Abbreviation stored := (BatchedSpec.stored parseContent).
Local Abbreviation written :=
  (BatchedSpec.written api parseContent answers outline).
Local Abbreviation everySettles :=
  (BatchedSpec.everySettles settleOrder outline).

Lemma finishChapter_quiet p w :
  exists l,
    finishChapter parseContent p w = (Ok (chapterOf p), logged l w) /\ quiet l.
Proof.
  assert (Hq : forall msg e, quiet [ConsoleError msg e])
    by (intros; split; reflexivity).
  destruct p as [t [result|e]];
    unfold finishChapter, BatchedSpec.chapterOf; cbn [fst snd].
  - destruct (BatchedSpec.bodyOf parseContent result) as [body|e] eqn:Hb.
    + exists []. split; [|split; reflexivity].
      unfold logged. rewrite app_nil_r. destruct w as [c tr]. cbn [calls trace].
      apply tryCatch_ok. erewrite bind_ok by reflexivity.
      erewrite bind_ok
        by (rewrite BatchedFacts.chapterText_value, Hb; reflexivity).
      reflexivity.
    + eexists [_]. split; [|apply Hq].
      erewrite tryCatch_throw.
      2:{ erewrite bind_ok by reflexivity. apply bind_throw.
          rewrite BatchedFacts.chapterText_value, Hb. reflexivity. }
      reflexivity.
  - eexists [_]. split; [|apply Hq].
    erewrite tryCatch_throw by (apply bind_throw; reflexivity).
    reflexivity.
Qed.

Lemma settleAll_quiet members order : forall values w,
  exists l,
    settleAll parseContent members order values w
    = (Ok (stored members order values), logged l w) /\ quiet l.
Proof.
  induction order as [|j order IH]; intros values w.
  - exists []. split; [|split; reflexivity].
    unfold logged. rewrite app_nil_r. destruct w; reflexivity.
  - rewrite BatchedFacts.stored_cons. cbn [settleAll].
    destruct (members !! j) as [p|]; [|apply IH].
    destruct (finishChapter_quiet p w) as (l1 & Hf & Hq1).
    destruct (IH (<[j := Some (chapterOf p)]> values) (logged l1 w))
      as (l2 & Hs & Hq2).
    exists (l1 ++ l2). split; [|apply quiet_app; assumption].
    erewrite bind_ok by exact Hf. rewrite Hs.
    unfold logged. cbn [calls trace]. rewrite app_assoc. reflexivity.
Qed.

Lemma promiseAll_quiet members order w :
  order ≡ₚ seq 0 (length members) ->
  exists l,
    promiseAll parseContent members order w
    = (Ok (chapterOf <$> members), logged l w) /\ quiet l.
Proof.
  intros Hperm. unfold promiseAll.
  destruct (settleAll_quiet members order
              (replicate (length members) None) w) as (l & Hs & Hq).
  exists l. split; [|exact Hq].
  erewrite bind_ok by exact Hs. rewrite (BatchedFacts.stored_all _ _ _ Hperm).
  rewrite mapM_fmap_Some by reflexivity. reflexivity.
Qed.

(** [Promise.all] stays pending when a member never settles. *)
Lemma promiseAll_pending members order w j :
  (j < length members)%nat -> j ∉ order ->
  exists w', promiseAll parseContent members order w = (Pending, w').
Proof.
  intros Hj Hnot. unfold promiseAll.
  destruct (settleAll_quiet members order
              (replicate (length members) None) w) as (l & Hs & _).
  eexists. erewrite bind_ok by exact Hs.
  assert (Hnone : mapM id (stored members order
                             (replicate (length members) None)) = None).
  { apply mapM_None_2. apply Exists_exists. exists None. split; [|reflexivity].
    apply (list_elem_of_lookup_2 _ j).
    rewrite BatchedFacts.stored_lookup by apply length_replicate.
    rewrite decide_False by assumption.
    apply lookup_replicate_2. assumption. }
  rewrite Hnone. reflexivity.
Qed.

(** The loop from the batch number [k] on: what it returns, how many
    requests it sends, and what it leaves in the trace. *)
Lemma batchLoop_trace :
  everySettles ->
  forall fuel k chapters w,
    (length titles - k * batchSize < fuel)%nat ->
    exists l,
      batchLoop api parseContent answers settleOrder outline fuel
        (k * batchSize) chapters w
      = (Ok (chapters ++ written (calls w) (drop (k * batchSize) titles)),
         {| calls := calls w + length (drop (k * batchSize) titles);
            trace := trace w ++ l |}) /\
      sleeps l = [] /\
      progressMessages l = batchMessages k (length titles).
Proof.
  intros Hsettle. induction fuel as [|fuel IH]; intros k chapters w Hfuel;
    [lia|].
  cbn [batchLoop]. unfold batchMessages. set (i := (k * batchSize)%nat) in *.
  destruct (Nat.ltb_spec i (length titles)) as [Hlt|Hge].
  2:{ rewrite drop_ge by assumption. exists [].
      unfold BatchedSpec.written. cbn [BatchedSpec.inFlight imap fmap list_fmap length].
      rewrite !app_nil_r, Nat.add_0_r.
      replace (length titles - i)%nat with 0%nat by lia.
      split; [destruct w; reflexivity|]. split; reflexivity. }
  set (batch := take batchSize (drop i titles)).
  unfold onProgress. erewrite bind_ok by reflexivity.
  erewrite bind_ok by apply BatchedFacts.startBatch_value.
  cbv beta. cbn [calls trace].
  match goal with
  | |- context [bind (promiseAll _ ?ms ?ord) _ ?w1] =>
      destruct (promiseAll_quiet ms ord w1) as (l2 & Hp & Hq2 & Hq2')
  end.
  { unfold BatchedSpec.inFlight. rewrite length_imap. apply Hsettle.
    assumption. }
  erewrite bind_ok by exact Hp.
  destruct (IH (S k) (chapters ++ written (calls w) batch)
              (logged l2 {| calls := calls w + length batch;
                            trace := trace w ++
                              [Progress (batchProgress i (length titles))] |}))
    as (l3 & Hloop & Hs3 & Hp3).
  { change (S k * batchSize)%nat with (batchSize + i)%nat.
    unfold batchSize. lia. }
  assert (Hsplit : drop i titles = batch ++ drop (batchSize + i) titles).
  { subst batch.
    replace (batchSize + i)%nat with (i + batchSize)%nat by lia.
    rewrite <- drop_drop. symmetry. apply take_drop. }
  change (S k * batchSize)%nat with (batchSize + i)%nat in Hloop, Hp3.
  replace (i + batchSize)%nat with (batchSize + i)%nat by lia.
  cbn [logged calls trace] in Hloop. unfold BatchedSpec.written at 1 in Hloop.
  exists ([Progress (batchProgress i (length titles))] ++ l2 ++ l3).
  split; [|split].
  - rewrite Hloop, <- !app_assoc. f_equal.
    + f_equal. rewrite Hsplit, BatchedFacts.written_app. reflexivity.
    + f_equal. rewrite Hsplit, length_app. lia.
  - unfold sleeps in *. rewrite !omap_app, Hq2, Hs3. reflexivity.
  - unfold progressMessages in *. rewrite !omap_app, Hq2', Hp3.
    rewrite (batchCount_step (length titles - i)) by lia.
    cbn [seq map omap app]. fold i. do 2 f_equal.
    unfold batchMessages.
    replace (length titles - i - batchSize)%nat
      with (length titles - (batchSize + i))%nat by lia.
    reflexivity.
Qed.

End More.

(** The outline step of the second revision is a single request. *)
Lemma generateOutline_world api parseOutline answers w o w' :
  generateOutline api parseOutline answers w = (o, w') -> w' = tick w.
Proof.
  unfold generateOutline, bind, await. intros H.
  destruct (api (calls w) (outlineRequest answers)) as [r|e]; cbn [settle] in H.
  - destruct (Response.text r) as [t|].
    + destruct (Js.truthy t).
      * unfold attempt in H. injection H as _ <-. reflexivity.
      * injection H as _ <-. reflexivity.
    + injection H as _ <-. reflexivity.
  - injection H as _ <-. reflexivity.
Qed.

End BatchedMore.

(** X10.  A run of the second revision in which every request settles
    sends exactly one request for the outline and one per chapter -- nothing
    is retried -- and never pauses. *)
Theorem batched_requests_and_pauses (api : Api)
    (parseOutline : string -> Settled Reply)
    (parseContent : string -> Settled (option string)) (answers : Answers.t)
    (settleOrder : nat -> list nat) (w : World) outline w1 :
  let titles := OutlineData.chapterTitles outline in
  Batched.generateOutline api parseOutline answers (BatchedSpec.started w)
  = (Ok (Outline outline), w1) ->
  BatchedSpec.everySettles settleOrder outline ->
  exists content w',
    Batched.generateMaterial api parseOutline parseContent answers
      settleOrder w = (Ok content, w') /\
    calls w' = (calls w + 1 + length titles)%nat /\
    sleeps (emitted w w') = [].
Proof.
  intros titles Ho Hsettle. subst titles.
  pose proof (BatchedMore.generateOutline_world _ _ _ _ _ _ Ho) as ->.
  destruct (BatchedMore.batchLoop_trace api parseContent answers settleOrder
              outline Hsettle
              (S (length (OutlineData.chapterTitles outline))) 0 []
              (tick (BatchedSpec.started w)))
    as (l & Hrun & Hs & _); [cbn; lia|].
  eexists _, _. split.
  { eapply BatchedFacts.generateMaterial_collects; [exact Ho|exact Hrun]. }
  unfold BatchedSpec.started, tick, logged. cbn [calls trace Nat.mul].
  rewrite drop_0. split; [lia|].
  rewrite <- !app_assoc, emitted_logged.
  unfold sleeps in *. rewrite !omap_app, Hs. reflexivity.
Qed.

Lemma batched_requests_and_pauses_witness :
  exists content w',
    Batched.generateMaterial Demo.api Demo.parseOutline Demo.parseContent
      Demo.answers Demo.cFirst Demo.start = (Ok content, w') /\
    calls w' = (0 + 1 + 4)%nat /\
    sleeps (emitted Demo.start w') = [].
Proof.
  apply (batched_requests_and_pauses Demo.api Demo.parseOutline
           Demo.parseContent Demo.answers Demo.cFirst Demo.start Demo.outline
           (mkWorld 1 [Progress "Criando estrutura, capa e sumário..."])).
  - vm_compute. reflexivity.
  - exact DemoFacts.cFirst_settles.
Defined.

(** X11.  The progress messages of such a run are the opening message, one
    message for each batch of three -- [ceil (|T| / 3)] of them, each naming
    the first and the last chapter of its batch, the last capped at [|T|] --
    and the closing message, in this order. *)
Theorem batched_progress (api : Api)
    (parseOutline : string -> Settled Reply)
    (parseContent : string -> Settled (option string)) (answers : Answers.t)
    (settleOrder : nat -> list nat) (w : World) outline w1 :
  let total := length (OutlineData.chapterTitles outline) in
  Batched.generateOutline api parseOutline answers (BatchedSpec.started w)
  = (Ok (Outline outline), w1) ->
  BatchedSpec.everySettles settleOrder outline ->
  exists content w',
    Batched.generateMaterial api parseOutline parseContent answers
      settleOrder w = (Ok content, w') /\
    progressMessages (emitted w w')
    = ["Criando estrutura, capa e sumário..."] ++
      map (fun k =>
             "Escrevendo capítulos " +:+ pretty (k * 3 + 1)%nat +:+ " a "
               +:+ pretty (Nat.min (k * 3 + 3) total) +:+ " de "
               +:+ pretty total +:+ "...")
          (seq 0 ((total + 2) / 3)) ++
      ["Finalizando formatação..."].
Proof.
  intros total Ho Hsettle.
  pose proof (BatchedMore.generateOutline_world _ _ _ _ _ _ Ho) as ->.
  destruct (BatchedMore.batchLoop_trace api parseContent answers settleOrder
              outline Hsettle (S total) 0 []
              (tick (BatchedSpec.started w)))
    as (l & Hrun & _ & Hp); [cbn; lia|].
  eexists _, _. split.
  { eapply BatchedFacts.generateMaterial_collects; [exact Ho|exact Hrun]. }
  unfold BatchedSpec.started, tick, logged. cbn [calls trace].
  rewrite <- !app_assoc, emitted_logged.
  unfold progressMessages in *. rewrite !omap_app, Hp.
  unfold batchMessages, batchCount, Batched.batchSize.
  rewrite Nat.sub_0_r. reflexivity.
Qed.

Lemma batched_progress_witness :
  exists content w',
    Batched.generateMaterial Demo.api Demo.parseOutline Demo.parseContent
      Demo.answers Demo.cFirst Demo.start = (Ok content, w') /\
    progressMessages (emitted Demo.start w')
    = ["Criando estrutura, capa e sumário..."] ++
      map (fun k =>
             "Escrevendo capítulos " +:+ pretty (k * 3 + 1)%nat +:+ " a "
               +:+ pretty (Nat.min (k * 3 + 3) 4) +:+ " de "
               +:+ pretty 4%nat +:+ "...")
          (seq 0 ((4 + 2) / 3)) ++
      ["Finalizando formatação..."].
Proof.
  apply (batched_progress Demo.api Demo.parseOutline
           Demo.parseContent Demo.answers Demo.cFirst Demo.start Demo.outline
           (mkWorld 1 [Progress "Criando estrutura, capa e sumário..."])).
  - vm_compute. reflexivity.
  - exact DemoFacts.cFirst_settles.
Defined.

(** X12.  In the second revision the outline request is sent once and not
    retried: if it is rejected -- be it with a rate-limit error -- the run
    ends at once with the backend's own error, after one request and
    without a pause. *)
Theorem batched_outline_not_retried (api : Api)
    (parseOutline : string -> Settled Reply)
    (parseContent : string -> Settled (option string)) (answers : Answers.t)
    (settleOrder : nat -> list nat) (w : World) (e : JsError) :
  api (calls w) (outlineRequest answers) = Rejected e ->
  exists w',
    Batched.generateMaterial api parseOutline parseContent answers
      settleOrder w = (Throw e, w') /\
    calls w' = S (calls w) /\
    emitted w w' = [Progress "Criando estrutura, capa e sumário..."].
Proof.
  intros He. eexists. split.
  - unfold Batched.generateMaterial, onProgress.
    erewrite bind_ok by reflexivity. apply bind_throw.
    unfold Batched.generateOutline. apply bind_throw.
    unfold await. cbn [calls]. rewrite He. reflexivity.
  - cbn [calls trace]. split; [reflexivity|]. apply emitted_logged.
Qed.

Lemma batched_outline_not_retried_witness :
  exists w',
    Batched.generateMaterial (fun _ _ => Rejected quotaError)
      Demo.parseOutline Demo.parseContent Demo.answers Demo.cFirst Demo.start
    = (Throw quotaError, w') /\
    calls w' = 1%nat /\
    emitted Demo.start w' = [Progress "Criando estrutura, capa e sumário..."].
Proof.
  apply (batched_outline_not_retried (fun _ _ => Rejected quotaError)
           Demo.parseOutline Demo.parseContent Demo.answers Demo.cFirst
           Demo.start quotaError).
  reflexivity.
Defined.

(** X13.  The second revision has no timeout: if one request of the first
    batch never settles, [Promise.all] never resolves and the run never
    returns, whatever becomes of the other requests. *)
Theorem batched_waits_forever (api : Api)
    (parseOutline : string -> Settled Reply)
    (parseContent : string -> Settled (option string)) (answers : Answers.t)
    (settleOrder : nat -> list nat) (w : World) outline w1 (j : nat) :
  let titles := OutlineData.chapterTitles outline in
  Batched.generateOutline api parseOutline answers (BatchedSpec.started w)
  = (Ok (Outline outline), w1) ->
  (j < length (take Batched.batchSize titles))%nat ->
  j ∉ settleOrder 0%nat ->
  exists w',
    Batched.generateMaterial api parseOutline parseContent answers
      settleOrder w = (Pending, w').
Proof.
  intros titles Ho Hj Hnot.
  assert (Hpos : (0 < length titles)%nat).
  { rewrite length_take in Hj. lia. }
  destruct (BatchedMore.promiseAll_pending parseContent
              (BatchedSpec.inFlight api answers outline
                 (calls (logged [Progress (Batched.batchProgress 0
                                             (length titles))] w1))
                 (take Batched.batchSize titles))
              (settleOrder 0%nat)
              {| calls := calls w1 + length (take Batched.batchSize titles);
                 trace := trace w1 ++
                   [Progress (Batched.batchProgress 0 (length titles))] |} j)
    as (w' & Hp).
  { unfold BatchedSpec.inFlight. rewrite length_imap. exact Hj. }
  { exact Hnot. }
  exists w'. unfold Batched.generateMaterial, onProgress.
  erewrite bind_ok by reflexivity. erewrite bind_ok by exact Ho.
  erewrite bind_ok by reflexivity.
  apply bind_pending. unfold Batched.generateChapters.
  cbn [Batched.batchLoop]. fold titles.
  destruct (Nat.ltb_spec 0 (length titles)) as [_|]; [|lia].
  unfold onProgress. erewrite bind_ok by reflexivity.
  erewrite bind_ok by apply BatchedFacts.startBatch_value.
  apply bind_pending. cbn [drop]. exact Hp.
Qed.

Lemma batched_waits_forever_witness :
  exists w',
    Batched.generateMaterial Demo.api Demo.parseOutline Demo.parseContent
      Demo.answers (fun _ => [2; 0]%nat) Demo.start = (Pending, w').
Proof.
  apply (batched_waits_forever Demo.api Demo.parseOutline Demo.parseContent
           Demo.answers (fun _ => [2; 0]%nat) Demo.start Demo.outline
           (mkWorld 1 [Progress "Criando estrutura, capa e sumário..."])
           1%nat).
  - vm_compute. reflexivity.
  - cbn. lia.
  - intros H. apply elem_of_cons in H as [H|H]; [discriminate|].
    apply elem_of_cons in H as [H|H]; [discriminate|]. inversion H.
Defined.

(** ** More on the PDF helpers *)

Module PdfMore.
Import Pdf PdfSpec.

Lemma ascii_below (c : ascii) : (nat_of_ascii c < 256)%nat.
Proof. destruct c as [[] [] [] [] [] [] [] []]; vm_compute; lia. Qed.

(** Checked on each of the 65536 pairs of code units. *)
Lemma readsByte_all :
  forallb (fun n1 =>
             forallb (fun n2 => readsByte (ascii_of_nat n1) (ascii_of_nat n2))
                     (seq 0 256))
          (seq 0 256) = true.
Proof. vm_compute. reflexivity. Qed.

Lemma readsByte_any (c1 c2 : ascii) : readsByte c1 c2 = true.
Proof.
  pose proof readsByte_all as H.
  rewrite forallb_forall in H.
  specialize (H (nat_of_ascii c1)).
  rewrite forallb_forall in H.
  rewrite <- (ascii_nat_embedding c1), <- (ascii_nat_embedding c2).
  apply H; apply in_seq; pose proof (ascii_below c1);
    pose proof (ascii_below c2); lia.
Qed.

Lemma parse_pair (c1 c2 : ascii) :
  isHex c1 = true -> isHex c2 = true ->
  Js.parseInt16 (pair c1 c2) = Js.Int (byteOf c1 c2) /\
  0 <= byteOf c1 c2 <= 255.
Proof.
  intros H1 H2. pose proof (readsByte_any c1 c2) as H.
  unfold readsByte in H. rewrite H1, H2 in H. cbn [andb implb] in H.
  destruct (Js.parseInt16 (pair c1 c2)) as [|v]; [discriminate|].
  apply andb_true_iff in H as [H Hhi]. apply andb_true_iff in H as [Hv Hlo].
  apply Z.eqb_eq in Hv. subst v. split; [reflexivity|]. lia.
Qed.

(** X14.  A colour in the documented form, [#] and six base-16 digits in
    either letter case, is read channel by channel as the three bytes it
    writes: no channel is [NaN], each lies between 0 and 255. *)
Theorem hexToRgb_valid (h : string) :
  validHex h = true ->
  exists c1 c2 c3 c4 c5 c6,
    h = String "#" (pair c1 c2 +:+ pair c3 c4 +:+ pair c5 c6) /\
    hexToRgb (Some h)
    = {| r := Js.Int (byteOf c1 c2); g := Js.Int (byteOf c3 c4);
         b := Js.Int (byteOf c5 c6) |} /\
    0 <= byteOf c1 c2 <= 255 /\ 0 <= byteOf c3 c4 <= 255 /\
    0 <= byteOf c5 c6 <= 255.
Proof.
  intros Hv. unfold validHex in Hv.
  destruct h as [|c0 h]; [discriminate|].
  destruct (ascii_dec c0 "#") as [->|Hne].
  2:{ exfalso. destruct c0 as [[] [] [] [] [] [] [] []];
        try discriminate Hv; apply Hne; reflexivity. }
  apply andb_true_iff in Hv as [Hlen Hhex].
  destruct h as [|c1 [|c2 [|c3 [|c4 [|c5 [|c6 [|c7 h]]]]]]]; try discriminate Hlen.
  cbn [allHex] in Hhex.
  repeat (apply andb_true_iff in Hhex as [?Hd Hhex]).
  destruct (parse_pair c1 c2) as [P1 R1]; [assumption..|].
  destruct (parse_pair c3 c4) as [P2 R2]; [assumption..|].
  destruct (parse_pair c5 c6) as [P3 R3]; [assumption..|].
  exists c1, c2, c3, c4, c5, c6. split; [reflexivity|].
  split; [|split; [exact R1|split; [exact R2|exact R3]]].
  unfold hexToRgb. cbn [Js.truthy Js.startsWith String.prefix negb orb].
  change (Js.slice 1 3 (String "#" (String c1 (String c2 (String c3
            (String c4 (String c5 (String c6 EmptyString))))))))
    with (pair c1 c2).
  change (Js.slice 3 5 (String "#" (String c1 (String c2 (String c3
            (String c4 (String c5 (String c6 EmptyString))))))))
    with (pair c3 c4).
  change (Js.slice 5 7 (String "#" (String c1 (String c2 (String c3
            (String c4 (String c5 (String c6 EmptyString))))))))
    with (pair c5 c6).
  rewrite P1, P2, P3. reflexivity.
Qed.

Lemma hexToRgb_valid_witness :
  exists c1 c2 c3 c4 c5 c6,
    "#0Fa3C9" = String "#" (pair c1 c2 +:+ pair c3 c4 +:+ pair c5 c6) /\
    hexToRgb (Some "#0Fa3C9")
    = {| r := Js.Int (byteOf c1 c2); g := Js.Int (byteOf c3 c4);
         b := Js.Int (byteOf c5 c6) |} /\
    0 <= byteOf c1 c2 <= 255 /\ 0 <= byteOf c3 c4 <= 255 /\
    0 <= byteOf c5 c6 <= 255.
Proof. apply (hexToRgb_valid "#0Fa3C9"). reflexivity. Defined.

Lemma slice_beyond (h : string) :
  (String.length h <= 5)%nat -> Js.slice 5 7 h = EmptyString.
Proof.
  destruct h as [|c0 [|c1 [|c2 [|c3 [|c4 [|c5 h]]]]]]; cbn; intros H;
    try reflexivity; lia.
Qed.

(** X15.  A colour that starts with [#] but is too short to hold a blue
    channel (five characters or fewer, such as the three-digit form) is
    not given the fallback: its blue channel is [NaN]. *)
Theorem hexToRgb_short (h : string) :
  Js.startsWith "#" h = true ->
  (String.length h <= 5)%nat ->
  b (hexToRgb (Some h)) = Js.NaN /\ hexToRgb (Some h) <> fallback.
Proof.
  intros Hs Hlen.
  assert (Hb : b (hexToRgb (Some h)) = Js.NaN).
  { unfold hexToRgb. rewrite Hs.
    destruct h as [|c h]; [discriminate|].
    cbn [Js.truthy negb orb b]. rewrite slice_beyond by assumption.
    reflexivity. }
  split; [exact Hb|]. intros Heq. rewrite Heq in Hb. discriminate.
Qed.

Lemma hexToRgb_short_witness :
  b (hexToRgb (Some "#fa0")) = Js.NaN /\ hexToRgb (Some "#fa0") <> fallback.
Proof. apply (hexToRgb_short "#fa0"); [reflexivity|cbn; lia]. Defined.

End PdfMore.

(** ** The application of the first revision *)

Module AppFacts.
Import ThrottledApp AppSpec.

Lemma paramsGet_set name value ps :
  paramsGet name (paramsSet name value ps) = Some value.
Proof.
  induction ps as [|[n v] ps IH]; cbn [paramsSet paramsGet].
  - rewrite String.eqb_refl. reflexivity.
  - destruct (String.eqb n name) eqn:E; cbn [paramsGet].
    + rewrite String.eqb_refl. reflexivity.
    + rewrite E. exact IH.
Qed.


(** The address made by [createSimulatedSession] is one that
    [verifySimulatedPayment] accepts. *)
Lemma session_accepted current randomSuffix w :
  exists url,
    createSimulatedSession current randomSuffix w
    = (Ok url, logged [Sleep 1500] w) /\
    paramsGet "session_id" (search url)
    = Some ("demo_session_" +:+ randomSuffix).
Proof.
  eexists. split; [reflexivity|]. cbn [search]. apply paramsGet_set.
Qed.

Section Reachable.
Variable api : Api.
Variable parseOutline : string -> Settled Reply.
Variable parseContent : string -> Settled (option string).

Local Abbreviation complete :=
  (handleWizardComplete api parseOutline parseContent).
Local Abbreviation handle := (AppSpec.handle api parseOutline parseContent).
Local Abbreviation run := (AppSpec.run api parseOutline parseContent).

(** The page that [handleWizardComplete] leaves while it waits. *)
Lemma complete_page finalAnswers p :
  complete finalAnswers p
  = mkPage
      (mkState Generating (Some finalAnswers) (content (state p))
         "Iniciando a inteligência artificial..."
         (showPayment (state p)) (isPaid (state p))
         (verifyingPayment (state p)))
      (match content (state p) with
       | Some c => Some (mkBackup finalAnswers c)
       | None => storage p
       end)
      (effects p)
      (Throttled.generateMaterial api parseOutline parseContent finalAnswers
         (world p)).2
      (running p ++
       [(Throttled.generateMaterial api parseOutline parseContent finalAnswers
           (world p)).1]).
Proof.
  unfold handleWizardComplete, saveEffect, update, setLoadingMessage, setView,
    setAnswers.
  cbn [state content answers storage effects world running loadingMessage
       showPayment isPaid verifyingPayment view].
  destruct (content (state p)) as [c|];
    cbn [state content answers storage effects world running];
    destruct (Throttled.generateMaterial api parseOutline parseContent
                finalAnswers (world p)) as [o w']; reflexivity.
Qed.

(** The page after the rest of [handleWizardComplete] has run, for a call
    that returned and for one that threw. *)
Lemma resume_returned k p data :
  running p !! k = Some (Ok data) ->
  resume k p
  = mkPage
      (mkState Result (answers (state p)) (Some data)
         (loadingMessage (state p)) (showPayment (state p))
         (isPaid (state p)) (verifyingPayment (state p)))
      (match answers (state p) with
       | Some a => Some (mkBackup a data)
       | None => storage p
       end)
      (effects p) (world p) (delete k (running p)).
Proof.
  intros H. unfold resume. rewrite H.
  unfold saveEffect, update, setView, setContent.
  cbn [state content answers storage effects world running loadingMessage
       showPayment isPaid verifyingPayment view].
  destruct (answers (state p)); reflexivity.
Qed.

Lemma resume_threw k p e :
  running p !! k = Some (Throw e) ->
  resume k p
  = mkPage
      (mkState Landing (answers (state p)) (content (state p))
         (loadingMessage (state p)) (showPayment (state p))
         (isPaid (state p)) (verifyingPayment (state p)))
      (storage p)
      (effects p ++ [LogError e; Alert (failureAlert e)])
      (world p) (delete k (running p)).
Proof. intros H. unfold resume. rewrite H. reflexivity. Qed.

Lemma resume_waiting k p :
  running p !! k = Some Pending \/ running p !! k = None -> resume k p = p.
Proof. intros [H|H]; unfold resume; rewrite H; reflexivity. Qed.

Lemma load_cases saved address w :
  (verified address = false \/ verified address = true) /\
  isPaid (state (load saved address w)) = verified address /\
  content (state (load saved address w))
  = (if verified address then savedContent <$> saved else None) /\
  answers (state (load saved address w))
  = (if verified address then savedAnswers <$> saved else None) /\
  storage (load saved address w) = saved /\
  (forall data, CreatePDF data ∉ effects (load saved address w)).
Proof.
  split; [destruct (verified address); auto|].
  unfold load, verified.
  destruct (paramsGet "session_id" (search address)) as [sid|].
  2:{ cbn. repeat split; try reflexivity. intros data H. inversion H. }
  destruct sid as [|c sid].
  { cbn. repeat split; try reflexivity. intros data H. inversion H. }
  cbn [Js.truthy negb]. unfold verifySimulatedPayment, sleep, bind, ret, emit.
  cbn [fst snd].
  destruct (Js.startsWith "demo_session_" (String c sid)).
  - destruct saved as [[a d]|]; cbn; repeat split; try reflexivity;
      intros data H; apply list_elem_of_singleton in H; discriminate.
  - cbn. repeat split; try reflexivity.
    intros data H; apply list_elem_of_singleton in H; discriminate.
Qed.

Lemma resume_entitled address k p :
  entitled address p -> entitled address (resume k p).
Proof.
  intros [Hpaid Hpdf].
  destruct (running p !! k) as [[data|e|]|] eqn:E.
  - rewrite (resume_returned k p data E). split; [exact Hpaid|exact Hpdf].
  - rewrite (resume_threw k p e E). split; [exact Hpaid|].
    cbn [effects]. intros data Hin.
    apply elem_of_app in Hin as [Hin|Hin]; [eauto|].
    apply elem_of_cons in Hin as [Hin|Hin]; [discriminate|].
    apply list_elem_of_singleton in Hin. discriminate.
  - rewrite resume_waiting by auto. split; assumption.
  - rewrite resume_waiting by auto. split; assumption.
Qed.

Lemma handle_entitled address a p :
  entitled address p -> entitled address (handle a p).
Proof.
  intros [Hpaid Hpdf].
  destruct a as [|fa| |c| |cur suf|msg|k]; cbn [AppSpec.handle].
  - split; [exact Hpaid|exact Hpdf].
  - rewrite complete_page. split; [exact Hpaid|exact Hpdf].
  - unfold handleDownload. destruct (negb (isPaid (state p))) eqn:E.
    + split; [exact Hpaid|exact Hpdf].
    + apply negb_false_iff in E.
      destruct (content (state p)) as [d|]; [|split; assumption].
      split; cbn; [exact Hpaid|].
      intros data Hin. apply elem_of_app in Hin as [Hin|Hin]; eauto.
  - unfold reset. destruct c; split; cbn; try discriminate; try exact Hpaid;
      intros data Hin; apply elem_of_app in Hin as [Hin|Hin]; eauto;
      apply list_elem_of_singleton in Hin; discriminate.
  - split; [exact Hpaid|exact Hpdf].
  - unfold handleCheckout.
    destruct (session_accepted cur suf (world p)) as (url & H & _).
    rewrite H. split; cbn; [exact Hpaid|].
    intros data Hin. apply elem_of_app in Hin as [Hin|Hin]; eauto.
    apply list_elem_of_singleton in Hin. discriminate.
  - split; [exact Hpaid|exact Hpdf].
  - apply resume_entitled. split; assumption.
Qed.


Lemma run_inv (I : Page -> Prop) :
  (forall a p, I p -> I (handle a p)) ->
  forall l p, I p -> I (run l p).
Proof.
  intros Hstep l. induction l as [|a l IH]; intros p Hp; [exact Hp|].
  cbn [AppSpec.run fold_left]. apply IH, Hstep, Hp.
Qed.

Lemma load_entitled saved address w :
  entitled address (load saved address w).
Proof.
  destruct (load_cases saved address w) as (_ & Hpaid & _ & _ & _ & Hpdf).
  split; [congruence|]. intros data Hin. destruct (Hpdf data Hin).
Qed.


End Reachable.

End AppFacts.

(** X16.  Completing the questionnaire takes two steps, between which the
    page goes on handling events.  The first leaves the page in the
    generating view with the new answers and the book it had before, and
    with the call of [generateMaterial] to wait for.  When that call
    returns, the book is shown in the result view, and a copy of it is
    stored with the answers the page holds at that time -- if it holds
    none (a [reset] has come between), nothing is stored; nothing is
    alerted.  When it throws, the page goes to the landing view with the
    book it has, and the user is alerted with the message of the error
    thrown: the text of the connection error, or that of the error of
    reading the titles of an outline that has none.  While it does
    neither, nothing happens.  The paid flag is never touched. *)
Theorem app_generation_outcome (api : Api)
    (parseOutline : string -> Settled Reply)
    (parseContent : string -> Settled (option string)) (finalAnswers : Answers.t)
    (p q : ThrottledApp.Page) (k : nat) :
  let p1 :=
    ThrottledApp.handleWizardComplete api parseOutline parseContent
      finalAnswers p in
  let o :=
    (Throttled.generateMaterial api parseOutline parseContent finalAnswers
       (ThrottledApp.world p)).1 in
  let q' := ThrottledApp.resume k q in
  ThrottledApp.running q !! k = Some o ->
  (ThrottledApp.view (ThrottledApp.state p1) = ThrottledApp.Generating /\
   ThrottledApp.answers (ThrottledApp.state p1) = Some finalAnswers /\
   ThrottledApp.content (ThrottledApp.state p1)
   = ThrottledApp.content (ThrottledApp.state p) /\
   ThrottledApp.isPaid (ThrottledApp.state p1)
   = ThrottledApp.isPaid (ThrottledApp.state p) /\
   ThrottledApp.effects p1 = ThrottledApp.effects p /\
   ThrottledApp.running p1 = ThrottledApp.running p ++ [o]) /\
  ThrottledApp.isPaid (ThrottledApp.state q')
  = ThrottledApp.isPaid (ThrottledApp.state q) /\
  ThrottledApp.answers (ThrottledApp.state q')
  = ThrottledApp.answers (ThrottledApp.state q) /\
  match o with
  | Ok data =>
      ThrottledApp.view (ThrottledApp.state q') = ThrottledApp.Result /\
      ThrottledApp.content (ThrottledApp.state q') = Some data /\
      ThrottledApp.storage q'
      = match ThrottledApp.answers (ThrottledApp.state q) with
        | Some a => Some (ThrottledApp.mkBackup a data)
        | None => ThrottledApp.storage q
        end /\
      ThrottledApp.effects q' = ThrottledApp.effects q
  | Throw e =>
      ThrottledApp.view (ThrottledApp.state q') = ThrottledApp.Landing /\
      ThrottledApp.content (ThrottledApp.state q')
      = ThrottledApp.content (ThrottledApp.state q) /\
      ThrottledApp.storage q' = ThrottledApp.storage q /\
      ThrottledApp.effects q'
      = ThrottledApp.effects q ++
        [ThrottledApp.LogError e;
         ThrottledApp.Alert (ThrottledApp.failureAlert e)] /\
      ((e = connectionError /\
        ThrottledApp.failureAlert e
        = "Erro: Não foi possível conectar à IA. Verifique sua chave de API ou tente novamente.")
       \/
       exists w1,
         Throttled.generateOutline api parseOutline finalAnswers
           (ThrottledSpec.started (ThrottledApp.world p))
         = (Ok (Unreadable e), w1))
  | Pending => q' = q
  end.
Proof.
  intros p1 o q' Hk. subst p1 q'. split.
  { rewrite AppFacts.complete_page. repeat split. }
  destruct o as [data|e|] eqn:Ho.
  - rewrite (AppFacts.resume_returned k q data Hk). repeat split.
  - rewrite (AppFacts.resume_threw k q e Hk).
    split; [reflexivity|]. split; [reflexivity|]. repeat split.
    subst o.
    destruct (Throttled.generateMaterial api parseOutline parseContent
                finalAnswers (ThrottledApp.world p)) as [o' w'] eqn:Hrun.
    cbn [fst] in Ho. subst o'.
    destruct (ThrottledMore.material_throws api parseOutline parseContent
                finalAnswers (ThrottledApp.world p) e w' Hrun)
      as (_ & [(-> & _)|Hu]).
    + left. split; reflexivity.
    + right. exists w'. exact Hu.
  - rewrite AppFacts.resume_waiting by auto. repeat split.
Qed.

Lemma app_generation_outcome_witness :
  let p1 :=
    ThrottledApp.handleWizardComplete DemoBare.bareOutline
      DemoBare.parseOutline Demo.parseContent Demo.answers
      (ThrottledApp.load None DemoApp.home Demo.start) in
  let q' := ThrottledApp.resume 0 p1 in
  (ThrottledApp.view (ThrottledApp.state p1) = ThrottledApp.Generating /\
   ThrottledApp.answers (ThrottledApp.state p1) = Some Demo.answers /\
   ThrottledApp.content (ThrottledApp.state p1) = None /\
   ThrottledApp.isPaid (ThrottledApp.state p1) = false /\
   ThrottledApp.effects p1 = [] /\
   ThrottledApp.running p1 = [] ++ [Throw DemoBare.noTitles]) /\
  ThrottledApp.isPaid (ThrottledApp.state q')
  = ThrottledApp.isPaid (ThrottledApp.state p1) /\
  ThrottledApp.answers (ThrottledApp.state q')
  = ThrottledApp.answers (ThrottledApp.state p1) /\
  ThrottledApp.view (ThrottledApp.state q') = ThrottledApp.Landing /\
  ThrottledApp.content (ThrottledApp.state q')
  = ThrottledApp.content (ThrottledApp.state p1) /\
  ThrottledApp.storage q' = ThrottledApp.storage p1 /\
  ThrottledApp.effects q'
  = ThrottledApp.effects p1 ++
    [ThrottledApp.LogError DemoBare.noTitles;
     ThrottledApp.Alert (ThrottledApp.failureAlert DemoBare.noTitles)] /\
  ((DemoBare.noTitles = connectionError /\
    ThrottledApp.failureAlert DemoBare.noTitles
    = "Erro: Não foi possível conectar à IA. Verifique sua chave de API ou tente novamente.")
   \/
   exists w1,
     Throttled.generateOutline DemoBare.bareOutline DemoBare.parseOutline
       Demo.answers (ThrottledSpec.started Demo.start)
     = (Ok (Unreadable DemoBare.noTitles), w1)).
Proof.
  apply (app_generation_outcome DemoBare.bareOutline DemoBare.parseOutline
           Demo.parseContent Demo.answers
           (ThrottledApp.load None DemoApp.home Demo.start)
           (ThrottledApp.handleWizardComplete DemoBare.bareOutline
              DemoBare.parseOutline Demo.parseContent Demo.answers
              (ThrottledApp.load None DemoApp.home Demo.start))
           0%nat).
  vm_compute. reflexivity.
Defined.

(** X17.  No PDF without an accepted session: if, at any time after the
    page was loaded, [createPDF] has been called, then the address the
    page was loaded at carried a session id beginning with
    [demo_session_]. *)
Theorem pdf_needs_accepted_session (api : Api)
    (parseOutline : string -> Settled Reply)
    (parseContent : string -> Settled (option string))
    (saved : option ThrottledApp.Backup) (address : Url) (w : World)
    (actions : list AppSpec.Action)
    (data : ContentData.t Throttled.Chapter) :
  ThrottledApp.CreatePDF data
  ∈ ThrottledApp.effects
      (AppSpec.run api parseOutline parseContent actions
         (ThrottledApp.load saved address w)) ->
  AppSpec.verified address = true.
Proof.
  intros Hin.
  destruct (AppFacts.run_inv api parseOutline parseContent
              (AppSpec.entitled address)
              (AppFacts.handle_entitled api parseOutline parseContent address)
              actions (ThrottledApp.load saved address w)
              (AppFacts.load_entitled saved address w)) as [_ Hpdf].
  exact (Hpdf data Hin).
Qed.

Lemma pdf_needs_accepted_session_witness :
  AppSpec.verified DemoApp.paid = true.
Proof.
  apply (pdf_needs_accepted_session Demo.api Demo.parseOutline
           Demo.parseContent
           (Some (ThrottledApp.mkBackup Demo.answers DemoApp.book))
           DemoApp.paid Demo.start [AppSpec.Download] DemoApp.book).
  vm_compute. repeat constructor.
Defined.



(** X19.  The stored book is shown again exactly on an accepted return
    from the payment.  A page loaded at an address without a session id
    that begins with [demo_session_] is unpaid and shows no book, whatever
    the storage holds; at an address with one it is paid and shows what
    the storage holds, if anything.  Loading never changes the storage. *)
Theorem backup_shown_iff_accepted (saved : option ThrottledApp.Backup)
    (address : Url) (w : World) :
  let p := ThrottledApp.load saved address w in
  ThrottledApp.isPaid (ThrottledApp.state p) = AppSpec.verified address /\
  ThrottledApp.content (ThrottledApp.state p)
  = (if AppSpec.verified address
     then ThrottledApp.savedContent <$> saved else None) /\
  ThrottledApp.storage p = saved.
Proof.
  destruct (AppFacts.load_cases saved address w)
    as (_ & Hpaid & Hc & _ & Hs & _).
  repeat split; assumption.
Qed.

(** X20.  A confirmed [reset] forgets everything: the page is at the
    landing view, unpaid and without a book, and the storage is empty, so
    that no later return from a payment brings the book back.  A declined
    one changes neither the state nor the storage. *)
Theorem reset_forgets_book (p : ThrottledApp.Page) (address : Url)
    (w : World) :
  ThrottledApp.state (ThrottledApp.reset true p)
  = ThrottledApp.mkState ThrottledApp.Landing None None
      (ThrottledApp.loadingMessage (ThrottledApp.state p))
      (ThrottledApp.showPayment (ThrottledApp.state p)) false
      (ThrottledApp.verifyingPayment (ThrottledApp.state p)) /\
  ThrottledApp.content
    (ThrottledApp.state
       (ThrottledApp.load (ThrottledApp.storage (ThrottledApp.reset true p))
          address w)) = None /\
  ThrottledApp.state (ThrottledApp.reset false p) = ThrottledApp.state p /\
  ThrottledApp.storage (ThrottledApp.reset false p) = ThrottledApp.storage p.
Proof.
  split; [reflexivity|]. split; [|split; reflexivity].
  destruct (AppFacts.load_cases
              (ThrottledApp.storage (ThrottledApp.reset true p)) address w)
    as (_ & _ & Hc & _).
  rewrite Hc. destruct (AppSpec.verified address); reflexivity.
Qed.



(** ** The questionnaire *)

Module WizardFacts.
Import StepWizard WizardSpec.

Lemma asked_cases s k :
  asked s = Some k ->
  2 <= s <= 5 /\ k <> What /\ (5 <= s -> k = Level).
Proof.
  unfold asked.
  destruct (Z.eqb_spec s 2);
    [intros [= <-]; split; [lia|split; [discriminate|intros ?; lia]]|].
  destruct (Z.eqb_spec s 3);
    [intros [= <-]; split; [lia|split; [discriminate|intros ?; lia]]|].
  destruct (Z.eqb_spec s 4);
    [intros [= <-]; split; [lia|split; [discriminate|intros ?; lia]]|].
  destruct (Z.eqb_spec s 5);
    [intros [= <-]; split; [lia|split; [discriminate|reflexivity]]|].
  discriminate.
Qed.

Lemma withAnswer_what k v a :
  k <> What -> Answers.what (withAnswer k v a) = Answers.what a.
Proof. destruct k; [congruence|reflexivity..]. Qed.

Lemma initial_sound : sound initial.
Proof.
  repeat split; cbn; try lia; constructor.
Qed.

Lemma handle_sound a wz : sound wz -> sound (handle a wz).
Proof.
  intros Hs. pose proof Hs as (Hstep & Hone & Hwhat & Htimers & Hdone).
  assert (Hnext : step (state wz) = 1 ->
          Js.truthy (Answers.what (answers (state wz))) = true ->
          sound (nextStep wz)).
  { intros H1 Htr. unfold nextStep. rewrite H1. cbn.
    repeat split; cbn; try lia; try assumption. intros _. exact Htr. }
  destruct a as [text| | |i|]; cbn [handle].
  - destruct (Z.eqb_spec (step (state wz)) 1) as [H1|H1]; [|exact Hs].
    repeat split; cbn; try assumption. intros H. contradiction.
  - destruct (Z.eqb_spec (step (state wz)) 1) as [H1|H1]; cbn [andb];
      [|exact Hs].
    destruct (Js.truthy _) eqn:Htr; [auto|exact Hs].
  - destruct (Z.eqb_spec (step (state wz)) 1) as [H1|H1]; cbn [andb];
      [|exact Hs].
    destruct (Js.truthy _) eqn:Htr; [auto|exact Hs].
  - destruct (asked (step (state wz))) as [k|] eqn:Hk; [|exact Hs].
    destruct (options k !! i) as [v|] eqn:Hv; [|exact Hs].
    destruct (asked_cases _ _ Hk) as (Hrange & Hnot & _).
    assert (Htr : Js.truthy (Answers.what (answers (state wz))) = true)
      by (apply Hwhat; lia).
    assert (Hnew : Forall timerSet (timers wz ++ [mkTimer (state wz) k v])).
    { apply Forall_app. split; [assumption|]. constructor; [|constructor].
      repeat split; cbn; [assumption| |assumption].
      apply (list_elem_of_lookup_2 _ i). exact Hv. }
    unfold updateAnswer. split; [exact Hstep|]. split; [cbn; lia|].
    split; [intros _; cbn; rewrite withAnswer_what by assumption; exact Htr|].
    split; [|exact Hdone].
    cbn [timers]. destruct k; [congruence|exact Hnew..].
  - destruct (timers wz) as [|t rest] eqn:Ht; [exact Hs|].
    apply Forall_cons in Htimers as [(Hk & Hv & Htr) Hrest].
    assert (Hne : step (state wz) <> 1)
      by (intros H; specialize (Hone H); discriminate).
    unfold fire, sound. destruct (Z.ltb_spec (step (seen t)) 5) as [Hlt|Hge];
      cbn [state timers completed step answers].
    + split; [lia|]. split; [intros H; lia|].
      split; [intros _; apply Hwhat, Hne|]. split; assumption.
    + split; [exact Hstep|]. split; [intros H; contradiction|].
      split; [exact Hwhat|]. split; [exact Hrest|].
      apply Forall_app. split; [assumption|]. constructor; [|constructor].
      destruct (asked_cases _ _ Hk) as (_ & Hnot & Hlevel).
      rewrite (Hlevel Hge) in *. split; cbn; assumption.
Qed.

Lemma run_sound l : forall wz, sound wz -> sound (run l wz).
Proof.
  induction l as [|a l IH]; intros wz H; [exact H|].
  cbn [run fold_left]. apply IH, handle_sound, H.
Qed.

(** The component after the questionnaire has been filled in at
    leisure. *)
Lemma orderly_run (text who place objective level : string)
    (i j k l : nat) :
  Js.truthy text = true ->
  options Who !! i = Some who ->
  options Where !! j = Some place ->
  options Objective !! k = Some objective ->
  options Level !! l = Some level ->
  run (orderly text i j k l) initial
  = mkWizard (mkState 5 (Answers.mk text who place objective level)) []
      [Answers.mk text who place objective level].
Proof.
  intros Htr Hi Hj Hk Hl.
  pose (e := EmptyString).
  assert (H1 : handle (Typed text) initial
               = mkWizard (mkState 1 (Answers.mk text e e e e)) [] [])
    by reflexivity.
  assert (H2 : handle ClickContinue
                 (mkWizard (mkState 1 (Answers.mk text e e e e)) [] [])
               = mkWizard (mkState 2 (Answers.mk text e e e e)) [] [])
    by (cbn; rewrite Htr; reflexivity).
  assert (H3 : handle Elapse
                 (handle (Choose i)
                    (mkWizard (mkState 2 (Answers.mk text e e e e)) [] []))
               = mkWizard (mkState 3 (Answers.mk text who e e e)) [] [])
    by (cbn [handle state step asked Z.eqb Pos.eqb]; rewrite Hi;
        reflexivity).
  assert (H4 : handle Elapse
                 (handle (Choose j)
                    (mkWizard (mkState 3 (Answers.mk text who e e e)) [] []))
               = mkWizard (mkState 4 (Answers.mk text who place e e)) [] [])
    by (cbn [handle state step asked Z.eqb Pos.eqb]; rewrite Hj;
        reflexivity).
  assert (H5 : handle Elapse
                 (handle (Choose k)
                    (mkWizard (mkState 4 (Answers.mk text who place e e))
                       [] []))
               = mkWizard (mkState 5 (Answers.mk text who place objective e))
                   [] [])
    by (cbn [handle state step asked Z.eqb Pos.eqb]; rewrite Hk;
        reflexivity).
  assert (H6 : handle Elapse
                 (handle (Choose l)
                    (mkWizard
                       (mkState 5 (Answers.mk text who place objective e))
                       [] []))
               = mkWizard
                   (mkState 5 (Answers.mk text who place objective level)) []
                   [Answers.mk text who place objective level])
    by (cbn [handle state step asked Z.eqb Pos.eqb]; rewrite Hl;
        reflexivity).
  unfold run, orderly. cbn [fold_left].
  rewrite H1, H2, H3, H4, H5, H6. reflexivity.
Qed.

End WizardFacts.

(** X21.  Filling in the questionnaire at leisure (the subject, the
    button, then for each question a click on one option and the wait for
    its timer) hands over the answers exactly once, and they are the
    subject typed and the four options clicked. *)
Theorem wizard_orderly (text who place objective level : string)
    (i j k l : nat) :
  Js.truthy text = true ->
  StepWizard.options StepWizard.Who !! i = Some who ->
  StepWizard.options StepWizard.Where !! j = Some place ->
  StepWizard.options StepWizard.Objective !! k = Some objective ->
  StepWizard.options StepWizard.Level !! l = Some level ->
  StepWizard.completed
    (StepWizard.run (WizardSpec.orderly text i j k l) StepWizard.initial)
  = [Answers.mk text who place objective level] /\
  StepWizard.timers
    (StepWizard.run (WizardSpec.orderly text i j k l) StepWizard.initial)
  = [] /\
  WizardSpec.complete (Answers.mk text who place objective level).
Proof.
  intros Htr Hi Hj Hk Hl.
  rewrite (WizardFacts.orderly_run text who place objective level i j k l)
    by assumption.
  split; [reflexivity|]. split; [reflexivity|].
  repeat split; cbn; try assumption;
    eapply list_elem_of_lookup_2; eassumption.
Qed.

Lemma wizard_orderly_witness :
  StepWizard.completed
    (StepWizard.run (WizardSpec.orderly "bolos caseiros" 0 1 0 2)
       StepWizard.initial)
  = [Answers.mk "bolos caseiros" "Clientes" "E-book (PDF)" "Vender"
       "Avançado"] /\
  StepWizard.timers
    (StepWizard.run (WizardSpec.orderly "bolos caseiros" 0 1 0 2)
       StepWizard.initial)
  = [] /\
  WizardSpec.complete
    (Answers.mk "bolos caseiros" "Clientes" "E-book (PDF)" "Vender"
       "Avançado").
Proof.
  apply (wizard_orderly "bolos caseiros" "Clientes" "E-book (PDF)" "Vender"
           "Avançado" 0 1 0 2); reflexivity.
Defined.

(** X22.  Whatever is typed and clicked, and however the clicks fall
    between the timers, answers that are handed over have a subject that
    is not empty and a level that is one of the three offered. *)
Theorem wizard_hands_over_subject_and_level
    (actions : list StepWizard.Action) (a : Answers.t) :
  a ∈ StepWizard.completed (StepWizard.run actions StepWizard.initial) ->
  Js.truthy (Answers.what a) = true /\
  Answers.level a ∈ StepWizard.options StepWizard.Level.
Proof.
  intros Hin.
  destruct (WizardFacts.run_sound actions StepWizard.initial
              WizardFacts.initial_sound) as (_ & _ & _ & _ & Hdone).
  rewrite Forall_forall in Hdone. exact (Hdone a Hin).
Qed.

Lemma wizard_hands_over_subject_and_level_witness :
  Js.truthy "bolos caseiros" = true /\
  "Avançado" ∈ StepWizard.options StepWizard.Level.
Proof.
  apply (wizard_hands_over_subject_and_level
           (WizardSpec.orderly "bolos caseiros" 0 1 0 2)
           (Answers.mk "bolos caseiros" "Clientes" "E-book (PDF)" "Vender"
              "Avançado")).
  vm_compute. repeat constructor.
Defined.

(** X23.  Two clicks on one question before its timer has run skip the
    next question: from a step between 2 and 4 with no timer pending, two
    clicks and the two timers leave the component two steps further, with
    the second option clicked as the answer and every other answer as it
    was, and hand nothing over.  From step 4 that is step 6, where
    nothing is shown and nothing that is done changes the component any
    more. *)
Theorem wizard_double_click_skips (wz : StepWizard.Wizard)
    (key : StepWizard.Key) (i j : nat) (first second : string) :
  2 <= StepWizard.step (StepWizard.state wz) <= 4 ->
  StepWizard.timers wz = [] ->
  StepWizard.asked (StepWizard.step (StepWizard.state wz)) = Some key ->
  StepWizard.options key !! i = Some first ->
  StepWizard.options key !! j = Some second ->
  let wz' :=
    StepWizard.run
      [StepWizard.Choose i; StepWizard.Choose j; StepWizard.Elapse;
       StepWizard.Elapse] wz in
  wz' = StepWizard.mkWizard
          (StepWizard.mkState (StepWizard.step (StepWizard.state wz) + 2)
             (StepWizard.withAnswer key second
                (StepWizard.withAnswer key first
                   (StepWizard.answers (StepWizard.state wz)))))
          [] (StepWizard.completed wz) /\
  (StepWizard.step (StepWizard.state wz) = 4 ->
   forall actions, StepWizard.run actions wz' = wz').
Proof.
  intros Hrange Ht Hk Hi Hj wz'.
  assert (Hnot : key <> StepWizard.What)
    by (destruct (WizardFacts.asked_cases _ _ Hk) as (_ & H & _); exact H).
  destruct wz as [[s a] ts done].
  cbn [StepWizard.state StepWizard.step StepWizard.timers StepWizard.answers
       StepWizard.completed] in *.
  subst ts.
  assert (Hlt : (s <? 5) = true) by (apply Z.ltb_lt; lia).
  pose (a1 := StepWizard.withAnswer key first a).
  pose (a2 := StepWizard.withAnswer key second a1).
  pose (t1 := StepWizard.mkTimer (StepWizard.mkState s a) key first).
  pose (t2 := StepWizard.mkTimer (StepWizard.mkState s a1) key second).
  assert (H1 : StepWizard.handle (StepWizard.Choose i)
                 (StepWizard.mkWizard (StepWizard.mkState s a) [] done)
               = StepWizard.mkWizard (StepWizard.mkState s a1) [t1] done).
  { cbn [StepWizard.handle StepWizard.state StepWizard.step].
    rewrite Hk, Hi. unfold StepWizard.updateAnswer.
    destruct key; [congruence|reflexivity..]. }
  assert (H2 : StepWizard.handle (StepWizard.Choose j)
                 (StepWizard.mkWizard (StepWizard.mkState s a1) [t1] done)
               = StepWizard.mkWizard (StepWizard.mkState s a2) [t1; t2] done).
  { cbn [StepWizard.handle StepWizard.state StepWizard.step].
    rewrite Hk, Hj. unfold StepWizard.updateAnswer.
    destruct key; [congruence|reflexivity..]. }
  assert (H3 : StepWizard.handle StepWizard.Elapse
                 (StepWizard.mkWizard (StepWizard.mkState s a2) [t1; t2] done)
               = StepWizard.mkWizard (StepWizard.mkState (s + 1) a2) [t2]
                   done).
  { cbn [StepWizard.handle StepWizard.timers]. unfold StepWizard.fire.
    cbn [t1 StepWizard.seen StepWizard.step]. rewrite Hlt. reflexivity. }
  assert (H4 : StepWizard.handle StepWizard.Elapse
                 (StepWizard.mkWizard (StepWizard.mkState (s + 1) a2) [t2]
                    done)
               = StepWizard.mkWizard (StepWizard.mkState (s + 2) a2) []
                   done).
  { cbn [StepWizard.handle StepWizard.timers]. unfold StepWizard.fire.
    cbn [t2 StepWizard.seen StepWizard.step]. rewrite Hlt.
    cbn [StepWizard.state StepWizard.step StepWizard.answers
         StepWizard.timers StepWizard.completed].
    do 2 f_equal. lia. }
  assert (Heq : wz' = StepWizard.mkWizard (StepWizard.mkState (s + 2) a2) []
                        done).
  { subst wz'. unfold StepWizard.run. cbn [fold_left].
    rewrite H1, H2, H3, H4. reflexivity. }
  split; [exact Heq|].
  intros H4' actions. rewrite Heq. subst s.
  induction actions as [|act actions IH]; [reflexivity|].
  cbn [StepWizard.run fold_left].
  assert (Hsame : StepWizard.handle act
                    (StepWizard.mkWizard (StepWizard.mkState (4 + 2) a2) []
                       done)
                  = StepWizard.mkWizard (StepWizard.mkState (4 + 2) a2) []
                      done)
    by (destruct act; reflexivity).
  rewrite Hsame. exact IH.
Qed.

Lemma wizard_double_click_skips_witness :
  let wz :=
    StepWizard.run
      [StepWizard.Typed "bolos"; StepWizard.ClickContinue;
       StepWizard.Choose 0; StepWizard.Elapse; StepWizard.Choose 0;
       StepWizard.Elapse] StepWizard.initial in
  let wz' :=
    StepWizard.run
      [StepWizard.Choose 0; StepWizard.Choose 1; StepWizard.Elapse;
       StepWizard.Elapse] wz in
  wz' = StepWizard.mkWizard
          (StepWizard.mkState (StepWizard.step (StepWizard.state wz) + 2)
             (StepWizard.withAnswer StepWizard.Objective "Ensinar"
                (StepWizard.withAnswer StepWizard.Objective "Vender"
                   (StepWizard.answers (StepWizard.state wz)))))
          [] (StepWizard.completed wz) /\
  (StepWizard.step (StepWizard.state wz) = 4 ->
   forall actions, StepWizard.run actions wz' = wz').
Proof.
  apply (wizard_double_click_skips
           (StepWizard.run
              [StepWizard.Typed "bolos"; StepWizard.ClickContinue;
               StepWizard.Choose 0; StepWizard.Elapse; StepWizard.Choose 0;
               StepWizard.Elapse] StepWizard.initial)
           StepWizard.Objective 0 1 "Vender" "Ensinar");
    try reflexivity.
  vm_compute. split; discriminate.
Defined.

(** ** The application of the second revision *)

Module BatchedAppFacts.
Import Batched BatchedSpec.

(** [Promise.all] with a member that never settles: nothing is returned,
    and nothing is reported meanwhile. *)
Lemma promiseAll_waits parseContent members order w (j : nat) :
  (j < length members)%nat -> j ∉ order ->
  exists l,
    promiseAll parseContent members order w = (Pending, logged l w) /\
    quiet l.
Proof.
  intros Hj Hnot. unfold promiseAll.
  destruct (BatchedMore.settleAll_quiet parseContent members order
              (replicate (length members) None) w) as (l & Hs & Hq).
  exists l. split; [|exact Hq]. erewrite bind_ok by exact Hs.
  assert (Hnone : mapM id (stored parseContent members order
                             (replicate (length members) None)) = None).
  { apply mapM_None_2. apply Exists_exists. exists None. split; [|reflexivity].
    apply (list_elem_of_lookup_2 _ j).
    rewrite BatchedFacts.stored_lookup by apply length_replicate.
    rewrite decide_False by assumption.
    apply lookup_replicate_2. assumption. }
  rewrite Hnone. reflexivity.
Qed.

(** The run in which a request of the first batch never settles, with what
    it has reported. *)
Lemma generateMaterial_waits api parseOutline parseContent answers
    settleOrder w outline w1 (j : nat) :
  generateOutline api parseOutline answers (started w) = (Ok (Outline outline), w1) ->
  (j < length (take batchSize (OutlineData.chapterTitles outline)))%nat ->
  j ∉ settleOrder 0%nat ->
  exists w' l,
    generateMaterial api parseOutline parseContent answers settleOrder w
    = (Pending, w') /\
    trace w'
    = trace w ++
      [Progress "Criando estrutura, capa e sumário...";
       Progress (batchProgress 0
                   (length (OutlineData.chapterTitles outline)))] ++ l /\
    quiet l.
Proof.
  intros Ho Hj Hnot.
  set (titles := OutlineData.chapterTitles outline) in *.
  assert (Hpos : (0 < length titles)%nat).
  { rewrite length_take in Hj. lia. }
  assert (Hw1 := BatchedMore.generateOutline_world _ _ _ _ _ _ Ho).
  destruct (promiseAll_waits parseContent
              (inFlight api answers outline
                 (calls (logged [Progress (batchProgress 0 (length titles))]
                           w1))
                 (take batchSize titles))
              (settleOrder 0%nat)
              {| calls := calls w1 + length (take batchSize titles);
                 trace := trace w1 ++
                   [Progress (batchProgress 0 (length titles))] |} j)
    as (l & Hp & Hq).
  { unfold inFlight. rewrite length_imap. exact Hj. }
  { exact Hnot. }
  eexists _, l. split; [|split; [|exact Hq]].
  - unfold generateMaterial, onProgress.
    erewrite bind_ok by reflexivity. erewrite bind_ok by exact Ho.
    erewrite bind_ok by reflexivity.
    apply bind_pending. unfold generateChapters.
    cbn [batchLoop]. fold titles.
    destruct (Nat.ltb_spec 0 (length titles)) as [_|]; [|lia].
    unfold onProgress. erewrite bind_ok by reflexivity.
    erewrite bind_ok by apply BatchedFacts.startBatch_value.
    apply bind_pending. cbn [drop]. exact Hp.
  - subst w1. unfold started, tick, logged. cbn [trace calls].
    rewrite <- !app_assoc. reflexivity.
Qed.

End BatchedAppFacts.

(** X24.  In the second revision a request that never settles leaves the
    page waiting for good: if one request of the first batch stays
    pending, the page remains in the generating view under the message of
    that batch, nothing is alerted and the book shown before is kept. *)
Theorem batched_app_waits_forever (api : Api)
    (parseOutline : string -> Settled Reply)
    (parseContent : string -> Settled (option string)) (finalAnswers : Answers.t)
    (settleOrder : nat -> list nat) (p : BatchedApp.Page) outline w1
    (j : nat) :
  let titles := OutlineData.chapterTitles outline in
  Batched.generateOutline api parseOutline finalAnswers
    (BatchedSpec.started (BatchedApp.world p)) = (Ok (Outline outline), w1) ->
  (j < length (take Batched.batchSize titles))%nat ->
  j ∉ settleOrder 0%nat ->
  let p' :=
    BatchedApp.handleWizardComplete api parseOutline parseContent settleOrder
      finalAnswers p in
  BatchedApp.state p'
  = BatchedApp.mkState BatchedApp.Generating (Some finalAnswers)
      (BatchedApp.content (BatchedApp.state p))
      (Batched.batchProgress 0 (length titles)) /\
  BatchedApp.effects p' = BatchedApp.effects p.
Proof.
  intros titles Ho Hj Hnot p'. subst p'.
  destruct (BatchedAppFacts.generateMaterial_waits api parseOutline
              parseContent finalAnswers settleOrder (BatchedApp.world p)
              outline w1 j Ho Hj Hnot) as (w' & l & Hrun & Htrace & Hq).
  unfold BatchedApp.handleWizardComplete. rewrite Hrun, Htrace.
  rewrite drop_app_length. destruct Hq as [_ Hq].
  unfold progressMessages in *. rewrite omap_app, Hq.
  split; reflexivity.
Qed.

Lemma batched_app_waits_forever_witness :
  let p := BatchedApp.mkPage BatchedApp.initial [] Demo.start in
  let p' :=
    BatchedApp.handleWizardComplete Demo.api Demo.parseOutline
      Demo.parseContent (fun _ => [2; 0]%nat) Demo.answers p in
  BatchedApp.state p'
  = BatchedApp.mkState BatchedApp.Generating (Some Demo.answers) None
      (Batched.batchProgress 0 4) /\
  BatchedApp.effects p' = [].
Proof.
  apply (batched_app_waits_forever Demo.api Demo.parseOutline
           Demo.parseContent Demo.answers (fun _ => [2; 0]%nat)
           (BatchedApp.mkPage BatchedApp.initial [] Demo.start) Demo.outline
           (mkWorld 1 [Progress "Criando estrutura, capa e sumário..."])
           1%nat).
  - vm_compute. reflexivity.
  - cbn. lia.
  - intros H. apply elem_of_cons in H as [H|H]; [discriminate|].
    apply elem_of_cons in H as [H|H]; [discriminate|]. inversion H.
Defined.

(** ** The document *)

Module LayoutFacts.
Import Layout LayoutSpec.

Section Calls.
Context {n : Type}.
Implicit Types (s : Style) (l : list (Call n)).

Lemma styleAfter_app s l1 l2 :
  styleAfter s (l1 ++ l2) = styleAfter (styleAfter s l1) l2.
Proof. apply fold_left_app. Qed.











Lemma perform_refused c l :
  refuses c = true -> perform (c :: l) = mkRendering [] true.
Proof. intros H. cbn [perform]. rewrite H. reflexivity. Qed.



End Calls.


Lemma not_numeric_refused L (c : Pdf.Rgb) :
  numeric c = false -> refuses (setFill L c) = true.
Proof.
  unfold numeric, setFill, refuses. intros H.
  apply negb_false_iff in H. exact H.
Qed.

Section Throttled.
Variable L : Runtime.
Variable data : ContentData.t Throttled.Chapter.

Local Abbreviation bottom := (sub L (pageHeight L) (margin L)).
Local Abbreviation taken := (fun c : Call (num L) => refuses c = false).






Lemma createPDF_threw :
  numeric (Pdf.primaryColor data) = false ->
  ThrottledPdf.createPDF L data = mkRendering [] true.
Proof.
  intros Hnum. unfold ThrottledPdf.createPDF, ThrottledPdf.script,
    ThrottledPdf.cover.
  apply (perform_refused (setFill L (Pdf.primaryColor data))).
  apply not_numeric_refused, Hnum.
Qed.









End Throttled.


Section Batched.
Variable L : Runtime.
Variable data : ContentData.t Batched.Chapter.

Local Abbreviation bottom := (sub L (pageHeight L) (margin L)).
Local Abbreviation tocBottom := (sub L (pageHeight L) (int L 30)).
Local Abbreviation body := (mkStyle ("times", "roman") 12 (grey 40)).
Local Abbreviation taken := (fun c : Call (num L) => refuses c = false).





Lemma batched_createPDF_threw :
  numeric (Pdf.primaryColor data) = false ->
  BatchedPdf.createPDF L data = mkRendering [] true.
Proof.
  intros Hnum. unfold BatchedPdf.createPDF, BatchedPdf.script,
    BatchedPdf.cover.
  apply (perform_refused (setFill L (Pdf.primaryColor data))).
  apply not_numeric_refused, Hnum.
Qed.










End Batched.


End LayoutFacts.









(** C8.  The claim holds of [#1e293b] and of a colour that is missing,
    empty or without its [#], and fails of any other colour that is not
    in the documented form: [hexToRgb] does not test the digits.  The
    channels of [#zzzzzz] are read all the same and come out as [NaN],
    not as the fallback, and with them [createPDF] of either revision
    ends on its first call, which the library throws on: for such a book
    no document is drawn and none is saved. *)
Theorem invalid_colour_breaks_pdf (L : Layout.Runtime)
    (title subtitle author summary : string)
    (chapters1 : list Throttled.Chapter) (chapters2 : list Batched.Chapter) :
  PdfSpec.validHex "#zzzzzz" = false /\
  Pdf.hexToRgb (Some "#zzzzzz")
  = {| Pdf.r := Js.NaN; Pdf.g := Js.NaN; Pdf.b := Js.NaN |} /\
  Pdf.hexToRgb (Some "#zzzzzz") <> Pdf.fallback /\
  ThrottledPdf.createPDF L
    (ContentData.mk title subtitle author summary (Some "#zzzzzz") chapters1)
  = Layout.mkRendering [] true /\
  BatchedPdf.createPDF L
    (ContentData.mk title subtitle author summary (Some "#zzzzzz") chapters2)
  = Layout.mkRendering [] true.
Proof.
  split; [reflexivity|]. split; [reflexivity|]. split; [discriminate|].
  split.
  - apply LayoutFacts.createPDF_threw. reflexivity.
  - apply LayoutFacts.batched_createPDF_threw. reflexivity.
Qed.
